(** * NutriScore+ backend: a shallow embedding of [backend/app.py]

    The calculators ([calculate_health_score], [calculate_target_calories],
    [_unrealistic]), the profile audit trail and the request handlers for
    profiles, users and consumption entries are embedded as Rocq functions.
    Python floats are IEEE binary64 values ([PrimFloat.float]), dictionaries
    are finite maps with string keys, and handlers run in a state and
    exception monad over the stored tables. *)

From Stdlib Require Import ZArith Floats Lia.
From stdpp Require Import gmap strings list fin_maps pretty.

Set Warnings "-inexact-float".
#[local] Open Scope Z_scope.

(** ** Python values and exceptions *)

(** The scalar values that travel through JSON payloads, table rows and the
    session: [None], booleans, integers, floats and strings. *)
Inductive pyval : Type :=
  | PNone
  | PBool (b : bool)
  | PInt (z : Z)
  | PFloat (f : float)
  | PStr (s : string).

Inductive exn_kind : Type :=
  | ValueError
  | TypeError
  | OverflowError
  | ZeroDivisionError
  | KeyError
  | AttributeError
  | OperationalError.

Record exn : Type := Exn { exn_kind_of : exn_kind; exn_msg : string }.

(** Outcome of an expression that may raise. *)
Inductive result (A : Type) : Type :=
  | Ok (a : A)
  | Raise (e : exn).
Arguments Ok {A} a.
Arguments Raise {A} e.

Definition rbind {A B} (r : result A) (k : A → result B) : result B :=
  match r with
  | Ok a => k a
  | Raise e => Raise e
  end.

(** What the interpreter and the libraries outside the repository provide:
    [float(str)] and [int(str)] parsing, [str()], the password hashing
    primitives of werkzeug, the process environment, the clock, and the
    storage connection, which may fail on any attempt (numbered from 0). *)
Record platform : Type := Platform {
  parse_float : string → option float;
  parse_int : string → option Z;
  py_str : pyval → string;
  generate_password_hash : string → string;
  check_password_hash : string → string → bool;
  getenv : string → option string;
  utcnow : Z;
  conn_fails : nat → option string
}.

(** ** Floats as Python sees them *)

(** Nearest integer to [m * 2^e], ties to the even one. *)
Definition rne (m : positive) (e : Z) : Z :=
  if 0 <=? e then Z.pos m * 2 ^ e
  else
    let d := 2 ^ (- e) in
    let q := Z.pos m / d in
    let r := Z.pos m mod d in
    if 2 * r <? d then q
    else if d <? 2 * r then q + 1
    else if Z.even q then q else q + 1.

(** Integer part of [m * 2^e]. *)
Definition trunc_pos (m : positive) (e : Z) : Z :=
  if 0 <=? e then Z.pos m * 2 ^ e else Z.pos m / 2 ^ (- e).

(** [round(x)] with one argument: an [int], half to even; NaN and the
    infinities raise. *)
Definition py_round (x : float) : result Z :=
  match Prim2SF x with
  | S754_zero _ => Ok 0
  | S754_finite s m e => Ok (if s then - rne m e else rne m e)
  | S754_infinity _ =>
      Raise (Exn OverflowError "cannot convert float infinity to integer")
  | S754_nan => Raise (Exn ValueError "cannot convert float NaN to integer")
  end.

(** [round(x, 2)]: the double nearest to the decimal with two fractional
    digits that is nearest to [x] (ties to even on the exact binary value);
    NaN and the infinities are returned unchanged, the sign is kept. *)
Definition py_round2 (x : float) : float :=
  match Prim2SF x with
  | S754_finite s m e =>
      match rne (100 * m) e with
      | Z.pos n =>
          SF2Prim (SFdiv prec emax (S754_finite s n 0) (S754_finite false 100 0))
      | _ => SF2Prim (S754_zero s)
      end
  | _ => x
  end.

(** [float(n)] for an [int]: correctly rounded, too large raises. *)
Definition Z2float (z : Z) : float :=
  SF2Prim (binary_normalize prec emax z 0 false).

Definition is_finite (x : float) : bool :=
  match Prim2SF x with
  | S754_zero _ | S754_finite _ _ _ => true
  | _ => false
  end.

Definition py_truthy (v : pyval) : bool :=
  match v with
  | PNone => false
  | PBool b => b
  | PInt z => negb (z =? 0)
  | PFloat f => negb (f =? 0)%float
  | PStr s => negb (String.eqb s "")
  end.

(** [v == "literal"] *)
Definition py_eq_str (v : pyval) (s : string) : bool :=
  match v with
  | PStr t => String.eqb t s
  | _ => false
  end.

(** [v in [literals]] *)
Definition py_in_strs (v : pyval) (l : list string) : bool :=
  existsb (py_eq_str v) l.

Section Conversions.
Variable P : platform.

(** [float(v)] *)
Definition py_float (v : pyval) : result float :=
  match v with
  | PNone =>
      Raise (Exn TypeError
        "float() argument must be a string or a real number, not 'NoneType'")
  | PBool b => Ok (if b then 1 else 0)%float
  | PInt z =>
      let f := Z2float z in
      if is_finite f then Ok f
      else Raise (Exn OverflowError "int too large to convert to float")
  | PFloat f => Ok f
  | PStr s =>
      match parse_float P s with
      | Some f => Ok f
      | None => Raise (Exn ValueError "could not convert string to float")
      end
  end.

(** [int(v)] *)
Definition py_int (v : pyval) : result Z :=
  match v with
  | PNone =>
      Raise (Exn TypeError
        "int() argument must be a string, a bytes-like object or a real number, not 'NoneType'")
  | PBool b => Ok (if b then 1 else 0)
  | PInt z => Ok z
  | PFloat f =>
      match Prim2SF f with
      | S754_zero _ => Ok 0
      | S754_finite s m e => Ok (if s then - trunc_pos m e else trunc_pos m e)
      | S754_infinity _ =>
          Raise (Exn OverflowError "cannot convert float infinity to integer")
      | S754_nan => Raise (Exn ValueError "cannot convert float NaN to integer")
      end
  | PStr s =>
      match parse_int P s with
      | Some z => Ok z
      | None => Raise (Exn ValueError "invalid literal for int() with base 10")
      end
  end.
End Conversions.

(** Numeric [<] between ints and floats, as [min] and [max] use it. *)
Definition num_lt (a b : pyval) : bool :=
  match a, b with
  | PInt x, PInt y => x <? y
  | PInt x, PFloat y => (Z2float x <? y)%float
  | PFloat x, PInt y => (x <? Z2float y)%float
  | PFloat x, PFloat y => (x <? y)%float
  | _, _ => false
  end.

(** [min(a, b)] and [max(a, b)]: the first argument wins unless the second
    is strictly smaller (resp. larger). *)
Definition py_min (a b : pyval) : pyval := if num_lt b a then b else a.
Definition py_max (a b : pyval) : pyval := if num_lt a b then b else a.

(** ** Helper functions of the backend *)

(** [x / y] on floats: a zero divisor raises. *)
Definition py_div (x y : float) : result float :=
  if (y =? 0)%float then Raise (Exn ZeroDivisionError "float division by zero")
  else Ok (x / y)%float.

Definition calculate_health_score (calories protein fiber sugars : float)
    : result pyval :=
  if (calories <=? 0)%float then Ok (PInt 0)
  else
    rbind (if (0 <? calories)%float
           then rbind (py_div protein calories) (λ q, Ok (q * 50)%float)
           else Ok 0%float) (λ protein_score,
      let fiber_score := (fiber * 5)%float in
      let sugar_penalty := (sugars * 2.5)%float in
      let score := (70 + protein_score + fiber_score - sugar_penalty)%float in
      Ok (py_max (PInt 0) (py_min (PInt 100) (PFloat (py_round2 score))))).

Definition _to_cm (height_value : float) (height_unit : pyval) : float :=
  if py_eq_str height_unit "in" then (height_value * 2.54)%float else height_value.

Definition _to_kg (weight_value : float) (weight_unit : pyval) : float :=
  if py_eq_str weight_unit "lb" then (weight_value * 0.45359237)%float
  else weight_value.

Definition multipliers : gmap string float :=
  <["weight_loss" := 0.80%float]>
  (<["maintain" := 1.00%float]>
  (<["eat_healthy" := 1.00%float]>
  (<["weight_gain" := 1.15%float]> ∅))).

(** [multipliers.get(dietary_goal, 1.00)]: only a string can hit a key. *)
Definition multiplier_of (dietary_goal : pyval) : float :=
  match dietary_goal with
  | PStr g => default 1.00%float (multipliers !! g)
  | _ => 1.00%float
  end.

Section Calculator.
Variable P : platform.

Definition calculate_target_calories
    (height_value height_unit weight_value weight_unit dietary_goal : pyval)
    : result Z :=
  rbind (py_float P height_value) (λ h,
  rbind (py_float P weight_value) (λ w,
    let h_cm := _to_cm h height_unit in
    let w_kg := _to_kg w weight_unit in
    let baseline := (22.0 * w_kg + 6.0 * h_cm)%float in
    let mult := multiplier_of dietary_goal in
    let raw := (baseline * mult)%float in
    rbind (py_round (raw / 10.0)%float) (λ r,
      let rounded := r * 10 in
      Ok (Z.max 1200 (Z.min 4000 rounded))))).
End Calculator.

Definition _unrealistic (height_cm weight_kg : float) : bool :=
  (height_cm <? 100)%float || (250 <? height_cm)%float
  || (weight_kg <? 30)%float || (300 <? weight_kg)%float.

(** ** Dictionaries *)

(** A Python [dict] with string keys: JSON payloads and table rows. *)
Abbreviation pydict := (gmap string pyval).

(** [d.get(k)] *)
Definition dict_get (d : pydict) (k : string) : pyval := default PNone (d !! k).

(** [d.get(k, dflt)]: the default only replaces a missing key. *)
Definition dict_get_default (d : pydict) (k : string) (dflt : pyval) : pyval :=
  default dflt (d !! k).

(** [d[k]] *)
Definition getitem (d : pydict) (k : string) : result pyval :=
  match d !! k with
  | Some v => Ok v
  | None => Raise (Exn KeyError k)
  end.

(** [k in d] *)
Definition dict_has (d : pydict) (k : string) : bool :=
  match d !! k with
  | Some _ => true
  | None => false
  end.

(** [not d] for a dictionary *)
Definition dict_is_empty {A} (d : gmap string A) : bool :=
  match map_to_list d with
  | [] => true
  | _ :: _ => false
  end.

Definition is_none (v : pyval) : bool :=
  match v with
  | PNone => true
  | _ => false
  end.

(** [for k in keys: if k in data and data[k] is not None: new_row[k] = data[k]] *)
Definition compose_row (keys : list string) (data old_row : pydict) : pydict :=
  foldl (λ new_row k,
           match data !! k with
           | Some v => if is_none v then new_row else <[k := v]> new_row
           | None => new_row
           end) old_row keys.

(** [[k for k in required if k not in data]] *)
Definition missing_keys (required : list string) (data : pydict) : list string :=
  List.filter (λ k, negb (dict_has data k)) required.

Definition is_space (a : Ascii.ascii) : bool :=
  let n := Ascii.nat_of_ascii a in
  ((9 <=? n)%nat && (n <=? 13)%nat) || ((28 <=? n)%nat && (n <=? 32)%nat)
  || (n =? 133)%nat || (n =? 160)%nat.

Fixpoint lstrip (s : string) : string :=
  match s with
  | String a s' => if is_space a then lstrip s' else s
  | EmptyString => EmptyString
  end.

Fixpoint rstrip (s : string) : string :=
  match s with
  | String a s' =>
      match rstrip s' with
      | EmptyString => if is_space a then EmptyString else String a EmptyString
      | t => String a t
      end
  | EmptyString => EmptyString
  end.

(** [s.strip()] *)
Definition strip (s : string) : string := rstrip (lstrip s).

(** ** Stored state *)

(** One row of [user_profile_changes]. *)
Record profile_change : Type := ProfileChange {
  pc_user_id : pyval;
  pc_changed_by_user_id : pyval;
  pc_changed_by_role : pyval;
  pc_changed_fields : gmap string (pyval * pyval);
  pc_changed_at : Z
}.

Record database : Type := Database {
  users : list pydict;
  food_items : list pydict;
  consumption : list pydict;
  user_profile_changes : list profile_change;
  users_seq : Z;
  consumption_seq : Z
}.

(** [session["user"]]: always the three keys [user_id], [username], [role]. *)
Record session_user : Type := SessionUser {
  su_user_id : pyval;
  su_username : pyval;
  su_role : pyval
}.

(** The tables, the caller's session cookie, the number of connection
    attempts made so far and the process-wide bootstrap flag. *)
Record world : Type := World {
  db : database;
  session : option session_user;
  conns : nat;
  bootstrap_done : bool
}.

Definition set_db (d : database) (w : world) : world :=
  World d (session w) (conns w) (bootstrap_done w).
Definition set_session (s : option session_user) (w : world) : world :=
  World (db w) s (conns w) (bootstrap_done w).
Definition set_conns (n : nat) (w : world) : world :=
  World (db w) (session w) n (bootstrap_done w).
Definition set_bootstrap_done (b : bool) (w : world) : world :=
  World (db w) (session w) (conns w) b.

Definition set_users (l : list pydict) (d : database) : database :=
  Database l (food_items d) (consumption d) (user_profile_changes d)
           (users_seq d) (consumption_seq d).
Definition set_consumption (l : list pydict) (d : database) : database :=
  Database (users d) (food_items d) l (user_profile_changes d)
           (users_seq d) (consumption_seq d).

(** Modelled from the spec: the table declarations are not part of the
    sources. A column that an INSERT does not list is NULL, the primary keys
    are serial, a stored value is kept as it was passed, and [=] in a WHERE
    clause compares integers with integers and strings with strings. *)
Definition users_columns : list string :=
  ["user_id"; "username"; "role"; "password_hash"; "dietary_goal";
   "target_calories"; "height_value"; "height_unit"; "weight_value";
   "weight_unit"; "created_at"].

Definition consumption_columns : list string :=
  ["entry_id"; "user_id"; "food_id"; "date"; "portion_size"; "calories";
   "protein"; "carbs"; "fat"; "fiber"; "sugars"; "health_score"; "meal_type";
   "created_at"].

Definition sql_eq (a b : pyval) : bool :=
  match a, b with
  | PInt x, PInt y => x =? y
  | PStr x, PStr y => String.eqb x y
  | _, _ => false
  end.

(** [SELECT cols]: the row restricted to the listed columns. *)
Definition project (cols : list string) (r : pydict) : pydict :=
  list_to_map ((λ k, (k, dict_get r k)) <$> cols).

(** [SET k1 = v1, k2 = v2, ...] on one row. *)
Definition set_cols (assignments : list (string * pyval)) (r : pydict) : pydict :=
  foldl (λ acc kv, <[kv.1 := kv.2]> acc) r assignments.

Definition null_row (cols : list string) : pydict :=
  list_to_map ((λ k, (k, PNone)) <$> cols).

(** [SELECT ... WHERE p; fetchone()] *)
Definition select_where (tbl : list pydict) (p : pydict → bool) : option pydict :=
  head (List.filter p tbl).

(** [UPDATE ... SET ... WHERE p] *)
Definition update_where (tbl : list pydict) (p : pydict → bool)
    (assignments : list (string * pyval)) : list pydict :=
  (λ r, if p r then set_cols assignments r else r) <$> tbl.

(** ** Handlers as state transformers that may raise *)

Definition M (A : Type) : Type := world → result A * world.

Definition ret {A} (a : A) : M A := λ w, (Ok a, w).

Definition bind {A B} (m : M A) (k : A → M B) : M B := λ w,
  match m w with
  | (Ok a, w') => k a w'
  | (Raise e, w') => (Raise e, w')
  end.

Definition lift {A} (r : result A) : M A := λ w, (r, w).

(** [try: body except Exception as e: handler(e)] *)
Definition catch {A} (body : M A) (handler : exn → M A) : M A := λ w,
  match body w with
  | (Ok a, w') => (Ok a, w')
  | (Raise e, w') => handler e w'
  end.

Definition get_db : M database := λ w, (Ok (db w), w).
Definition put_db (d : database) : M unit := λ w, (Ok tt, set_db d w).

Notation "x <- c1 ;; c2" := (bind c1 (λ x, c2))
  (at level 100, c1 at next level, right associativity).
Notation "c1 ;; c2" := (bind c1 (λ _, c2))
  (at level 100, right associativity).

Record response : Type := Response { body : option pydict; status : nat }.

(** [return jsonify(d), code] *)
Definition jsonify (d : pydict) (code : nat) : M response :=
  ret (Response (Some d) code).

Definition error_body (msg : string) : pydict := {[ "error" := PStr msg ]}.

(** [return jsonify({"error": msg}), code] *)
Definition json_error (code : nat) (msg : string) : M response :=
  jsonify (error_body msg) code.

(** The handlers' outer [except Exception as e: return jsonify({"error": str(e)}), 500] *)
Definition on_exception (e : exn) : M response := json_error 500 (exn_msg e).

Definition requires_confirmation_body (msg : string) (preview : Z) : pydict :=
  <["error" := PStr msg]>
  (<["requires_confirmation" := PBool true]>
  (<["preview_target_calories" := PInt preview]> ∅)).

Definition session_body (u : session_user) : pydict :=
  <["user_id" := su_user_id u]>
  (<["username" := su_username u]>
  (<["role" := su_role u]> ∅)).

(** ** The backend *)

Section Backend.
Variable P : platform.

(** [with get_conn() as conn: with conn.cursor() as cur: body]: one more
    connection attempt; the block commits when [body] ends normally (also
    through a [return]) and rolls the tables back when it raises. *)
Definition with_conn {A} (body : M A) : M A := λ w,
  let w1 := set_conns (S (conns w)) w in
  match conn_fails P (conns w) with
  | Some msg => (Raise (Exn OperationalError msg), w1)
  | None =>
      match body w1 with
      | (Ok a, w2) => (Ok a, w2)
      | (Raise e, w2) => (Raise e, set_db (db w1) w2)
      end
  end.

(** *** Authentication and roles *)

Definition _current_user : M (option session_user) := λ w, (Ok (session w), w).

(** The wrapped function reads [_current_user()] again; it is handed the
    user the decorator has just seen. *)
Definition require_auth (fn : session_user → M response) : M response :=
  user <- _current_user ;;
  match user with
  | None => json_error 401 "Not authenticated"
  | Some u => fn u
  end.

Definition require_admin (fn : session_user → M response) : M response :=
  user <- _current_user ;;
  match user with
  | None => json_error 401 "Not authenticated"
  | Some u =>
      if negb (py_eq_str (su_role u) "admin")
      then json_error 403 "You don't have permission"
      else fn u
  end.

(** [ORDER BY user_id LIMIT 1] *)
Definition first_by_user_id (rows : list pydict) : option pydict :=
  foldl (λ best r,
           match best with
           | None => Some r
           | Some b =>
               if num_lt (dict_get r "user_id") (dict_get b "user_id")
               then Some r else Some b
           end) None rows.

Definition insert_user (assignments : list (string * pyval)) : M pydict :=
  d <- get_db ;;
  let new_row :=
    set_cols assignments
      (<["user_id" := PInt (users_seq d)]> (null_row users_columns)) in
  put_db (Database (users d ++ [new_row]) (food_items d) (consumption d)
            (user_profile_changes d) (users_seq d + 1) (consumption_seq d)) ;;
  ret new_row.

Definition update_users (p : pydict → bool)
    (assignments : list (string * pyval)) : M (option pydict) :=
  d <- get_db ;;
  put_db (set_users (update_where (users d) p assignments) d) ;;
  ret (head (set_cols assignments <$> List.filter p (users d))).

Definition ensure_admin_bootstrap : M unit :=
  let admin_password := default "admin123" (getenv P "ADMIN_BOOTSTRAP_PASSWORD") in
  catch
    (with_conn
       (d <- get_db ;;
        let admin :=
          first_by_user_id
            (List.filter (λ r, py_eq_str (dict_get r "role") "admin") (users d)) in
        match admin with
        | None =>
            insert_user
              [("username", PStr "admin"); ("role", PStr "admin");
               ("password_hash", PStr (generate_password_hash P admin_password));
               ("dietary_goal", PStr "maintain"); ("target_calories", PInt 2000);
               ("created_at", PInt (utcnow P))] ;;
            ret tt
        | Some admin =>
            if negb (py_truthy (dict_get admin "password_hash"))
            then
              uid <- lift (getitem admin "user_id") ;;
              update_users (λ r, sql_eq (dict_get r "user_id") uid)
                [("password_hash", PStr (generate_password_hash P admin_password))] ;;
              ret tt
            else ret tt
        end ;;
        let demo_password := default "password" (getenv P "DEMO_USER_PASSWORD") in
        update_users
          (λ r, is_none (dict_get r "password_hash")
                && match dict_get r "username" with
                   | PStr n => negb (String.eqb n "admin")
                   | _ => false
                   end)
          [("password_hash", PStr (generate_password_hash P demo_password))] ;;
        ret tt))
    (λ _, ret tt).

(** [@app.before_request] *)
Definition _bootstrap_once : M unit := λ w,
  if bootstrap_done w then (Ok tt, w)
  else
    match ensure_admin_bootstrap w with
    | (Ok _, w') => (Ok tt, set_bootstrap_done true w')
    | (Raise e, w') => (Raise e, w')
    end.

(** A request: the [before_request] hook, then the view function. *)
Definition serve (view : M response) : M response :=
  _bootstrap_once ;; view.

(** [(data.get(k) or "")] *)
Definition get_or_empty (data : pydict) (k : string) : pyval :=
  let v := dict_get data k in
  if py_truthy v then v else PStr "".

Definition login (data : pydict) : M response :=
  username <- lift (match get_or_empty data "username" with
                    | PStr s => Ok (strip s)
                    | _ => Raise (Exn AttributeError "object has no attribute 'strip'")
                    end) ;;
  let password := get_or_empty data "password" in
  if String.eqb username "" || negb (py_truthy password)
  then json_error 400 "Username and password are required"
  else
    catch
      (user <- with_conn
         (d <- get_db ;;
          ret (project ["user_id"; "username"; "role"; "password_hash"]
                 <$> select_where (users d)
                       (λ r, sql_eq (dict_get r "username") (PStr username)))) ;;
       match user with
       | None => json_error 401 "Invalid username or password"
       | Some user =>
           if negb (py_truthy (dict_get user "password_hash"))
           then json_error 401 "Invalid username or password"
           else
             pwhash <- lift (getitem user "password_hash") ;;
             ok <- lift (match pwhash, password with
                         | PStr h, PStr p => Ok (check_password_hash P h p)
                         | _, _ => Raise (Exn AttributeError "object has no attribute 'encode'")
                         end) ;;
             if negb ok
             then json_error 401 "Invalid username or password"
             else
               uid <- lift (getitem user "user_id") ;;
               uname <- lift (getitem user "username") ;;
               role <- lift (getitem user "role") ;;
               let u := SessionUser uid uname role in
               (λ w, (Ok tt, set_session (Some u) w)) ;;
               jsonify (session_body u) 200
       end)
      on_exception.

(** *** Profile audit *)

Definition tracked_fields : list string :=
  ["height_value"; "height_unit"; "weight_value"; "weight_unit";
   "dietary_goal"; "target_calories"].

(** The loop that fills [changed]. *)
Definition changed_fields (old_row new_row : pydict) : gmap string (pyval * pyval) :=
  foldl (λ changed k,
           if negb (String.eqb (py_str P (dict_get old_row k))
                               (py_str P (dict_get new_row k)))
           then <[k := (dict_get old_row k, dict_get new_row k)]> changed
           else changed) ∅ tracked_fields.

(** [new_row] is what [fetchone()] gave after the UPDATE: [None] has no
    [.get]. *)
Definition _audit_profile_change (target_user_id : pyval) (changed_by : session_user)
    (old_row : pydict) (new_row : option pydict) : M unit :=
  match new_row with
  | None => lift (Raise (Exn AttributeError "'NoneType' object has no attribute 'get'"))
  | Some new_row =>
      let changed := changed_fields old_row new_row in
      if dict_is_empty changed then ret tt
      else
        with_conn
          (d <- get_db ;;
           put_db (Database (users d) (food_items d) (consumption d)
                     (user_profile_changes d ++
                        [ProfileChange target_user_id (su_user_id changed_by)
                           (su_role changed_by) changed (utcnow P)])
                     (users_seq d) (consumption_seq d)))
  end.

(** *** Profile of the logged-in user *)

Definition profile_columns : list string :=
  ["user_id"; "username"; "role"; "dietary_goal"; "target_calories";
   "height_value"; "height_unit"; "weight_value"; "weight_unit"; "created_at"].

Definition select_profile (user_id : pyval) : M (option pydict) :=
  d <- get_db ;;
  ret (project profile_columns
         <$> select_where (users d) (λ r, sql_eq (dict_get r "user_id") user_id)).

(** The 400 answer of the unrealistic-value gate; computing the preview may
    raise. *)
Definition confirmation_required (msg : string)
    (height_value height_unit weight_value weight_unit dietary_goal : pyval)
    : M response :=
  preview <- lift (calculate_target_calories P height_value height_unit
                     weight_value weight_unit dietary_goal) ;;
  jsonify (requires_confirmation_body msg preview) 400.

Definition update_profile (data : pydict) : M response :=
  require_auth (λ current,
    if dict_is_empty data then json_error 400 "No fields to update"
    else
      catch
        (old_row <- with_conn (select_profile (su_user_id current)) ;;
         match old_row with
         | None => json_error 404 "Not found"
         | Some old_row =>
             let new_row :=
               compose_row ["dietary_goal"; "height_value"; "height_unit";
                            "weight_value"; "weight_unit"] data old_row in
             if negb (py_truthy (dict_get new_row "height_value"))
                || negb (py_truthy (dict_get new_row "weight_value"))
             then json_error 400 "Please enter both height and weight to update your goal."
             else
               hv <- lift (getitem new_row "height_value") ;;
               h <- lift (py_float P hv) ;;
               let h_cm := _to_cm h (dict_get_default new_row "height_unit" (PStr "cm")) in
               wv <- lift (getitem new_row "weight_value") ;;
               w <- lift (py_float P wv) ;;
               let w_kg := _to_kg w (dict_get_default new_row "weight_unit" (PStr "kg")) in
               if _unrealistic h_cm w_kg
                  && negb (py_truthy (dict_get data "confirm_unrealistic"))
               then
                 confirmation_required
                   "Your height/weight look unusual. Please confirm to continue."
                   hv (dict_get_default new_row "height_unit" (PStr "cm"))
                   wv (dict_get_default new_row "weight_unit" (PStr "kg"))
                   (dict_get_default new_row "dietary_goal" (PStr "maintain"))
               else
                 target <- lift (calculate_target_calories P
                              hv (dict_get_default new_row "height_unit" (PStr "cm"))
                              wv (dict_get_default new_row "weight_unit" (PStr "kg"))
                              (dict_get_default new_row "dietary_goal" (PStr "maintain"))) ;;
                 let new_row := <["target_calories" := PInt target]> new_row in
                 row <- with_conn
                   (r <- update_users
                      (λ r, sql_eq (dict_get r "user_id") (su_user_id current))
                      [("dietary_goal", dict_get new_row "dietary_goal");
                       ("target_calories", dict_get new_row "target_calories");
                       ("height_value", dict_get new_row "height_value");
                       ("height_unit", dict_get new_row "height_unit");
                       ("weight_value", dict_get new_row "weight_value");
                       ("weight_unit", dict_get new_row "weight_unit")] ;;
                    ret (project profile_columns <$> r)) ;;
                 _audit_profile_change (su_user_id current) current old_row row ;;
                 ret (Response row 200)
         end)
        on_exception).

Definition complete_profile (data : pydict) : M response :=
  require_auth (λ current,
    let missing :=
      missing_keys ["height_value"; "height_unit"; "weight_value"; "weight_unit";
                    "dietary_goal"] data in
    match missing with
    | _ :: _ => json_error 400 ("Missing fields: " +:+ String.concat ", " missing)
    | [] =>
      catch
        (hv <- lift (getitem data "height_value") ;;
         height_value <- lift (py_float P hv) ;;
         wv <- lift (getitem data "weight_value") ;;
         weight_value <- lift (py_float P wv) ;;
         height_unit <- lift (getitem data "height_unit") ;;
         weight_unit <- lift (getitem data "weight_unit") ;;
         dietary_goal <- lift (getitem data "dietary_goal") ;;
         if negb (py_in_strs height_unit ["cm"; "in"])
         then json_error 400 "height_unit must be 'cm' or 'in'"
         else if negb (py_in_strs weight_unit ["kg"; "lb"])
         then json_error 400 "weight_unit must be 'kg' or 'lb'"
         else if negb (py_in_strs dietary_goal
                         ["weight_gain"; "weight_loss"; "maintain"; "eat_healthy"])
         then json_error 400 "Invalid dietary_goal"
         else
           let h_cm := _to_cm height_value height_unit in
           let w_kg := _to_kg weight_value weight_unit in
           if _unrealistic h_cm w_kg
              && negb (py_truthy (dict_get data "confirm_unrealistic"))
           then
             confirmation_required
               "Your height/weight look unusual. Please confirm to continue."
               (PFloat height_value) height_unit (PFloat weight_value) weight_unit
               dietary_goal
           else
             target_calories <- lift (calculate_target_calories P
                                  (PFloat height_value) height_unit
                                  (PFloat weight_value) weight_unit dietary_goal) ;;
             old_row <- catch
               (with_conn
                  (d <- get_db ;;
                   ret (project tracked_fields
                          <$> select_where (users d)
                                (λ r, sql_eq (dict_get r "user_id") (su_user_id current)))))
               (λ _, ret None) ;;
             row <- with_conn
               (r <- update_users
                  (λ r, sql_eq (dict_get r "user_id") (su_user_id current))
                  [("height_value", PFloat height_value);
                   ("height_unit", height_unit);
                   ("weight_value", PFloat weight_value);
                   ("weight_unit", weight_unit);
                   ("dietary_goal", dietary_goal);
                   ("target_calories", PInt target_calories)] ;;
                ret (project profile_columns <$> r)) ;;
             match old_row with
             | Some old_row =>
                 catch
                   (_audit_profile_change (su_user_id current) current old_row row)
                   (λ _, ret tt)
             | None => ret tt
             end ;;
             match row with
             | Some row => jsonify (<["profile_complete" := PBool true]> row) 200
             | None => lift (Raise (Exn TypeError "'NoneType' object is not a mapping"))
             end)
        (λ e, match exn_kind_of e with
              | ValueError =>
                  json_error 400 "height_value and weight_value must be valid numbers"
              | _ => on_exception e
              end)
    end).

(** *** Users (admin) *)

Definition create_user (data : pydict) : M response :=
  require_admin (λ _,
    if negb (dict_has data "username")
    then json_error 400 "Missing required field: username"
    else
      catch
        (let missing_profile :=
           missing_keys ["height_value"; "height_unit"; "weight_value"; "weight_unit"]
             data in
         match missing_profile with
         | _ :: _ =>
             json_error 400 ("Missing fields: " +:+ String.concat ", " missing_profile)
         | [] =>
             let dietary_goal := dict_get_default data "dietary_goal" (PStr "maintain") in
             hv <- lift (getitem data "height_value") ;;
             h <- lift (py_float P hv) ;;
             let h_cm := _to_cm h (dict_get_default data "height_unit" (PStr "cm")) in
             wv <- lift (getitem data "weight_value") ;;
             w <- lift (py_float P wv) ;;
             let w_kg := _to_kg w (dict_get_default data "weight_unit" (PStr "kg")) in
             if _unrealistic h_cm w_kg
                && negb (py_truthy (dict_get data "confirm_unrealistic"))
             then
               confirmation_required
                 "Your height/weight look unusual. Please confirm to continue."
                 hv (dict_get_default data "height_unit" (PStr "cm"))
                 wv (dict_get_default data "weight_unit" (PStr "kg"))
                 dietary_goal
             else
               target_calories <- lift (calculate_target_calories P
                                    hv (dict_get_default data "height_unit" (PStr "cm"))
                                    wv (dict_get_default data "weight_unit" (PStr "kg"))
                                    dietary_goal) ;;
               new_row <- with_conn
                 (username <- lift (getitem data "username") ;;
                  r <- insert_user
                    [("username", username);
                     ("role", dict_get_default data "role" (PStr "user"));
                     ("dietary_goal", dietary_goal);
                     ("target_calories", PInt target_calories);
                     ("height_value", hv);
                     ("height_unit", dict_get_default data "height_unit" (PStr "cm"));
                     ("weight_value", wv);
                     ("weight_unit", dict_get_default data "weight_unit" (PStr "kg"));
                     ("created_at", PInt (utcnow P))] ;;
                  ret (project profile_columns r)) ;;
               jsonify new_row 201
         end)
        on_exception).

Definition update_user (user_id : Z) (data : pydict) : M response :=
  require_admin (λ changed_by,
    if dict_is_empty data then json_error 400 "No fields to update"
    else
      catch
        (current_row <- with_conn (select_profile (PInt user_id)) ;;
         match current_row with
         | None => json_error 404 "Not found"
         | Some current_row =>
             let new_row :=
               compose_row ["role"; "dietary_goal"; "height_value"; "height_unit";
                            "weight_value"; "weight_unit"] data current_row in
             let inputs_changed :=
               existsb (dict_has data)
                 ["dietary_goal"; "height_value"; "height_unit"; "weight_value";
                  "weight_unit"] in
             let write (new_row : pydict) : M response :=
               row <- with_conn
                 (r <- update_users
                    (λ r, sql_eq (dict_get r "user_id") (PInt user_id))
                    [("role", dict_get new_row "role");
                     ("dietary_goal", dict_get new_row "dietary_goal");
                     ("target_calories", dict_get new_row "target_calories");
                     ("height_value", dict_get new_row "height_value");
                     ("height_unit", dict_get new_row "height_unit");
                     ("weight_value", dict_get new_row "weight_value");
                     ("weight_unit", dict_get new_row "weight_unit")] ;;
                  ret (project profile_columns <$> r)) ;;
               _audit_profile_change (PInt user_id) changed_by current_row row ;;
               ret (Response row 200) in
             if inputs_changed then
               if negb (py_truthy (dict_get new_row "height_value"))
                  || negb (py_truthy (dict_get new_row "weight_value"))
               then json_error 400 "Please set height and weight before setting a goal."
               else
                 hv <- lift (getitem new_row "height_value") ;;
                 h <- lift (py_float P hv) ;;
                 let h_cm := _to_cm h (dict_get_default new_row "height_unit" (PStr "cm")) in
                 wv <- lift (getitem new_row "weight_value") ;;
                 w <- lift (py_float P wv) ;;
                 let w_kg := _to_kg w (dict_get_default new_row "weight_unit" (PStr "kg")) in
                 if _unrealistic h_cm w_kg
                    && negb (py_truthy (dict_get data "confirm_unrealistic"))
                 then
                   confirmation_required
                     "Height/weight look unusual. Please confirm to continue."
                     hv (dict_get_default new_row "height_unit" (PStr "cm"))
                     wv (dict_get_default new_row "weight_unit" (PStr "kg"))
                     (dict_get_default new_row "dietary_goal" (PStr "maintain"))
                 else
                   target <- lift (calculate_target_calories P
                                hv (dict_get_default new_row "height_unit" (PStr "cm"))
                                wv (dict_get_default new_row "weight_unit" (PStr "kg"))
                                (dict_get_default new_row "dietary_goal" (PStr "maintain"))) ;;
                   write (<["target_calories" := PInt target]> new_row)
             else write new_row
         end)
        on_exception).

(** *** Consumption entries *)

(** [float(food[k]) * portion_size] *)
Definition scaled (food : pydict) (k : string) (portion_size : float) : result float :=
  rbind (getitem food k) (λ v,
  rbind (py_float P v) (λ f, Ok (f * portion_size)%float)).

(** [food = cur.fetchone()]; subscripting [None] raises. *)
Definition subscriptable (food : option pydict) : result pydict :=
  match food with
  | Some food => Ok food
  | None => Raise (Exn TypeError "'NoneType' object is not subscriptable")
  end.

Definition select_food (food_id : pyval) : M (option pydict) :=
  d <- get_db ;;
  ret (select_where (food_items d) (λ r, sql_eq (dict_get r "food_id") food_id)).

Definition select_entry (entry_id : Z) : M (option pydict) :=
  d <- get_db ;;
  ret (select_where (consumption d)
         (λ r, sql_eq (dict_get r "entry_id") (PInt entry_id))).

Definition insert_consumption (assignments : list (string * pyval)) : M pydict :=
  d <- get_db ;;
  let new_row :=
    set_cols assignments
      (<["entry_id" := PInt (consumption_seq d)]> (null_row consumption_columns)) in
  put_db (Database (users d) (food_items d) (consumption d ++ [new_row])
            (user_profile_changes d) (users_seq d) (consumption_seq d + 1)) ;;
  ret new_row.

Definition create_consumption (data : pydict) : M response :=
  require_auth (λ current,
    let missing := missing_keys ["food_id"; "date"] data in
    match missing with
    | _ :: _ => json_error 400 ("Missing fields: " +:+ String.concat ", " missing)
    | [] =>
      catch
        (let continue (user_id : Z) : M response :=
           portion_size <- lift (py_float P
                             (dict_get_default data "portion_size" (PFloat 1.0))) ;;
           with_conn
             (food_id <- lift (getitem data "food_id") ;;
              food <- select_food food_id ;;
              match food with
              | None => json_error 404 "Food item not found"
              | Some food =>
                  calories <- lift (scaled food "calories" portion_size) ;;
                  protein <- lift (scaled food "protein" portion_size) ;;
                  carbs <- lift (scaled food "carbs" portion_size) ;;
                  fat <- lift (scaled food "fat" portion_size) ;;
                  fiber <- lift (scaled food "fiber" portion_size) ;;
                  sugars <- lift (scaled food "sugars" portion_size) ;;
                  health_score <- lift (calculate_health_score
                                          calories protein fiber sugars) ;;
                  date <- lift (getitem data "date") ;;
                  new_row <- insert_consumption
                    [("user_id", PInt user_id);
                     ("food_id", food_id);
                     ("date", date);
                     ("portion_size", PFloat portion_size);
                     ("calories", PFloat calories);
                     ("protein", PFloat protein);
                     ("carbs", PFloat carbs);
                     ("fat", PFloat fat);
                     ("fiber", PFloat fiber);
                     ("sugars", PFloat sugars);
                     ("health_score", health_score);
                     ("meal_type", dict_get data "meal_type");
                     ("created_at", PInt (utcnow P))] ;;
                  jsonify new_row 201
              end) in
         if py_eq_str (su_role current) "admin" then
           if negb (dict_has data "user_id")
           then json_error 400 "Missing field: user_id"
           else
             v <- lift (getitem data "user_id") ;;
             user_id <- lift (py_int P v) ;;
             continue user_id
         else
           user_id <- lift (py_int P (su_user_id current)) ;;
           continue user_id)
        on_exception
    end).

(** [for key in [...]: if key in data: fields.append(...); values.append(data[key])] *)
Definition update_assignments (data : pydict) : list (string * pyval) :=
  omap (λ key, (λ v, (key, v)) <$> data !! key)
    ["date"; "portion_size"; "calories"; "protein"; "carbs"; "fat"; "fiber";
     "sugars"; "health_score"; "meal_type"].

Definition update_consumption (entry_id : Z) (data : pydict) : M response :=
  require_auth (λ current_user,
    if dict_is_empty data then json_error 400 "No fields to update"
    else
      catch
        (with_conn
           (entry <- select_entry entry_id ;;
            match entry with
            | None => json_error 404 "Not found"
            | Some entry =>
                let continue : M response :=
                  data <-
                    (if dict_has data "portion_size" then
                       fid <- lift (getitem entry "food_id") ;;
                       food <- select_food fid ;;
                       pv <- lift (getitem data "portion_size") ;;
                       portion_size <- lift (py_float P pv) ;;
                       food <- lift (subscriptable food) ;;
                       calories <- lift (scaled food "calories" portion_size) ;;
                       protein <- lift (scaled food "protein" portion_size) ;;
                       carbs <- lift (scaled food "carbs" portion_size) ;;
                       fat <- lift (scaled food "fat" portion_size) ;;
                       fiber <- lift (scaled food "fiber" portion_size) ;;
                       sugars <- lift (scaled food "sugars" portion_size) ;;
                       health_score <- lift (calculate_health_score
                                               calories protein fiber sugars) ;;
                       ret (<["health_score" := health_score]>
                            (<["sugars" := PFloat sugars]>
                            (<["fiber" := PFloat fiber]>
                            (<["fat" := PFloat fat]>
                            (<["carbs" := PFloat carbs]>
                            (<["protein" := PFloat protein]>
                            (<["calories" := PFloat calories]> data)))))))
                     else ret data) ;;
                  let fields := update_assignments data in
                  match fields with
                  | [] => json_error 400 "No valid fields to update"
                  | _ :: _ =>
                      d <- get_db ;;
                      let p := λ r, sql_eq (dict_get r "entry_id") (PInt entry_id) in
                      put_db (set_consumption (update_where (consumption d) p fields) d) ;;
                      ret (Response (head (set_cols fields <$> List.filter p (consumption d)))
                             200)
                  end in
                if negb (py_eq_str (su_role current_user) "admin") then
                  uv <- lift (getitem entry "user_id") ;;
                  owner <- lift (py_int P uv) ;;
                  me <- lift (py_int P (su_user_id current_user)) ;;
                  if negb (owner =? me)
                  then json_error 403 "You don't have permission"
                  else continue
                else continue
            end))
        on_exception).
End Backend.

(** ** More endpoints *)

Section Accounts.
Variable P : platform.

(** [len(v)]: only a string has a length here, the number of its
    characters. *)
Definition py_len (v : pyval) : result nat :=
  match v with
  | PStr s => Ok (String.length s)
  | _ => Raise (Exn TypeError "object has no len()")
  end.

Definition signup (data : pydict) : M response :=
  username <- lift (match get_or_empty data "username" with
                    | PStr s => Ok (strip s)
                    | _ => Raise (Exn AttributeError "object has no attribute 'strip'")
                    end) ;;
  let password := get_or_empty data "password" in
  if String.eqb username "" || negb (py_truthy password)
  then json_error 400 "Username and password are required"
  else
    n <- lift (py_len password) ;;
    if (n <? 6)%nat
    then json_error 400 "Password must be at least 6 characters"
    else
      catch
        (user <- with_conn P
           (d <- get_db ;;
            match select_where (users d)
                    (λ r, sql_eq (dict_get r "username") (PStr username)) with
            | Some _ => ret None
            | None =>
                pw <- lift (match password with
                            | PStr p => Ok p
                            | _ => Raise (Exn TypeError "password must be a string")
                            end) ;;
                r <- insert_user
                  [("username", PStr username); ("role", PStr "user");
                   ("password_hash", PStr (generate_password_hash P pw));
                   ("dietary_goal", PStr "maintain"); ("target_calories", PInt 2000);
                   ("created_at", PInt (utcnow P))] ;;
                ret (Some (project ["user_id"; "username"; "role"] r))
            end) ;;
         match user with
         | None => json_error 400 "Username already exists"
         | Some user =>
             uid <- lift (getitem user "user_id") ;;
             uname <- lift (getitem user "username") ;;
             role <- lift (getitem user "role") ;;
             let u := SessionUser uid uname role in
             (λ w, (Ok tt, set_session (Some u) w)) ;;
             jsonify (session_body u) 201
         end)
        on_exception.

(** [session.pop("user", None)] *)
Definition logout : M response :=
  (λ w, (Ok tt, set_session None w)) ;;
  jsonify {[ "ok" := PBool true ]} 200.

Definition get_profile : M response :=
  require_auth (λ current,
    catch
      (row <- with_conn P (select_profile (su_user_id current)) ;;
       ret (Response row 200))
      on_exception).

Definition preview_profile_target (data : pydict) : M response :=
  require_auth (λ _,
    catch
      (let dietary_goal := dict_get_default data "dietary_goal" (PStr "maintain") in
       let h := dict_get data "height_value" in
       let w := dict_get data "weight_value" in
       if is_none h || is_none w
       then json_error 400 "Please provide height and weight"
       else
         let h_unit := dict_get_default data "height_unit" (PStr "cm") in
         let w_unit := dict_get_default data "weight_unit" (PStr "kg") in
         hf <- lift (py_float P h) ;;
         let h_cm := _to_cm hf h_unit in
         wf <- lift (py_float P w) ;;
         let w_kg := _to_kg wf w_unit in
         preview <- lift (calculate_target_calories P h h_unit w w_unit dietary_goal) ;;
         jsonify (<["preview_target_calories" := PInt preview]>
                    {[ "requires_confirmation" := PBool (_unrealistic h_cm w_kg) ]})
                 200)
      on_exception).

(** The caller is neither an admin nor the owner of [entry]:
    [current["role"] != "admin" and int(entry["user_id"]) != int(current["user_id"])] *)
Definition not_permitted (current : session_user) (entry : pydict) : result bool :=
  if negb (py_eq_str (su_role current) "admin") then
    rbind (getitem entry "user_id") (λ uv,
    rbind (py_int P uv) (λ owner,
    rbind (py_int P (su_user_id current)) (λ me,
      Ok (negb (owner =? me)))))
  else Ok false.

(** [SELECT c.*, f.food_id, f.food_name FROM consumption c JOIN food_items f
    ON c.food_id = f.food_id WHERE c.entry_id = %s; fetchone()]: with
    [entry_id] and [food_id] the keys of their tables the join has at most
    one row, the entry under the id together with its food item. *)
Definition select_entry_with_food (entry_id : Z) : M (option pydict) :=
  d <- get_db ;;
  ret (match select_where (consumption d)
               (λ r, sql_eq (dict_get r "entry_id") (PInt entry_id)) with
       | Some entry =>
           match select_where (food_items d)
                   (λ f, sql_eq (dict_get entry "food_id") (dict_get f "food_id")) with
           | Some food =>
               Some (<["food_name" := dict_get food "food_name"]>
                     (<["food_id" := dict_get food "food_id"]> entry))
           | None => None
           end
       | None => None
       end).

Definition get_consumption (entry_id : Z) : M response :=
  require_auth (λ current,
    catch
      (row <- with_conn P (select_entry_with_food entry_id) ;;
       match row with
       | None => json_error 404 "Not found"
       | Some row =>
           denied <- lift (not_permitted current row) ;;
           if denied then json_error 403 "You don't have permission"
           else jsonify row 200
       end)
      on_exception).

(** An answer of a DELETE endpoint: a plain response, or
    [jsonify({"deleted": row})]. *)
Inductive delete_reply : Type :=
  | Plain (r : response)
  | Deleted (row : option pydict).

Definition delete_consumption (entry_id : Z) : M delete_reply :=
  current <- _current_user ;;
  match current with
  | None => ret (Plain (Response (Some (error_body "Not authenticated")) 401))
  | Some current_user =>
      catch
        (with_conn P
           (d <- get_db ;;
            let p := λ r, sql_eq (dict_get r "entry_id") (PInt entry_id) in
            match project ["user_id"] <$> select_where (consumption d) p with
            | None => ret (Plain (Response (Some (error_body "Not found")) 404))
            | Some entry =>
                denied <- lift (not_permitted current_user entry) ;;
                if denied
                then ret (Plain (Response (Some (error_body "You don't have permission")) 403))
                else
                  put_db (set_consumption
                            (List.filter (λ r, negb (p r)) (consumption d)) d) ;;
                  ret (Deleted (head (List.filter p (consumption d))))
            end))
        (λ e, ret (Plain (Response (Some (error_body (exn_msg e))) 500)))
  end.
End Accounts.

(** * Specification-side definitions

    The definitions below follow the wording of the specification; the
    theorems compare them with the embedding of the source above. *)

(** ** Target calories as the specification words them *)

Inductive height_unit : Type := Cm | Inch.
Inductive weight_unit : Type := Kg | Lb.

Definition height_unit_name (u : height_unit) : string :=
  match u with Cm => "cm" | Inch => "in" end.

Definition weight_unit_name (u : weight_unit) : string :=
  match u with Kg => "kg" | Lb => "lb" end.

Definition spec_goal_multiplier (goal : string) : float :=
  if String.eqb goal "weight_loss" then 0.80%float
  else if String.eqb goal "maintain" then 1.00%float
  else if String.eqb goal "eat_healthy" then 1.00%float
  else if String.eqb goal "weight_gain" then 1.15%float
  else 1.00%float.

Definition spec_clamp (lo hi n : Z) : Z :=
  if n <? lo then lo else if hi <? n then hi else n.

(** [n] is the integer nearest to [v * 2^e], and the even one of the two
    nearest when [v * 2^e] lies halfway between them. *)
Definition nearest_integer (v e n : Z) : Prop :=
  if 0 <=? e then n = v * 2 ^ e
  else
    2 * Z.abs (v - n * 2 ^ (- e)) <= 2 ^ (- e)
    ∧ (2 * Z.abs (v - n * 2 ^ (- e)) = 2 ^ (- e) → Z.even n = true).

(** The numerator of the finite float [(-1)^s * m * 2^e]. *)
Definition signed (s : bool) (m : positive) : Z :=
  if s then Z.neg m else Z.pos m.

(** [x] rounded to the nearest integer is [n]; NaN and the infinities have
    no nearest integer. *)
Definition rounds_to (x : float) (n : Z) : Prop :=
  match Prim2SF x with
  | S754_zero _ => n = 0
  | S754_finite s m e => nearest_integer (signed s m) e n
  | S754_infinity _ | S754_nan => False
  end.

(** The product that is rounded, over ten. *)
Definition spec_tenths (h : float) (hu : height_unit) (w : float)
    (wu : weight_unit) (goal : string) : float :=
  let height_cm := match hu with Cm => h | Inch => (h * 2.54)%float end in
  let weight_kg := match wu with Kg => w | Lb => (w * 0.45359237)%float end in
  let baseline := (22.0 * weight_kg + 6.0 * height_cm)%float in
  let product := (baseline * spec_goal_multiplier goal)%float in
  (product / 10)%float.

(** [t] is the product rounded to the nearest multiple of 10, [10 * n] for
    the integer [n] nearest to a tenth of it, and clamped to [1200, 4000]. *)
Definition spec_target_calories (h : float) (hu : height_unit) (w : float)
    (wu : weight_unit) (goal : string) (t : Z) : Prop :=
  ∃ n, rounds_to (spec_tenths h hu w wu goal) n
       ∧ t = spec_clamp 1200 4000 (10 * n).

(** ** Health score as the specification words it *)

Definition spec_health_formula (calories protein fiber sugars : float) : float :=
  (70 + 50 * (protein / calories) + 5 * fiber - 2.5 * sugars)%float.

Definition clamp_0_100 (x : float) : pyval :=
  py_max (PInt 0) (py_min (PInt 100) (PFloat x)).

(** The double for [n] hundredths, with the sign [s]. *)
Definition hundredths (s : bool) (n : Z) : float :=
  match n with
  | Z.pos p => SF2Prim (SFdiv prec emax (S754_finite s p 0) (S754_finite false 100 0))
  | _ => SF2Prim (S754_zero s)
  end.

(** [y] is [x] rounded to two decimal places: the magnitude of [x] taken to
    the nearest hundredth, under the sign of [x]; zeros, NaN and the
    infinities stay as they are. *)
Definition rounded_2dp (x y : float) : Prop :=
  match Prim2SF x with
  | S754_finite s m e =>
      ∃ n, nearest_integer (100 * Z.pos m) e n ∧ y = hundredths s n
  | _ => y = x
  end.

(** The score formula without its protein term. *)
Definition spec_health_formula_no_protein (fiber sugars : float) : float :=
  (70 + 5 * fiber - 2.5 * sugars)%float.

(** A score that is [0], [100] or a float strictly between them. *)
Definition within_0_100 (v : pyval) : Prop :=
  v = PInt 0 ∨ v = PInt 100
  ∨ ∃ x, v = PFloat x ∧ (0 <? x)%float = true ∧ (x <? 100)%float = true.

(** ** Profile-affecting writes *)

Inductive profile_write : Type :=
  | OwnProfileUpdate (data : pydict)
  | ProfileCompletion (data : pydict)
  | AdminUserCreate (data : pydict)
  | AdminUserUpdate (user_id : Z) (data : pydict).

Definition perform (P : platform) (pw : profile_write) : M response :=
  match pw with
  | OwnProfileUpdate data => update_profile P data
  | ProfileCompletion data => complete_profile P data
  | AdminUserCreate data => create_user P data
  | AdminUserUpdate user_id data => update_user P user_id data
  end.

Definition payload (pw : profile_write) : pydict :=
  match pw with
  | OwnProfileUpdate data | ProfileCompletion data | AdminUserCreate data
  | AdminUserUpdate _ data => data
  end.

(** The user row with the given id, as the tables hold it. *)
Definition stored_user (d : database) (user_id : pyval) : option pydict :=
  select_where (users d) (λ r, sql_eq (dict_get r "user_id") user_id).

(** The row whose height and weight the write would store: the payload for
    the two endpoints that take the whole profile, the stored row overlaid
    with the payload for the two updates. *)
Definition effective_row (w : world) (pw : profile_write) : option pydict :=
  match pw with
  | OwnProfileUpdate data =>
      match session w with
      | Some current =>
          compose_row ["dietary_goal"; "height_value"; "height_unit";
                       "weight_value"; "weight_unit"] data
            <$> (project profile_columns <$> stored_user (db w) (su_user_id current))
      | None => None
      end
  | ProfileCompletion data | AdminUserCreate data => Some data
  | AdminUserUpdate user_id data =>
      compose_row ["role"; "dietary_goal"; "height_value"; "height_unit";
                   "weight_value"; "weight_unit"] data
        <$> (project profile_columns <$> stored_user (db w) (PInt user_id))
  end.

Definition effective_height_cm (P : platform) (r : pydict) : result float :=
  rbind (py_float P (dict_get r "height_value")) (λ h,
    Ok (_to_cm h (dict_get_default r "height_unit" (PStr "cm")))).

Definition effective_weight_kg (P : platform) (r : pydict) : result float :=
  rbind (py_float P (dict_get r "weight_value")) (λ w,
    Ok (_to_kg w (dict_get_default r "weight_unit" (PStr "kg")))).

Definition preview_of (P : platform) (r : pydict) : result Z :=
  calculate_target_calories P (dict_get r "height_value")
    (dict_get_default r "height_unit" (PStr "cm"))
    (dict_get r "weight_value")
    (dict_get_default r "weight_unit" (PStr "kg"))
    (dict_get_default r "dietary_goal" (PStr "maintain")).

(** The effective height or weight is outside the realistic range. *)
Definition flagged (P : platform) (r : pydict) : Prop :=
  ∃ h_cm w_kg, effective_height_cm P r = Ok h_cm
    ∧ effective_weight_kg P r = Ok w_kg
    ∧ _unrealistic h_cm w_kg = true.

(** The 400 requires-confirmation answer with a preview, and no user row
    written. *)
Definition rejected_for_confirmation (w : world) (out : result response * world) : Prop :=
  ∃ msg preview,
    out.1 = Ok (Response (Some (requires_confirmation_body msg preview)) 400)
    ∧ users (db out.2) = users (db w).

(** The request gets as far as the unrealistic-value gate: the caller is
    logged in with the role the endpoint needs, the payload passes the checks
    that come first, the stored row can be read, and an admin update carries
    at least one of the fields that feed the target. *)
Definition reaches_gate (P : platform) (w : world) (pw : profile_write)
    (r : pydict) : Prop :=
  match pw with
  | OwnProfileUpdate data =>
      is_Some (session w)
      ∧ dict_is_empty data = false
      ∧ conn_fails P (conns w) = None
      ∧ py_truthy (dict_get r "height_value") = true
      ∧ py_truthy (dict_get r "weight_value") = true
  | ProfileCompletion data =>
      is_Some (session w)
      ∧ missing_keys ["height_value"; "height_unit"; "weight_value"; "weight_unit";
                      "dietary_goal"] data = []
      ∧ py_in_strs (dict_get data "height_unit") ["cm"; "in"] = true
      ∧ py_in_strs (dict_get data "weight_unit") ["kg"; "lb"] = true
      ∧ py_in_strs (dict_get data "dietary_goal")
          ["weight_gain"; "weight_loss"; "maintain"; "eat_healthy"] = true
  | AdminUserCreate data =>
      (∃ u, session w = Some u ∧ py_eq_str (su_role u) "admin" = true)
      ∧ dict_has data "username" = true
      ∧ missing_keys ["height_value"; "height_unit"; "weight_value"; "weight_unit"]
          data = []
  | AdminUserUpdate _ data =>
      (∃ u, session w = Some u ∧ py_eq_str (su_role u) "admin" = true)
      ∧ dict_is_empty data = false
      ∧ conn_fails P (conns w) = None
      ∧ existsb (dict_has data)
          ["dietary_goal"; "height_value"; "height_unit"; "weight_value";
           "weight_unit"] = true
      ∧ py_truthy (dict_get r "height_value") = true
      ∧ py_truthy (dict_get r "weight_value") = true
  end.

(** ** Audit trail *)

Definition no_faults (P : platform) : Prop := ∀ n, conn_fails P n = None.

(** The six fields whose changes are audited. *)
Definition audited_fields : list string :=
  ["height_value"; "height_unit"; "weight_value"; "weight_unit";
   "dietary_goal"; "target_calories"].

(** The field [k] differs under string comparison. *)
Definition differs (P : platform) (old_row new_row : pydict) (k : string) : bool :=
  negb (String.eqb (py_str P (dict_get old_row k)) (py_str P (dict_get new_row k))).

Definition differing_fields (P : platform) (old_row new_row : pydict) : list string :=
  List.filter (differs P old_row new_row) audited_fields.

(** The user a profile mutation is about. *)
Definition mutation_target (w : world) (pw : profile_write) : option pyval :=
  match pw with
  | OwnProfileUpdate _ | ProfileCompletion _ => su_user_id <$> session w
  | AdminUserUpdate user_id _ => Some (PInt user_id)
  | AdminUserCreate _ => None
  end.

(** ** Consumption snapshots *)

Definition nutrition_fields : list string :=
  ["calories"; "protein"; "carbs"; "fat"; "fiber"; "sugars"].

Definition snapshot_fields : list string := nutrition_fields ++ ["health_score"].

(** The caller may touch the entry: an admin, or the owner. *)
Definition may_access (P : platform) (current : session_user) (entry : pydict) : Prop :=
  py_eq_str (su_role current) "admin" = true
  ∨ ∃ owner, rbind (getitem entry "user_id") (py_int P) = Ok owner
             ∧ py_int P (su_user_id current) = Ok owner.

(** A concrete platform for the examples: no string parsing, an injective
    rendering of values as [str], a tagged identity as hash, no environment
    variables, storage always reachable. *)
Definition demo_str (v : pyval) : string :=
  match v with
  | PNone => "None"
  | PBool true => "True"
  | PBool false => "False"
  | PInt z => pretty z
  | PFloat f =>
      match Prim2SF f with
      | S754_zero s => if s then "-0.0" else "0.0"
      | S754_infinity s => if s then "-inf" else "inf"
      | S754_nan => "nan"
      | S754_finite s m e =>
          (if s then "-" else "") +:+ pretty (Z.pos m) +:+ "p" +:+ pretty e
      end
  | PStr s => s
  end.

Definition demo_platform : platform :=
  Platform (λ _, None) (λ _, None) demo_str (λ s, "hash:" +:+ s)
           (λ h p, String.eqb h ("hash:" +:+ p)) (λ _, None) 1700000000
           (λ _, None).

(** ** A small store for the examples *)

Definition demo_admin : session_user :=
  SessionUser (PInt 1) (PStr "admin") (PStr "admin").

Definition demo_alice : session_user :=
  SessionUser (PInt 2) (PStr "alice") (PStr "user").

Definition demo_users : list pydict :=
  [ list_to_map
      [("user_id", PInt 1); ("username", PStr "admin"); ("role", PStr "admin");
       ("password_hash", PStr "hash:admin123"); ("dietary_goal", PStr "maintain");
       ("target_calories", PInt 2000); ("height_value", PNone);
       ("height_unit", PNone); ("weight_value", PNone); ("weight_unit", PNone);
       ("created_at", PInt 1600000000)];
    list_to_map
      [("user_id", PInt 2); ("username", PStr "alice"); ("role", PStr "user");
       ("password_hash", PStr "hash:wonderland"); ("dietary_goal", PStr "maintain");
       ("target_calories", PInt 2080); ("height_value", PFloat 90);
       ("height_unit", PStr "cm"); ("weight_value", PFloat 70);
       ("weight_unit", PStr "kg"); ("created_at", PInt 1600000001)] ].

Definition demo_foods : list pydict :=
  [ list_to_map
      [("food_id", PInt 1); ("food_name", PStr "lentils"); ("calories", PFloat 100);
       ("protein", PFloat 10); ("carbs", PFloat 20); ("fat", PFloat 1);
       ("fiber", PFloat 5); ("sugars", PFloat 2); ("nutrition_density", PFloat 7);
       ("created_at", PInt 1600000002)] ].

Definition demo_entries : list pydict :=
  [ list_to_map
      [("entry_id", PInt 1); ("user_id", PInt 2); ("food_id", PInt 1);
       ("date", PStr "2025-11-01"); ("portion_size", PFloat 1);
       ("calories", PFloat 100); ("protein", PFloat 10); ("carbs", PFloat 20);
       ("fat", PFloat 1); ("fiber", PFloat 5); ("sugars", PFloat 2);
       ("health_score", PFloat 95); ("meal_type", PStr "lunch");
       ("created_at", PInt 1600000003)] ].

Definition demo_db : database := Database demo_users demo_foods demo_entries [] 3 2.

Definition demo_world (s : option session_user) : world := World demo_db s 0 true.

(** The response of a request, when the handler did not let an exception
    escape. *)
Definition answer (out : result response * world) : option response :=
  match out.1 with
  | Ok r => Some r
  | Raise _ => None
  end.



Definition stored_food (d : database) (food_id : pyval) : option pydict :=
  select_where (food_items d) (λ r, sql_eq (dict_get r "food_id") food_id).

Definition stored_entry (d : database) (entry_id : Z) : option pydict :=
  select_where (consumption d) (λ r, sql_eq (dict_get r "entry_id") (PInt entry_id)).

(** One step of [update_assignments]. *)
Definition keyed (data : pydict) (key : string) : option (string * pyval) :=
  (λ v, (key, v)) <$> data !! key.

(** A platform whose third connection attempt fails. *)
Definition flaky_platform : platform :=
  Platform (λ _, None) (λ _, None) demo_str (λ s, "hash:" +:+ s)
           (λ h p, String.eqb h ("hash:" +:+ p)) (λ _, None) 1700000000
           (λ n, if (n =? 2)%nat then Some "connection refused" else None).

(** What one profile mutation adds to the audit table. *)
Definition audit_records (P : platform) (target : pyval) (changed_by : session_user)
    (old_row new_row : pydict) : list profile_change :=
  let changed := changed_fields P old_row new_row in
  if dict_is_empty changed then []
  else [ProfileChange target (su_user_id changed_by) (su_role changed_by)
          changed (utcnow P)].

(** One turn of the loop of [changed_fields]. *)
Definition note_change (P : platform) (old_row new_row : pydict)
    (changed : gmap string (pyval * pyval)) (k : string) : gmap string (pyval * pyval) :=
  if differs P old_row new_row k
  then <[k := (dict_get old_row k, dict_get new_row k)]> changed
  else changed.

(** ** Protected endpoints *)

Inductive endpoint : Type :=
  | GetProfile
  | PreviewProfile (data : pydict)
  | UpdateProfile (data : pydict)
  | CompleteProfile (data : pydict)
  | CreateUser (data : pydict)
  | UpdateUser (user_id : Z) (data : pydict)
  | CreateConsumption (data : pydict)
  | UpdateConsumption (entry_id : Z) (data : pydict)
  | GetConsumption (entry_id : Z).

Definition run (P : platform) (ep : endpoint) : M response :=
  match ep with
  | GetProfile => get_profile P
  | PreviewProfile data => preview_profile_target P data
  | UpdateProfile data => update_profile P data
  | CompleteProfile data => complete_profile P data
  | CreateUser data => create_user P data
  | UpdateUser user_id data => update_user P user_id data
  | CreateConsumption data => create_consumption P data
  | UpdateConsumption entry_id data => update_consumption P entry_id data
  | GetConsumption entry_id => get_consumption P entry_id
  end.

Definition admin_only (ep : endpoint) : bool :=
  match ep with
  | CreateUser _ | UpdateUser _ _ => true
  | _ => false
  end.

(** A demo user row may be left without a password: NULL hash and a
    username other than 'admin'. *)
Definition lacks_password (r : pydict) : bool :=
  is_none (dict_get r "password_hash")
  && match dict_get r "username" with
     | PStr n => negb (String.eqb n "admin")
     | _ => false
     end.

(** The identity that [login] and [signup] put into the session for a row. *)
Definition identity_of (r : pydict) : session_user :=
  SessionUser (dict_get r "user_id") (dict_get r "username") (dict_get r "role").

(** The columns an own-profile update or a profile completion may change. *)
Definition profile_fields : list string :=
  ["dietary_goal"; "target_calories"; "height_value"; "height_unit";
   "weight_value"; "weight_unit"].

(** The target calories stored in a row are the ones its own height, weight
    and goal give. *)
Definition target_consistent (P : platform) (r : pydict) : Prop :=
  ∃ t, dict_get r "target_calories" = PInt t
    ∧ calculate_target_calories P (dict_get r "height_value")
        (dict_get r "height_unit") (dict_get r "weight_value")
        (dict_get r "weight_unit") (dict_get r "dietary_goal") = Ok t.

(** ** What a handler may change *)

(** Running [m] in [w] ends in a world that [R] relates to [w], whether [m]
    returns or raises. *)
Definition keeps {A} (R : relation world) (m : M A) (w : world) : Prop :=
  R w (m w).2.

(** A relation on worlds given by one on the tables and one on the session;
    the connection counter and the bootstrap mark are free. *)
Definition frame (Rdb : relation database) (Rs : relation (option session_user))
    : relation world :=
  λ w w', Rdb (db w) (db w') ∧ Rs (session w) (session w').

(** [r'] is [r], or [r] has [id] in its column [key] and [r'] differs from
    it at most in the columns [cols]. *)
Definition row_changed_only (key : string) (id : pyval) (cols : list string)
    (r r' : pydict) : Prop :=
  r' = r
  ∨ sql_eq (dict_get r key) id = true
    ∧ ∀ k, k ∉ cols → r' !! k = r !! k.

(** Only the columns [cols] of the users rows of [user_id] change; the audit
    log and the sequences are free. *)
Definition users_writes (cols : list string) (user_id : pyval) : relation database :=
  λ d d', food_items d' = food_items d
        ∧ consumption d' = consumption d
        ∧ Forall2 (row_changed_only "user_id" user_id cols) (users d) (users d').

(** Accounts are only added, after the ones that are there. *)
Definition users_grow : relation database :=
  λ d d', food_items d' = food_items d
        ∧ consumption d' = consumption d
        ∧ user_profile_changes d' = user_profile_changes d
        ∧ users d `prefix_of` users d'.

(** The audit log only grows. *)
Definition audit_grows : relation database :=
  λ d d', user_profile_changes d `prefix_of` user_profile_changes d'.

(** Only the consumption table and its sequence change. *)
Definition consumption_writes (Rc : relation (list pydict)) : relation database :=
  λ d d', users d' = users d
        ∧ food_items d' = food_items d
        ∧ user_profile_changes d' = user_profile_changes d
        ∧ users_seq d' = users_seq d
        ∧ Rc (consumption d) (consumption d').

(** The columns a PUT on an entry may set. *)
Definition entry_fields : list string :=
  ["date"; "portion_size"; "calories"; "protein"; "carbs"; "fat"; "fiber";
   "sugars"; "health_score"; "meal_type"].

(** The columns a PUT with payload [data] writes: the updatable columns the
    payload names, and the snapshot when it names a portion size. *)
Definition written_fields (data : pydict) : list string :=
  List.filter
    (λ k, dict_has data k
          || dict_has data "portion_size" && bool_decide (k ∈ snapshot_fields))
    entry_fields.

(** Nothing happened, or exactly the entries with [entry_id] are gone. *)
Definition entry_removed (entry_id : Z) : relation (list pydict) :=
  λ l l', l' = l
        ∨ l' = List.filter
                 (λ r, negb (sql_eq (dict_get r "entry_id") (PInt entry_id))) l.

(** The endpoints that only read. *)
Definition read_only (ep : endpoint) : bool :=
  match ep with
  | GetProfile | PreviewProfile _ | GetConsumption _ => true
  | _ => false
  end.

(** ** Accounts *)

(** The primary key of [users]: no two rows share a [user_id]. *)
Definition unique_user_ids (tbl : list pydict) : Prop :=
  ∀ i j r r', tbl !! i = Some r → tbl !! j = Some r' →
    sql_eq (dict_get r "user_id") (dict_get r' "user_id") = true → i = j.

(** [r'] is [r] up to its password hash, and a row that has a password is
    left as it is. *)
Definition password_kept (r r' : pydict) : Prop :=
  (∀ k, k ≠ "password_hash" → r' !! k = r !! k)
  ∧ (py_truthy (dict_get r "password_hash") = true → r' = r).

(** The columns that identify an account and decide what it may do. *)
Definition account_of (r : pydict) : list (option pyval) :=
  [r !! "user_id"; r !! "username"; r !! "role"; r !! "password_hash"].

(** ** Rows a handler writes *)

(** Every users row afterwards was there before or satisfies [Q]. *)
Definition new_rows (Q : pydict → Prop) : relation database :=
  λ d d', ∀ r, r ∈ users d' → r ∈ users d ∨ Q r.

(** The endpoints that compute the target calories on every write. *)
Definition stores_target (ep : endpoint) : bool :=
  match ep with
  | UpdateProfile _ | CompleteProfile _ | CreateUser _ => true
  | _ => false
  end.

(** ** What a handler may answer *)

(** Every value that [m] returns from [w] satisfies [Q]. *)
Definition yields {A} (Q : A → Prop) (m : M A) (w : world) : Prop :=
  ∀ a, (m w).1 = Ok a → Q a.

(** A JSON body without a password hash. *)
Definition hides_hash (r : response) : Prop :=
  ∀ d, body r = Some d → d !! "password_hash" = None.

(** The endpoints that read or write accounts. *)
Definition account_endpoint (ep : endpoint) : bool :=
  match ep with
  | GetProfile | PreviewProfile _ | UpdateProfile _ | CompleteProfile _
  | CreateUser _ | UpdateUser _ _ => true
  | _ => false
  end.

(** A row read or returned through the profile columns. *)
Definition profile_row (row : option pydict) : Prop :=
  ∀ d, row = Some d → d !! "password_hash" = None.

(** Every consumption row afterwards was there before or satisfies [Q]. *)
Definition new_entries (Q : pydict → Prop) : relation database :=
  λ d d', ∀ r, r ∈ consumption d' → r ∈ consumption d ∨ Q r.

(** * Theorems *)

(** ** Floats *)

Lemma float_mul_comm (x y : float) : (x * y)%float = (y * x)%float.
Proof.
  rewrite <- (SF2Prim_Prim2SF (x * y)), <- (SF2Prim_Prim2SF (y * x)), !mul_spec.
  f_equal. unfold SF64mul, SFmul.
  destruct (Prim2SF x) as [sx|sx| |sx mx ex], (Prim2SF y) as [sy|sy| |sy my ey];
    try reflexivity; rewrite ?(xorb_comm sx sy); try reflexivity.
  by rewrite (Pos.mul_comm mx my), (Z.add_comm ex ey).
Qed.

Lemma float_pos_nonzero (c : float) : (0 <? c)%float = true → (c =? 0)%float = false.
Proof.
  rewrite ltb_spec, FloatAxioms.eqb_spec. change (Prim2SF 0) with (S754_zero false).
  destruct (Prim2SF c) as [s|s| |s m e]; try done; by destruct s.
Qed.

Lemma float_pos_not_le (c : float) : (0 <? c)%float = true → (c <=? 0)%float = false.
Proof.
  rewrite ltb_spec, FloatAxioms.leb_spec. change (Prim2SF 0) with (S754_zero false).
  destruct (Prim2SF c) as [s|s| |s m e]; try done; by destruct s.
Qed.

Lemma rne_exact m e : 0 <= e → rne m e = Z.pos m * 2 ^ e.
Proof. intros H. unfold rne. destruct (Z.leb_spec 0 e); [done | lia]. Qed.

(** [rne] gives the nearest integer, and the even one at a tie. *)
Lemma rne_nearest_integer m e : nearest_integer (Z.pos m) e (rne m e).
Proof.
  unfold nearest_integer. destruct (Z.leb_spec 0 e) as [He|He].
  - by apply rne_exact.
  - unfold rne. destruct (Z.leb_spec 0 e); [lia |].
    set (d := 2 ^ (- e)).
    assert (Hd : 0 < d) by (apply Z.pow_pos_nonneg; lia).
    pose proof (Z.div_mod (Z.pos m) d ltac:(lia)) as Hdm.
    pose proof (Z.mod_pos_bound (Z.pos m) d Hd) as Hr.
    set (q := Z.pos m / d) in *. set (r := Z.pos m mod d) in *.
    destruct (Z.ltb_spec (2 * r) d); [split; nia |].
    destruct (Z.ltb_spec d (2 * r)); [split; nia |].
    destruct (Z.even q) eqn:Hq; [split; [nia | done] |].
    split; [nia |]. intros _. rewrite Z.even_add, Hq. reflexivity.
Qed.

Lemma nearest_integer_opp v e n :
  nearest_integer v e n → nearest_integer (- v) e (- n).
Proof.
  unfold nearest_integer. destruct (0 <=? e); [lia |].
  replace (- v - - n * 2 ^ (- e)) with (- (v - n * 2 ^ (- e))) by lia.
  by rewrite Z.abs_opp, Z.even_opp.
Qed.

(** At most one integer is the nearest in this sense. *)
Lemma nearest_integer_unique v e n1 n2 :
  nearest_integer v e n1 → nearest_integer v e n2 → n1 = n2.
Proof.
  unfold nearest_integer. destruct (Z.leb_spec 0 e) as [He|He]; [congruence |].
  set (d := 2 ^ (- e)).
  assert (Hd : 0 < d) by (apply Z.pow_pos_nonneg; lia).
  intros [H1 E1] [H2 E2].
  destruct (Z.lt_trichotomy n1 n2) as [Hlt|[Heq|Hgt]]; [| done |]; exfalso.
  - assert (n2 = n1 + 1) as -> by nia.
    assert (Z.even n1 = true) as Hev1 by (apply E1; nia).
    assert (Z.even (n1 + 1) = true) as Hev2 by (apply E2; nia).
    rewrite Z.even_add, Hev1 in Hev2. discriminate Hev2.
  - assert (n1 = n2 + 1) as -> by nia.
    assert (Z.even n2 = true) as Hev2 by (apply E2; nia).
    assert (Z.even (n2 + 1) = true) as Hev1 by (apply E1; nia).
    rewrite Z.even_add, Hev2 in Hev1. discriminate Hev1.
Qed.

(** [round(x)] is the nearest integer of a finite [x], and raises otherwise. *)
Lemma py_round_rounds_to (x : float) :
  match py_round x with
  | Ok n => rounds_to x n ∧ is_finite x = true
  | Raise _ => is_finite x = false
  end.
Proof.
  unfold py_round, rounds_to, is_finite.
  destruct (Prim2SF x) as [s|s| |s m e]; try done.
  split; [| done]. destruct s; cbn [signed].
  - apply (nearest_integer_opp (Z.pos m)), rne_nearest_integer.
  - apply rne_nearest_integer.
Qed.

Lemma rounds_to_unique (x : float) n1 n2 : rounds_to x n1 → rounds_to x n2 → n1 = n2.
Proof.
  unfold rounds_to. destruct (Prim2SF x) as [s|s| |s m e]; try done; [congruence |].
  apply nearest_integer_unique.
Qed.

(** ** Target calories *)

Lemma multiplier_of_spec goal : multiplier_of (PStr goal) = spec_goal_multiplier goal.
Proof.
  unfold multiplier_of, spec_goal_multiplier, multipliers.
  destruct (String.eqb_spec goal "weight_loss") as [->|?]; [reflexivity |].
  destruct (String.eqb_spec goal "maintain") as [->|?]; [reflexivity |].
  destruct (String.eqb_spec goal "eat_healthy") as [->|?]; [reflexivity |].
  destruct (String.eqb_spec goal "weight_gain") as [->|?]; [reflexivity |].
  by rewrite !lookup_insert_ne, lookup_empty by congruence.
Qed.

Lemma calculate_target_calories_tenths P h w hu wu goal :
  calculate_target_calories P (PFloat h) (PStr (height_unit_name hu))
    (PFloat w) (PStr (weight_unit_name wu)) (PStr goal)
  = rbind (py_round (spec_tenths h hu w wu goal))
      (λ n, Ok (spec_clamp 1200 4000 (10 * n))).
Proof.
  unfold calculate_target_calories, spec_tenths.
  cbn [py_float rbind]. rewrite multiplier_of_spec.
  assert (Hh : _to_cm h (PStr (height_unit_name hu))
               = match hu with Cm => h | Inch => (h * 2.54)%float end)
    by (destruct hu; reflexivity).
  assert (Hw : _to_kg w (PStr (weight_unit_name wu))
               = match wu with Kg => w | Lb => (w * 0.45359237)%float end)
    by (destruct wu; reflexivity).
  rewrite Hh, Hw.
  destruct (py_round _) as [n|e]; simpl; [| reflexivity].
  f_equal. unfold spec_clamp.
  destruct (Z.ltb_spec (10 * n) 1200), (Z.ltb_spec 4000 (10 * n)); lia.
Qed.

(** C1, as amended: for a height in cm or in, a weight in kg or lb and any
    goal string, [calculate_target_calories] converts with the factors 2.54
    and 0.45359237, takes 22.0 * weight_kg + 6.0 * height_cm and applies the
    goal multiplier (1.00 for an unknown goal). When a tenth of that product
    is a finite double, it returns the one value that is the product rounded
    to the nearest multiple of 10 and clamped to [1200, 4000]; when it is
    NaN or infinite, it raises. 170 cm and 70 kg to maintain give 2560;
    176 cm give 2600, rounded up from 2596; 169 cm and 70.5 kg give 2560,
    the even tens at the tie 2565. *)
Theorem calculate_target_calories_spec
    (P : platform) (h w : float) (hu : height_unit) (wu : weight_unit) (goal : string) :
  (is_finite (spec_tenths h hu w wu goal) = true →
   ∃ t, calculate_target_calories P (PFloat h) (PStr (height_unit_name hu))
          (PFloat w) (PStr (weight_unit_name wu)) (PStr goal) = Ok t
        ∧ spec_target_calories h hu w wu goal t
        ∧ ∀ t', spec_target_calories h hu w wu goal t' → t' = t)
  ∧ (is_finite (spec_tenths h hu w wu goal) = false →
     ∃ e, calculate_target_calories P (PFloat h) (PStr (height_unit_name hu))
            (PFloat w) (PStr (weight_unit_name wu)) (PStr goal) = Raise e)
  ∧ calculate_target_calories P (PInt 170) (PStr "cm") (PInt 70) (PStr "kg")
      (PStr "maintain") = Ok 2560
  ∧ calculate_target_calories P (PInt 176) (PStr "cm") (PInt 70) (PStr "kg")
      (PStr "maintain") = Ok 2600
  ∧ calculate_target_calories P (PInt 169) (PStr "cm") (PFloat 70.5) (PStr "kg")
      (PStr "maintain") = Ok 2560.
Proof.
  rewrite calculate_target_calories_tenths.
  pose proof (py_round_rounds_to (spec_tenths h hu w wu goal)) as Hround.
  split; [| split; [| split; [| split]]]; try (vm_compute; reflexivity).
  - intros Hfin. destruct (py_round _) as [n|e]; [| congruence].
    destruct Hround as [Hn _]. cbn [rbind].
    exists (spec_clamp 1200 4000 (10 * n)). split; [done |]. split.
    + by exists n.
    + intros t' (n' & Hn' & ->). by rewrite (rounds_to_unique _ _ _ Hn' Hn).
  - intros Hinf. destruct (py_round _) as [n|e]; [| by exists e].
    destruct Hround as [_ Hfin]. congruence.
Qed.

Lemma calculate_target_calories_spec_witness :
  ∃ t, calculate_target_calories demo_platform (PFloat 176) (PStr "cm")
         (PFloat 70) (PStr "kg") (PStr "maintain") = Ok t
       ∧ spec_target_calories 176 Cm 70 Kg "maintain" t
       ∧ ∀ t', spec_target_calories 176 Cm 70 Kg "maintain" t' → t' = t.
Proof.
  apply (proj1 (calculate_target_calories_spec demo_platform 176 70 Cm Kg "maintain")).
  vm_compute. reflexivity.
Defined.

(** A height of 1e308 cm is a finite double, and the function raises on it
    instead of returning a value clamped to [1200, 4000]. *)
Lemma calculate_target_calories_counterexample :
  is_finite 1e308 = true
  ∧ calculate_target_calories demo_platform (PFloat 1e308) (PStr "cm")
      (PFloat 70) (PStr "kg") (PStr "maintain")
    = Raise (Exn OverflowError "cannot convert float infinity to integer")
  ∧ ¬ ∃ t, calculate_target_calories demo_platform (PFloat 1e308) (PStr "cm")
             (PFloat 70) (PStr "kg") (PStr "maintain") = Ok t.
Proof.
  assert (calculate_target_calories demo_platform (PFloat 1e308) (PStr "cm")
            (PFloat 70) (PStr "kg") (PStr "maintain")
          = Raise (Exn OverflowError "cannot convert float infinity to integer")) as H
    by (vm_compute; reflexivity).
  split; [vm_compute; reflexivity |]. split; [exact H |].
  intros [t Ht]. rewrite H in Ht. discriminate Ht.
Qed.

(** C9: whatever the inputs, a value returned by [calculate_target_calories]
    is a multiple of 10 within [1200, 4000]; the function returns unless a
    conversion of its inputs fails or the scaled baseline is NaN or infinite. *)
Theorem calculate_target_calories_range
    (P : platform) (hv hu wv wu goal : pyval) :
  match calculate_target_calories P hv hu wv wu goal with
  | Ok n => n mod 10 = 0 ∧ 1200 <= n <= 4000
  | Raise _ =>
      match py_float P hv, py_float P wv with
      | Ok h, Ok w =>
          is_finite ((22.0 * _to_kg w wu + 6.0 * _to_cm h hu)
                     * multiplier_of goal / 10.0)%float = false
      | _, _ => True
      end
  end.
Proof.
  unfold calculate_target_calories.
  destruct (py_float P hv) as [h|]; cbn [rbind]; [| done].
  destruct (py_float P wv) as [w|]; cbn [rbind]; [| done].
  unfold py_round, is_finite.
  destruct (Prim2SF _) as [s|s| |s m e]; cbn [rbind]; try done.
  split; [| lia].
  set (r := if s then _ else _).
  destruct (Z.min_spec 4000 (r * 10)) as [[_ ->]|[_ ->]];
  [ destruct (Z.max_spec 1200 4000) as [[_ ->]|[_ ->]]
  | destruct (Z.max_spec 1200 (r * 10)) as [[_ ->]|[_ ->]] ];
  try reflexivity; apply Z.mod_mul; lia.
Qed.

(** ** Health score *)

Lemma clamp_0_100_within (x : float) : within_0_100 (clamp_0_100 x).
Proof.
  unfold clamp_0_100, py_min, py_max, within_0_100. cbn [num_lt].
  change (Z2float 100) with 100%float.
  destruct (x <? 100)%float eqn:Hhi; cbn [num_lt].
  - change (Z2float 0) with 0%float.
    destruct (0 <? x)%float eqn:Hlo; eauto 10.
  - change (0 <? 100) with true. eauto.
Qed.

Lemma calculate_health_score_positive (calories protein fiber sugars : float) :
  (0 <? calories)%float = true →
  calculate_health_score calories protein fiber sugars
    = Ok (clamp_0_100 (py_round2 (spec_health_formula calories protein fiber sugars))).
Proof.
  intros Hc. unfold calculate_health_score, spec_health_formula, py_div.
  rewrite Hc, (float_pos_nonzero _ Hc), (float_pos_not_le _ Hc).
  cbn [rbind].
  by rewrite (float_mul_comm 50), (float_mul_comm 5), (float_mul_comm 2.5).
Qed.

Lemma calculate_health_score_total (calories protein fiber sugars : float) :
  ∃ v, calculate_health_score calories protein fiber sugars = Ok v ∧ within_0_100 v.
Proof.
  destruct (0 <? calories)%float eqn:Hc.
  - rewrite (calculate_health_score_positive _ _ _ _ Hc).
    eexists. split; [done | apply clamp_0_100_within].
  - unfold calculate_health_score. rewrite Hc.
    destruct (calories <=? 0)%float.
    + eexists. split; [done |]. by left.
    + cbn [rbind]. eexists. split; [done | apply clamp_0_100_within].
Qed.

Lemma py_round2_rounded (x : float) : rounded_2dp x (py_round2 x).
Proof.
  unfold rounded_2dp, py_round2.
  destruct (Prim2SF x) as [s|s| |s m e]; try done.
  exists (rne (100 * m) e). split; [| done].
  change (100 * Z.pos m) with (Z.pos (100 * m)). apply rne_nearest_integer.
Qed.

Lemma rounded_2dp_unique (x y1 y2 : float) :
  rounded_2dp x y1 → rounded_2dp x y2 → y1 = y2.
Proof.
  unfold rounded_2dp. destruct (Prim2SF x) as [s|s| |s m e]; try congruence.
  intros (n1 & H1 & ->) (n2 & H2 & ->).
  by rewrite (nearest_integer_unique _ _ _ _ H1 H2).
Qed.

(** C2, as amended: [calculate_health_score] returns 0 when calories <= 0,
    without dividing; for calories > 0 it returns
    70 + 50 * (protein / calories) + 5 * fiber - 2.5 * sugars rounded to two
    decimal places and clamped to [0, 100]; when calories is neither (a NaN)
    the protein term is left out of the formula; for every input it returns
    a value within [0, 100]. (100, 10, 5, 2) gives 95, and
    (250, 10, 1.2, 3.3288) gives 69.68, rounded up from 69.678. *)
Theorem calculate_health_score_spec (calories protein fiber sugars : float) :
  ((calories <=? 0)%float = true →
     calculate_health_score calories protein fiber sugars = Ok (PInt 0))
  ∧ ((0 <? calories)%float = true →
     ∃ y, rounded_2dp (spec_health_formula calories protein fiber sugars) y
          ∧ (∀ y', rounded_2dp (spec_health_formula calories protein fiber sugars) y'
                   → y' = y)
          ∧ calculate_health_score calories protein fiber sugars
            = Ok (clamp_0_100 y))
  ∧ ((calories <=? 0)%float = false → (0 <? calories)%float = false →
     ∃ y, rounded_2dp (spec_health_formula_no_protein fiber sugars) y
          ∧ calculate_health_score calories protein fiber sugars
            = Ok (clamp_0_100 y))
  ∧ (∃ v, calculate_health_score calories protein fiber sugars = Ok v ∧ within_0_100 v)
  ∧ calculate_health_score 100 10 5 2 = Ok (PFloat 95)
  ∧ calculate_health_score 250 10 1.2 3.3288 = Ok (PFloat 69.68).
Proof.
  split; [| split; [| split; [| split; [| split]]]].
  - intros Hc. unfold calculate_health_score. by rewrite Hc.
  - intros Hc. exists (py_round2 (spec_health_formula calories protein fiber sugars)).
    split; [apply py_round2_rounded |]. split.
    + intros y' Hy'. exact (rounded_2dp_unique _ _ _ Hy' (py_round2_rounded _)).
    + by apply calculate_health_score_positive.
  - intros Hle Hlt. exists (py_round2 (spec_health_formula_no_protein fiber sugars)).
    split; [apply py_round2_rounded |].
    unfold calculate_health_score, spec_health_formula_no_protein.
    rewrite Hle, Hlt. cbn [rbind].
    change (70 + 0)%float with 70%float.
    by rewrite (float_mul_comm 5), (float_mul_comm 2.5).
  - apply calculate_health_score_total.
  - vm_compute. reflexivity.
  - vm_compute. reflexivity.
Qed.

Lemma calculate_health_score_spec_witness :
  calculate_health_score 0 10 5 2 = Ok (PInt 0)
  ∧ (∃ y, rounded_2dp (spec_health_formula 250 10 1.2 3.3288) y
          ∧ (∀ y', rounded_2dp (spec_health_formula 250 10 1.2 3.3288) y' → y' = y)
          ∧ calculate_health_score 250 10 1.2 3.3288 = Ok (clamp_0_100 y))
  ∧ (∃ y, rounded_2dp (spec_health_formula_no_protein 5 2) y
          ∧ calculate_health_score nan 10 5 2 = Ok (clamp_0_100 y)).
Proof.
  split; [| split].
  - apply (proj1 (calculate_health_score_spec 0 10 5 2)). reflexivity.
  - apply (proj1 (proj2 (calculate_health_score_spec 250 10 1.2 3.3288))). reflexivity.
  - apply (proj1 (proj2 (proj2 (calculate_health_score_spec nan 10 5 2))));
      reflexivity.
Defined.

(** With NaN calories the code answers 90 for (10, 5, 2), while the formula
    of the claim, protein term included, is NaN there and clamps to 100. *)
Lemma calculate_health_score_counterexample :
  (nan <=? 0)%float = false
  ∧ calculate_health_score nan 10 5 2 = Ok (PFloat 90)
  ∧ ∀ y, rounded_2dp (spec_health_formula nan 10 5 2) y →
      clamp_0_100 y = PInt 100 ∧ Ok (clamp_0_100 y) ≠ calculate_health_score nan 10 5 2.
Proof.
  split; [reflexivity |]. split; [vm_compute; reflexivity |].
  intros y Hy. unfold rounded_2dp in Hy.
  assert (Prim2SF (spec_health_formula nan 10 5 2) = S754_nan) as Hnan
    by (vm_compute; reflexivity).
  rewrite Hnan in Hy. subst y.
  assert (clamp_0_100 (spec_health_formula nan 10 5 2) = PInt 100) as ->
    by (vm_compute; reflexivity).
  split; [reflexivity |].
  assert (calculate_health_score nan 10 5 2 = Ok (PFloat 90)) as ->
    by (vm_compute; reflexivity).
  discriminate.
Qed.

(** ** Evaluating handlers *)

Ltac mred :=
  repeat progress (
    unfold bind, ret, lift, catch, get_db, put_db, jsonify, json_error, on_exception,
      _current_user, require_auth, require_admin, with_conn, select_profile,
      confirmation_required, update_users, insert_user, select_food, select_entry,
      insert_consumption, set_conns, set_db, set_session, set_users, set_consumption,
      set_bootstrap_done;
    cbn beta iota zeta delta [db session conns bootstrap_done users food_items
      consumption user_profile_changes users_seq consumption_seq fst snd
      negb orb andb rbind body status option_map]).

Ltac mred_in H :=
  repeat progress (
    unfold bind, ret, lift, catch, get_db, put_db, jsonify, json_error, on_exception,
      _current_user, require_auth, require_admin, with_conn, select_profile,
      confirmation_required, update_users, insert_user, select_food, select_entry,
      insert_consumption, set_conns, set_db, set_session, set_users, set_consumption,
      set_bootstrap_done in H;
    cbn beta iota zeta delta [db session conns bootstrap_done users food_items
      consumption user_profile_changes users_seq consumption_seq fst snd
      negb orb andb rbind body status option_map] in H).

Ltac strip_app t := lazymatch t with ?f _ => strip_app f | _ => t end.

(** The term whose value decides which branch the handler takes next. *)
Ltac head_scrut t :=
  lazymatch t with
  | match ?x with _ => _ end => head_scrut x
  | _ => let h := strip_app t in
         lazymatch h with
         | match ?x with _ => _ end => head_scrut x
         | _ => t
         end
  end.

Ltac mcase H :=
  match type of H with
  | ?lhs = _ =>
      let x := head_scrut lhs in
      lazymatch x with
      | (_, _) => fail "the handler has returned"
      | _ => destruct x eqn:?
      end
  end; mred_in H.

Lemma returned_inv {A} (a b : A) (w w' : world) :
  (Ok a, w) = (Ok b, w') → a = b ∧ w = w'.
Proof. by intros [= -> ->]. Qed.

Lemma raised_inv {A} (e : exn) (b : A) (w w' : world) :
  (Raise e, w) = (Ok b, w') → False.
Proof. by intros [=]. Qed.

(** Closes the branch when the handler has raised, or has returned another
    status than the one in [Hst]. *)
Ltac mwrong H Hst :=
  lazymatch type of H with
  | (Raise _, _) = (Ok _, _) => exact (False_ind _ (raised_inv _ _ _ _ H))
  | (Ok _, _) = (Ok _, _) =>
      apply returned_inv in H as [<- <-]; cbn [status] in Hst; discriminate Hst
  | (match exn_kind_of ?e with _ => _ end) _ = (Ok _, _) =>
      destruct (exn_kind_of e); mred_in H;
      apply returned_inv in H as [<- <-]; cbn [status] in Hst; discriminate Hst
  end.

(** Follows the handler in [H] through [n] branch points, dropping the
    branches that return another status. *)
Tactic Notation "minvert" integer(n) hyp(H) hyp(Hst) :=
  do n (try (mcase H; try (mwrong H Hst))).

(** Closes [a = b] between closed terms by evaluation. *)
Ltac vm_refl :=
  lazymatch goal with
  | |- @eq ?T ?a ?b => vm_cast_no_check (@eq_refl T b)
  end.

(** ** Dictionaries and rows *)

Lemma lookup_dict_get (d : pydict) k v : d !! k = Some v → dict_get d k = v.
Proof. unfold dict_get. by intros ->. Qed.

Lemma lookup_dict_get_default (d : pydict) k v dflt :
  d !! k = Some v → dict_get_default d k dflt = v.
Proof. unfold dict_get_default. by intros ->. Qed.

Lemma lookup_getitem (d : pydict) k v : d !! k = Some v → getitem d k = Ok v.
Proof. unfold getitem. by intros ->. Qed.

Lemma truthy_getitem (d : pydict) k :
  py_truthy (dict_get d k) = true → getitem d k = Ok (dict_get d k).
Proof. unfold dict_get, getitem. destruct (d !! k); [done | discriminate]. Qed.

Lemma missing_keys_nil (required : list string) (d : pydict) :
  missing_keys required d = [] → Forall (λ k, is_Some (d !! k)) required.
Proof.
  unfold missing_keys, dict_has. induction required as [|k l IH]; cbn [List.filter].
  - constructor.
  - destruct (d !! k) eqn:E; cbn [negb]; [| discriminate].
    intros H. constructor; eauto.
Qed.

Lemma dict_is_empty_true {A} (d : gmap string A) : dict_is_empty d = true ↔ d = ∅.
Proof.
  unfold dict_is_empty. destruct (map_to_list d) eqn:E.
  - split; [| done]. intros _. by apply map_to_list_empty_iff.
  - split; [done |]. intros ->. by rewrite map_to_list_empty in E.
Qed.

Lemma calculate_target_calories_floated P hv hu wv wu goal h w :
  py_float P hv = Ok h → py_float P wv = Ok w →
  calculate_target_calories P (PFloat h) hu (PFloat w) wu goal
    = calculate_target_calories P hv hu wv wu goal.
Proof.
  intros Hh Hw. unfold calculate_target_calories. by rewrite Hh, Hw.
Qed.

(** ** The unrealistic-value gate *)

Lemma update_profile_gate P data w current old h_cm w_kg preview :
  session w = Some current →
  dict_is_empty data = false →
  conn_fails P (conns w) = None →
  stored_user (db w) (su_user_id current) = Some old →
  let new_row := compose_row ["dietary_goal"; "height_value"; "height_unit";
                              "weight_value"; "weight_unit"] data
                   (project profile_columns old) in
  py_truthy (dict_get new_row "height_value") = true →
  py_truthy (dict_get new_row "weight_value") = true →
  effective_height_cm P new_row = Ok h_cm →
  effective_weight_kg P new_row = Ok w_kg →
  _unrealistic h_cm w_kg = true →
  py_truthy (dict_get data "confirm_unrealistic") = false →
  preview_of P new_row = Ok preview →
  update_profile P data w
    = (Ok (Response (Some (requires_confirmation_body
               "Your height/weight look unusual. Please confirm to continue." preview)) 400),
       set_conns (S (conns w)) w).
Proof.
  intros Hs He Hc Hsel new_row Hth Htw Hh Hw Hu Hconf Hp.
  destruct w as [d s n b]; cbn [session conns db] in *; subst s.
  unfold stored_user in Hsel.
  unfold update_profile. mred. rewrite He. mred. rewrite Hc. mred.
  rewrite Hsel. cbn [fmap option_fmap option_map]. mred.
  fold new_row. rewrite Hth, Htw. mred.
  rewrite (truthy_getitem _ _ Hth), (truthy_getitem _ _ Htw).
  unfold effective_height_cm in Hh. unfold effective_weight_kg in Hw.
  destruct (py_float P (dict_get new_row "height_value")) as [h|]; [| done].
  destruct (py_float P (dict_get new_row "weight_value")) as [wt|]; [| done].
  cbn [rbind] in Hh, Hw. injection Hh as Hh. injection Hw as Hw. mred.
  rewrite Hh, Hw, Hu, Hconf. mred.
  unfold preview_of in Hp. rewrite Hp. reflexivity.
Qed.

Lemma update_user_gate P user_id data w current old h_cm w_kg preview :
  session w = Some current →
  py_eq_str (su_role current) "admin" = true →
  dict_is_empty data = false →
  conn_fails P (conns w) = None →
  stored_user (db w) (PInt user_id) = Some old →
  existsb (dict_has data)
    ["dietary_goal"; "height_value"; "height_unit"; "weight_value"; "weight_unit"]
    = true →
  let new_row := compose_row ["role"; "dietary_goal"; "height_value"; "height_unit";
                              "weight_value"; "weight_unit"] data
                   (project profile_columns old) in
  py_truthy (dict_get new_row "height_value") = true →
  py_truthy (dict_get new_row "weight_value") = true →
  effective_height_cm P new_row = Ok h_cm →
  effective_weight_kg P new_row = Ok w_kg →
  _unrealistic h_cm w_kg = true →
  py_truthy (dict_get data "confirm_unrealistic") = false →
  preview_of P new_row = Ok preview →
  update_user P user_id data w
    = (Ok (Response (Some (requires_confirmation_body
               "Height/weight look unusual. Please confirm to continue." preview)) 400),
       set_conns (S (conns w)) w).
Proof.
  intros Hs Hadm He Hc Hsel Hin new_row Hth Htw Hh Hw Hu Hconf Hp.
  destruct w as [d s n b]; cbn [session conns db] in *; subst s.
  unfold stored_user in Hsel.
  unfold update_user. mred. rewrite Hadm. mred. rewrite He. mred. rewrite Hc. mred.
  rewrite Hsel. cbn [fmap option_fmap option_map]. mred.
  rewrite Hin. fold new_row. rewrite Hth, Htw. mred.
  rewrite (truthy_getitem _ _ Hth), (truthy_getitem _ _ Htw).
  unfold effective_height_cm in Hh. unfold effective_weight_kg in Hw.
  destruct (py_float P (dict_get new_row "height_value")) as [h|]; [| done].
  destruct (py_float P (dict_get new_row "weight_value")) as [wt|]; [| done].
  cbn [rbind] in Hh, Hw. injection Hh as Hh. injection Hw as Hw. mred.
  rewrite Hh, Hw, Hu, Hconf. mred.
  unfold preview_of in Hp. rewrite Hp. reflexivity.
Qed.

Lemma create_user_gate P data w current h_cm w_kg preview :
  session w = Some current →
  py_eq_str (su_role current) "admin" = true →
  dict_has data "username" = true →
  missing_keys ["height_value"; "height_unit"; "weight_value"; "weight_unit"] data = [] →
  effective_height_cm P data = Ok h_cm →
  effective_weight_kg P data = Ok w_kg →
  _unrealistic h_cm w_kg = true →
  py_truthy (dict_get data "confirm_unrealistic") = false →
  preview_of P data = Ok preview →
  create_user P data w
    = (Ok (Response (Some (requires_confirmation_body
               "Your height/weight look unusual. Please confirm to continue." preview)) 400),
       w).
Proof.
  intros Hs Hadm Hname Hmiss Hh Hw Hu Hconf Hp.
  destruct w as [d s n b]; cbn [session conns db] in *; subst s.
  pose proof (missing_keys_nil _ _ Hmiss) as HF.
  apply Forall_cons in HF as [[hv Hhv] HF].
  apply Forall_cons in HF as [_ HF].
  apply Forall_cons in HF as [[wv Hwv] _].
  unfold create_user. mred. rewrite Hadm, Hname, Hmiss. mred.
  rewrite (lookup_getitem _ _ _ Hhv), (lookup_getitem _ _ _ Hwv).
  unfold effective_height_cm in Hh. unfold effective_weight_kg in Hw.
  rewrite (lookup_dict_get _ _ _ Hhv) in Hh. rewrite (lookup_dict_get _ _ _ Hwv) in Hw.
  destruct (py_float P hv) as [h|]; [| done].
  destruct (py_float P wv) as [wt|]; [| done].
  cbn [rbind] in Hh, Hw. injection Hh as Hh. injection Hw as Hw. mred.
  rewrite Hh, Hw, Hu, Hconf. mred.
  unfold preview_of in Hp.
  rewrite (lookup_dict_get _ _ _ Hhv), (lookup_dict_get _ _ _ Hwv) in Hp.
  rewrite Hp. reflexivity.
Qed.

Lemma complete_profile_gate P data w current h_cm w_kg preview :
  session w = Some current →
  missing_keys ["height_value"; "height_unit"; "weight_value"; "weight_unit";
                "dietary_goal"] data = [] →
  py_in_strs (dict_get data "height_unit") ["cm"; "in"] = true →
  py_in_strs (dict_get data "weight_unit") ["kg"; "lb"] = true →
  py_in_strs (dict_get data "dietary_goal")
    ["weight_gain"; "weight_loss"; "maintain"; "eat_healthy"] = true →
  effective_height_cm P data = Ok h_cm →
  effective_weight_kg P data = Ok w_kg →
  _unrealistic h_cm w_kg = true →
  py_truthy (dict_get data "confirm_unrealistic") = false →
  preview_of P data = Ok preview →
  complete_profile P data w
    = (Ok (Response (Some (requires_confirmation_body
               "Your height/weight look unusual. Please confirm to continue." preview)) 400),
       w).
Proof.
  intros Hs Hmiss Hhu Hwu Hgoal Hh Hw Hu Hconf Hp.
  destruct w as [d s n b]; cbn [session conns db] in *; subst s.
  pose proof (missing_keys_nil _ _ Hmiss) as HF.
  apply Forall_cons in HF as [[hv Hhv] HF].
  apply Forall_cons in HF as [[hu Hhu'] HF].
  apply Forall_cons in HF as [[wv Hwv] HF].
  apply Forall_cons in HF as [[wu Hwu'] HF].
  apply Forall_cons in HF as [[goal Hgoal'] _].
  unfold effective_height_cm in Hh. unfold effective_weight_kg in Hw.
  unfold preview_of in Hp.
  rewrite (lookup_dict_get _ _ _ Hhv), (lookup_dict_get_default _ _ _ _ Hhu') in Hh, Hp.
  rewrite (lookup_dict_get _ _ _ Hwv), (lookup_dict_get_default _ _ _ _ Hwu') in Hw, Hp.
  rewrite (lookup_dict_get_default _ _ _ _ Hgoal') in Hp.
  rewrite (lookup_dict_get _ _ _ Hhu') in Hhu.
  rewrite (lookup_dict_get _ _ _ Hwu') in Hwu.
  rewrite (lookup_dict_get _ _ _ Hgoal') in Hgoal.
  unfold complete_profile. mred. rewrite Hmiss. mred.
  rewrite (lookup_getitem _ _ _ Hhv), (lookup_getitem _ _ _ Hwv),
    (lookup_getitem _ _ _ Hhu'), (lookup_getitem _ _ _ Hwu'),
    (lookup_getitem _ _ _ Hgoal').
  destruct (py_float P hv) as [h|] eqn:Ehv; [| done].
  destruct (py_float P wv) as [wt|] eqn:Ewv; [| done].
  cbn [rbind] in Hh, Hw. injection Hh as Hh. injection Hw as Hw. mred.
  rewrite Hhu, Hwu, Hgoal. mred. rewrite Hh, Hw, Hu, Hconf. mred.
  rewrite (calculate_target_calories_floated P hv hu wv wu goal h wt Ehv Ewv), Hp.
  reflexivity.
Qed.

Lemma unrealistic_height_90 (w_kg : float) : _unrealistic 90 w_kg = true.
Proof. reflexivity. Qed.

Lemma unrealistic_weight_310 (h_cm : float) : _unrealistic h_cm 310 = true.
Proof.
  unfold _unrealistic. change (300 <? 310)%float with true.
  by rewrite !orb_true_r.
Qed.

(** C3 (amended): for each of the four profile-affecting writes, once the
    request has got as far as the gate (for an admin update this needs one of
    the fields that feed the target in the payload), an effective height
    below 100 cm or above 250 cm, or weight below 30 kg or above 300 kg,
    without the confirmation flag, is answered with the 400
    requires-confirmation body carrying the preview whenever the preview can
    be computed, and the tables are left as they were; 90 cm and 310 kg
    always flag, 170 cm with 70 kg does not. *)
Theorem unrealistic_gate_rejects :
  (∀ P w pw r h_cm w_kg preview,
     effective_row w pw = Some r →
     reaches_gate P w pw r →
     effective_height_cm P r = Ok h_cm →
     effective_weight_kg P r = Ok w_kg →
     _unrealistic h_cm w_kg = true →
     py_truthy (dict_get (payload pw) "confirm_unrealistic") = false →
     preview_of P r = Ok preview →
     ∃ msg,
       (perform P pw w).1
         = Ok (Response (Some (requires_confirmation_body msg preview)) 400)
       ∧ db (perform P pw w).2 = db w)
  ∧ (∀ w_kg, _unrealistic 90 w_kg = true)
  ∧ (∀ h_cm, _unrealistic h_cm 310 = true)
  ∧ _unrealistic 170 70 = false.
Proof.
  split; [| split; [apply unrealistic_height_90
                   | split; [apply unrealistic_weight_310 | reflexivity]]].
  intros P w pw r h_cm w_kg preview Hrow Hgate Hh Hw Hu Hconf Hp.
  destruct pw as [data|data|data|user_id data]; cbn [perform payload] in *.
  - destruct Hgate as ([current Hs] & He & Hc & Hth & Htw).
    cbn [effective_row] in Hrow. rewrite Hs in Hrow.
    destruct (stored_user (db w) (su_user_id current)) as [old|] eqn:Hsel;
      [| discriminate].
    cbn [fmap option_fmap option_map] in Hrow.
    apply (inj Some) in Hrow. subst r.
    eexists. erewrite update_profile_gate by eassumption. by destruct w.
  - destruct Hgate as ([current Hs] & Hmiss & Hhu & Hwu & Hgoal).
    injection Hrow as <-.
    eexists. erewrite complete_profile_gate by eassumption. done.
  - destruct Hgate as ((current & Hs & Hadm) & Hname & Hmiss).
    injection Hrow as <-.
    eexists. erewrite create_user_gate by eassumption. done.
  - destruct Hgate as ((current & Hs & Hadm) & He & Hc & Hin & Hth & Htw).
    cbn [effective_row] in Hrow.
    destruct (stored_user (db w) (PInt user_id)) as [old|] eqn:Hsel; [| discriminate].
    cbn [fmap option_fmap option_map] in Hrow.
    apply (inj Some) in Hrow. subst r.
    eexists. erewrite update_user_gate by eassumption. by destruct w.
Qed.

Lemma unrealistic_gate_rejects_witness :
  ∃ msg,
    (perform demo_platform (OwnProfileUpdate {[ "dietary_goal" := PStr "weight_loss" ]})
       (demo_world (Some demo_alice))).1
      = Ok (Response (Some (requires_confirmation_body msg 1660)) 400)
    ∧ db (perform demo_platform
            (OwnProfileUpdate {[ "dietary_goal" := PStr "weight_loss" ]})
            (demo_world (Some demo_alice))).2
      = db (demo_world (Some demo_alice)).
Proof.
  refine (proj1 unrealistic_gate_rejects demo_platform (demo_world (Some demo_alice))
            (OwnProfileUpdate {[ "dietary_goal" := PStr "weight_loss" ]})
            (compose_row ["dietary_goal"; "height_value"; "height_unit";
                          "weight_value"; "weight_unit"]
               {[ "dietary_goal" := PStr "weight_loss" ]}
               (project profile_columns
                  (list_to_map
                     [("user_id", PInt 2); ("username", PStr "alice");
                      ("role", PStr "user");
                      ("password_hash", PStr "hash:wonderland");
                      ("dietary_goal", PStr "maintain");
                      ("target_calories", PInt 2080); ("height_value", PFloat 90);
                      ("height_unit", PStr "cm"); ("weight_value", PFloat 70);
                      ("weight_unit", PStr "kg"); ("created_at", PInt 1600000001)])))
            90%float 70%float 1660 _ _ _ _ _ _ _).
  - vm_refl.
  - refine (conj (ex_intro _ demo_alice eq_refl) (conj _ (conj _ (conj _ _))));
      vm_refl.
  - vm_refl.
  - vm_refl.
  - vm_refl.
  - vm_refl.
  - vm_refl.
Defined.

(** C3 as stated fails for an admin update that only changes the role: the
    stored height of 90 cm is the effective height, no confirmation flag is
    passed, and the row is written with a 200 answer. *)
Lemma unrealistic_gate_counterexample :
  let w := demo_world (Some demo_admin) in
  let pw := AdminUserUpdate 2 {[ "role" := PStr "admin" ]} in
  ∃ r resp w',
    effective_row w pw = Some r
    ∧ flagged demo_platform r
    ∧ py_truthy (dict_get (payload pw) "confirm_unrealistic") = false
    ∧ perform demo_platform pw w = (Ok resp, w')
    ∧ status resp = 200%nat
    ∧ (λ r, dict_get r "role") <$> stored_user (db w) (PInt 2) = Some (PStr "user")
    ∧ (λ r, dict_get r "role") <$> stored_user (db w') (PInt 2) = Some (PStr "admin")
    ∧ ¬ rejected_for_confirmation w (perform demo_platform pw w).
Proof.
  intros w pw.
  exists (compose_row ["role"; "dietary_goal"; "height_value"; "height_unit";
                       "weight_value"; "weight_unit"] {[ "role" := PStr "admin" ]}
            (project profile_columns (default ∅ (stored_user (db w) (PInt 2))))).
  exists (default (Response None 0) (match (perform demo_platform pw w).1 with
                                      | Ok r => Some r | Raise _ => None end)).
  exists (perform demo_platform pw w).2.
  split; [vm_refl |].
  split; [exists 90%float, 70%float; split; [vm_refl | split; vm_refl] |].
  split; [vm_refl |].
  split; [vm_refl |].
  split; [vm_refl |].
  split; [vm_refl |].
  split; [vm_refl |].
  intros (msg & preview & H & _).
  assert (Hst : status <$> (match (perform demo_platform pw w).1 with
                            | Ok r => Some r | Raise _ => None end) = Some 200%nat)
    by vm_refl.
  rewrite H in Hst. discriminate Hst.
Qed.

(** ** Row updates *)

Lemma set_cols_cons k v l r : set_cols ((k, v) :: l) r = set_cols l (<[k := v]> r).
Proof. reflexivity. Qed.

Lemma set_cols_lookup_notin l r k :
  k ∉ l.*1 → set_cols l r !! k = r !! k.
Proof.
  revert r. induction l as [|[k' v'] l IH]; intros r Hk; [done |].
  rewrite set_cols_cons, IH by set_solver.
  apply lookup_insert_ne. set_solver.
Qed.

Lemma set_cols_lookup l r k v :
  NoDup l.*1 → (k, v) ∈ l → set_cols l r !! k = Some v.
Proof.
  revert r. induction l as [|[k' v'] l IH]; intros r Hnd Hin.
  - by apply elem_of_nil in Hin.
  - rewrite set_cols_cons. apply NoDup_cons in Hnd as [Hk' Hnd].
    apply elem_of_cons in Hin as [[= -> ->]|Hin].
    + rewrite set_cols_lookup_notin by done. apply lookup_insert_eq.
    + by apply IH.
Qed.

Lemma elem_of_keyed_omap (data : pydict) (keys : list string) k v :
  (k, v) ∈ omap (keyed data) keys ↔ k ∈ keys ∧ data !! k = Some v.
Proof.
  rewrite list_elem_of_omap. unfold keyed. split.
  - intros (key & Hin & Hk). destruct (data !! key) eqn:E; [| discriminate].
    cbn in Hk. injection Hk as <- <-. done.
  - intros [Hin Hk]. exists k. by rewrite Hk.
Qed.

Lemma keyed_omap_nodup (data : pydict) (keys : list string) :
  NoDup keys → NoDup (omap (keyed data) keys).*1.
Proof.
  induction 1 as [|k keys Hk Hnd IH]; cbn [omap list_omap]; [constructor |].
  unfold keyed at 1. destruct (data !! k) as [v|] eqn:E; cbn; [| done].
  constructor; [| done].
  intros Hin. apply list_elem_of_fmap in Hin as ([k' v'] & -> & Hin).
  apply elem_of_keyed_omap in Hin as [Hin _]. done.
Qed.

Lemma update_assignments_keys (data : pydict) :
  NoDup (update_assignments data).*1.
Proof.
  apply (keyed_omap_nodup data). apply (bool_decide_unpack _). by vm_compute.
Qed.

Lemma update_assignments_lookup (data r : pydict) k v :
  k ∈ ["date"; "portion_size"; "calories"; "protein"; "carbs"; "fat"; "fiber";
       "sugars"; "health_score"; "meal_type"] →
  data !! k = Some v →
  set_cols (update_assignments data) r !! k = Some v.
Proof.
  intros Hk Hv. apply set_cols_lookup; [apply update_assignments_keys |].
  by apply (elem_of_keyed_omap data).
Qed.

(** ** Consumption entries *)


Ltac lookup_inserts :=
  repeat (rewrite lookup_insert_ne by (intro; discriminate));
  first [apply lookup_insert_eq | reflexivity].



Lemma head_fmap_list {A B} (f : A → B) (l : list A) : head (f <$> l) = f <$> head l.
Proof. by destruct l. Qed.

Lemma select_update_where tbl p a :
  (∀ r, p (set_cols a r) = p r) →
  select_where (update_where tbl p a) p = set_cols a <$> select_where tbl p.
Proof.
  intros Hp. unfold select_where, update_where.
  induction tbl as [|r tbl IH]; [done |].
  cbn [fmap list_fmap List.filter].
  destruct (p r) eqn:E.
  - by rewrite Hp, E.
  - by rewrite E.
Qed.

Lemma select_update_where_other tbl p q a :
  (∀ r, q (set_cols a r) = q r) →
  (∀ r, q r = true → p r = false) →
  select_where (update_where tbl p a) q = select_where tbl q.
Proof.
  intros Hq Hpq. unfold select_where, update_where.
  induction tbl as [|r tbl IH]; [done |].
  cbn [fmap list_fmap List.filter].
  destruct (p r) eqn:E.
  - rewrite Hq. destruct (q r) eqn:E'; [| done].
    rewrite (Hpq _ E') in E. done.
  - destruct (q r); [done |]. done.
Qed.

Lemma dict_get_set_cols_notin l r k :
  k ∉ l.*1 → dict_get (set_cols l r) k = dict_get r k.
Proof. intros H. unfold dict_get. by rewrite set_cols_lookup_notin. Qed.



Lemma create_consumption_ignores_user_id P data w current :
  session w = Some current →
  py_eq_str (su_role current) "admin" = false →
  create_consumption P data w = create_consumption P (delete "user_id" data) w.
Proof.
  intros Hs Hadm. destruct w as [d s n b]; cbn [session] in Hs; subst s.
  unfold create_consumption, missing_keys, dict_has, dict_get_default, dict_get, getitem.
  cbn [List.filter]. mred. rewrite Hadm.
  rewrite !lookup_delete_ne by done. reflexivity.
Qed.

Lemma create_consumption_created P data w current resp w' :
  session w = Some current →
  py_eq_str (su_role current) "admin" = false →
  create_consumption P data w = (Ok resp, w') →
  status resp = 201%nat →
  ∃ row uid,
    body resp = Some row
    ∧ py_int P (su_user_id current) = Ok uid
    ∧ row !! "user_id" = Some (PInt uid)
    ∧ consumption (db w') = consumption (db w) ++ [row].
Proof.
  intros Hs Hadm H Hst. destruct w as [d s n b]; cbn [session] in Hs; subst s.
  unfold create_consumption in H. mred_in H. rewrite Hadm in H.
  minvert 16 H Hst.
  apply returned_inv in H as [<- <-]. eexists _, _. split; [reflexivity |].
  split; [reflexivity |]. cbn [db consumption].
  split; [| reflexivity].
  unfold set_cols. cbn [foldl fst snd]. lookup_inserts.
Qed.

(** C4: for a logged-in caller who is not an admin, two create requests that
    differ only in the payload's [user_id] have the same outcome (answer and
    stored state), and an entry that is created belongs to the session user. *)
Theorem non_admin_create_pinned P w current data1 data2 :
  session w = Some current →
  py_eq_str (su_role current) "admin" = false →
  delete "user_id" data1 = delete "user_id" data2 →
  create_consumption P data1 w = create_consumption P data2 w
  ∧ ∀ resp w',
      create_consumption P data1 w = (Ok resp, w') →
      status resp = 201%nat →
      ∃ row uid,
        body resp = Some row
        ∧ py_int P (su_user_id current) = Ok uid
        ∧ row !! "user_id" = Some (PInt uid)
        ∧ consumption (db w') = consumption (db w) ++ [row].
Proof.
  intros Hs Hadm Hdata. split.
  - rewrite (create_consumption_ignores_user_id P data1 w current Hs Hadm),
      (create_consumption_ignores_user_id P data2 w current Hs Hadm).
    by rewrite Hdata.
  - intros resp w'. by apply create_consumption_created.
Qed.

Lemma non_admin_create_pinned_witness :
  create_consumption demo_platform
      (<["user_id" := PInt 1]>
         (<["food_id" := PInt 1]> {[ "date" := PStr "2025-11-02" ]}))
      (demo_world (Some demo_alice))
    = create_consumption demo_platform
        (<["food_id" := PInt 1]> {[ "date" := PStr "2025-11-02" ]})
        (demo_world (Some demo_alice))
  ∧ (λ r, (status r, (λ row, dict_get row "user_id") <$> body r))
      <$> answer (create_consumption demo_platform
                    (<["user_id" := PInt 1]>
                       (<["food_id" := PInt 1]> {[ "date" := PStr "2025-11-02" ]}))
                    (demo_world (Some demo_alice)))
    = Some (201%nat, Some (PInt 2)).
Proof.
  split; [| vm_refl].
  refine (proj1 (non_admin_create_pinned demo_platform (demo_world (Some demo_alice))
                   demo_alice _ _ eq_refl eq_refl _)).
  vm_refl.
Defined.



(** C6 fails on the code: an update whose payload names a nutrition field but
    no [portion_size] stores the supplied value. The entry held
    100 = 100 * 1 calories; after the update it holds 9999 with the same
    portion size and the same food item. *)
Theorem update_consumption_overwrites_snapshot :
  let w := demo_world (Some demo_alice) in
  let out := update_consumption demo_platform 1 {[ "calories" := PFloat 9999 ]} w in
  status <$> answer out = Some 200%nat
  ∧ (λ r, (dict_get r "calories", dict_get r "portion_size", dict_get r "food_id"))
      <$> stored_entry (db w) 1 = Some (PFloat 100, PFloat 1, PInt 1)
  ∧ (λ r, (dict_get r "calories", dict_get r "portion_size", dict_get r "food_id"))
      <$> stored_entry (db out.2) 1 = Some (PFloat 9999, PFloat 1, PInt 1)
  ∧ (λ r, dict_get r "calories") <$> stored_food (db out.2) (PInt 1)
    = Some (PFloat 100).
Proof. cbv zeta. repeat (refine (conj _ _)); vm_refl. Qed.

(** ** The audit trail *)

Lemma note_changes_lookup P old new (l : list string) acc k :
  foldl (note_change P old new) acc l !! k
  = if bool_decide (k ∈ List.filter (differs P old new) l)
    then Some (dict_get old k, dict_get new k)
    else acc !! k.
Proof.
  revert acc. induction l as [|k' l IH]; intros acc; [done |].
  cbn [foldl List.filter]. rewrite IH. unfold note_change.
  destruct (differs P old new k') eqn:E.
  - destruct (decide (k' = k)) as [->|Hne].
    + rewrite lookup_insert_eq. rewrite (bool_decide_eq_true_2 (k ∈ k :: _)) by left.
      by destruct (bool_decide _).
    + rewrite lookup_insert_ne by done.
      case_bool_decide as H1; case_bool_decide as H2; try done.
      * exfalso. apply H2. by right.
      * apply elem_of_cons in H2 as [?|?]; done.
  - done.
Qed.

Lemma changed_fields_lookup P old new k :
  changed_fields P old new !! k
  = if bool_decide (k ∈ differing_fields P old new)
    then Some (dict_get old k, dict_get new k)
    else None.
Proof.
  change (changed_fields P old new)
    with (foldl (note_change P old new) ∅ tracked_fields).
  by rewrite note_changes_lookup, lookup_empty.
Qed.

Lemma note_changes_size P old new (l : list string) acc :
  NoDup l → (∀ k, k ∈ l → acc !! k = None) →
  size (foldl (note_change P old new) acc l)
  = (size acc + length (List.filter (differs P old new) l))%nat.
Proof.
  intros Hnd. revert acc. induction Hnd as [|k l Hk Hnd IH]; intros acc Hacc.
  - cbn. lia.
  - cbn [foldl List.filter]. rewrite IH.
    + unfold note_change. destruct (differs P old new k).
      * rewrite map_size_insert_None by (apply Hacc; left). cbn [length]. lia.
      * lia.
    + intros k' Hk'. unfold note_change. destruct (differs P old new k).
      * rewrite lookup_insert_ne by (intros ->; done). apply Hacc. by right.
      * apply Hacc. by right.
Qed.

Lemma changed_fields_size P old new :
  size (changed_fields P old new) = length (differing_fields P old new).
Proof.
  unfold changed_fields, differing_fields.
  change (size (foldl (note_change P old new) ∅ tracked_fields)
          = length (List.filter (differs P old new) tracked_fields)).
  rewrite note_changes_size.
  - by rewrite map_size_empty.
  - apply (bool_decide_unpack _). by vm_compute.
  - intros. apply lookup_empty.
Qed.

Lemma changed_fields_empty P old new :
  dict_is_empty (changed_fields P old new) = true ↔ differing_fields P old new = [].
Proof.
  rewrite dict_is_empty_true. rewrite <- map_size_empty_iff, changed_fields_size.
  by destruct (differing_fields P old new).
Qed.

Lemma changed_fields_ext P old old' new new' :
  (∀ k, k ∈ tracked_fields → dict_get old k = dict_get old' k) →
  (∀ k, k ∈ tracked_fields → dict_get new k = dict_get new' k) →
  changed_fields P old new = changed_fields P old' new'.
Proof.
  unfold changed_fields. generalize (∅ : gmap string (pyval * pyval)).
  induction tracked_fields as [|k l IH]; intros acc Ho Hn; [done |].
  cbn [foldl]. rewrite (Ho k), (Hn k) by left.
  apply IH; intros; [apply Ho | apply Hn]; by right.
Qed.

Lemma dict_get_project cols r k : k ∈ cols → dict_get (project cols r) k = dict_get r k.
Proof.
  intros Hk. unfold dict_get at 1, project.
  assert (list_to_map ((λ k0, (k0, dict_get r k0)) <$> cols) !! k
          = Some (dict_get r k)) as ->; [| done].
  induction cols as [|c cols IH]; [by apply elem_of_nil in Hk |].
  cbn [fmap list_fmap list_to_map foldr]. cbn.
  destruct (decide (c = k)) as [->|Hne].
  - apply lookup_insert_eq.
  - rewrite lookup_insert_ne by done. apply IH. set_solver.
Qed.

Lemma tracked_in_profile_columns k : k ∈ tracked_fields → k ∈ profile_columns.
Proof. unfold tracked_fields, profile_columns. set_solver. Qed.

Lemma audit_records_project P target by_ old new :
  audit_records P target by_ (project profile_columns old) (project profile_columns new)
  = audit_records P target by_ old new.
Proof.
  unfold audit_records.
  rewrite (changed_fields_ext P _ old _ new); [done | |];
    intros k Hk; apply dict_get_project, tracked_in_profile_columns, Hk.
Qed.

Lemma audit_records_project_old P target by_ old new :
  audit_records P target by_ (project tracked_fields old) (project profile_columns new)
  = audit_records P target by_ old new.
Proof.
  unfold audit_records.
  rewrite (changed_fields_ext P _ old _ new); [done | |]; intros k Hk.
  - by apply dict_get_project.
  - apply dict_get_project, tracked_in_profile_columns, Hk.
Qed.

(** What [_audit_profile_change] does when storage answers. *)
Lemma audit_profile_change_ok P target by_ old new w :
  conn_fails P (conns w) = None →
  ∃ w', _audit_profile_change P target by_ old (Some new) w = (Ok tt, w')
     ∧ user_profile_changes (db w')
       = user_profile_changes (db w) ++ audit_records P target by_ old new
     ∧ users (db w') = users (db w).
Proof.
  intros Hc. unfold _audit_profile_change, audit_records.
  destruct (dict_is_empty _).
  - exists w. mred. by rewrite app_nil_r.
  - mred. rewrite Hc. mred. eexists. split; [reflexivity |]. mred. done.
Qed.

Lemma user_id_kept (a : list (string * pyval)) uid :
  "user_id" ∉ a.*1 →
  ∀ r, sql_eq (dict_get (set_cols a r) "user_id") uid = sql_eq (dict_get r "user_id") uid.
Proof. intros H r. by rewrite dict_get_set_cols_notin. Qed.

Lemma update_profile_audit P data w resp w' :
  no_faults P →
  update_profile P data w = (Ok resp, w') → status resp = 200%nat →
  ∃ current old_row new_row,
    session w = Some current
    ∧ stored_user (db w) (su_user_id current) = Some old_row
    ∧ stored_user (db w') (su_user_id current) = Some new_row
    ∧ user_profile_changes (db w')
      = user_profile_changes (db w)
        ++ audit_records P (su_user_id current) current old_row new_row.
Proof.
  intros Hnf H Hst. unfold no_faults in Hnf.
  destruct w as [d s n b]. unfold update_profile in H. mred_in H.
  destruct s as [current|]; mred_in H; [| mwrong H Hst].
  minvert 10 H Hst.
  rewrite Hnf in H. mred_in H.
  destruct (select_where (users d) _) as [old|] eqn:Hold; [| discriminate Heqo0].
  apply (inj Some) in Heqo0. subst g.
  match type of H with context [set_cols ?a] => set (asg := a) in * end.
  assert (Hkept : "user_id" ∉ asg.*1).
  { subst asg. cbn [fmap list_fmap fst]. apply (bool_decide_unpack _). by vm_compute. }
  rewrite head_fmap_list in H. unfold select_where in Hold. rewrite Hold in H.
  cbn [fmap option_fmap option_map] in H.
  match type of H with
  | context [_audit_profile_change P ?t ?c ?o (Some ?r) ?w0] =>
      destruct (audit_profile_change_ok P t c o r w0 (Hnf _)) as (w2 & Haud & Hrec & Husers)
  end.
  rewrite Haud in H. mred_in H. apply returned_inv in H as [<- <-].
  exists current, old, (set_cols asg old). cbn [session db].
  split; [done |]. split; [exact Hold |].
  split.
  - unfold stored_user. rewrite Husers. cbn [db users].
    rewrite select_update_where by (by apply user_id_kept).
    fold (select_where (users d)
            (λ r, sql_eq (dict_get r "user_id") (su_user_id current))) in Hold.
    by rewrite Hold.
  - rewrite Hrec. cbn [db user_profile_changes]. by rewrite audit_records_project.
Qed.

(** The last two steps of a profile mutation: the UPDATE of the row found
    before, then the audit call. *)
Tactic Notation "audit_tail" constr(P) hyp(H) hyp(Hnf) hyp(Hold) ident(asg)
    ident(Hkept) ident(Hrec) ident(Husers) :=
  match type of H with context [set_cols ?a] => set (asg := a) in * end;
  assert (Hkept : "user_id" ∉ asg.*1);
  [ subst asg; cbn [fmap list_fmap fst]; apply (bool_decide_unpack _); by vm_compute |];
  rewrite head_fmap_list in H; unfold select_where in Hold; rewrite Hold in H;
  cbn [fmap option_fmap option_map] in H;
  match type of H with
  | context [_audit_profile_change P ?t ?c ?o (Some ?r) ?w0] =>
      let w2 := fresh "w2" in
      let Haud := fresh "Haud" in
      destruct (audit_profile_change_ok P t c o r w0 (Hnf _))
        as (w2 & Haud & Hrec & Husers);
      rewrite Haud in H; mred_in H; apply returned_inv in H as [<- <-]
  end.

Lemma update_user_audit P user_id data w resp w' :
  no_faults P →
  update_user P user_id data w = (Ok resp, w') → status resp = 200%nat →
  ∃ current old_row new_row,
    session w = Some current
    ∧ stored_user (db w) (PInt user_id) = Some old_row
    ∧ stored_user (db w') (PInt user_id) = Some new_row
    ∧ user_profile_changes (db w')
      = user_profile_changes (db w)
        ++ audit_records P (PInt user_id) current old_row new_row.
Proof.
  intros Hnf H Hst. unfold no_faults in Hnf.
  destruct w as [d s n b]. unfold update_user in H. mred_in H.
  destruct s as [current|]; mred_in H; [| mwrong H Hst].
  minvert 4 H Hst.
  destruct (select_where (users d) _) as [old|] eqn:Hold; [| discriminate Heqo0].
  apply (inj Some) in Heqo0. subst g.
  mcase H.
  - minvert 7 H Hst.
    rewrite Hnf in H. mred_in H.
    audit_tail P H Hnf Hold asg Hkept Hrec Husers.
    exists current, old, (set_cols asg old). cbn [session db].
    split; [done |]. split; [exact Hold |].
    split.
    + unfold stored_user. rewrite Husers. cbn [db users].
      rewrite select_update_where by (by apply user_id_kept).
      fold (select_where (users d) (λ r, sql_eq (dict_get r "user_id") (PInt user_id)))
        in Hold.
      by rewrite Hold.
    + rewrite Hrec. cbn [db user_profile_changes]. by rewrite audit_records_project.
  - rewrite Hnf in H. mred_in H.
    audit_tail P H Hnf Hold asg Hkept Hrec Husers.
    exists current, old, (set_cols asg old). cbn [session db].
    split; [done |]. split; [exact Hold |].
    split.
    + unfold stored_user. rewrite Husers. cbn [db users].
      rewrite select_update_where by (by apply user_id_kept).
      fold (select_where (users d) (λ r, sql_eq (dict_get r "user_id") (PInt user_id)))
        in Hold.
      by rewrite Hold.
    + rewrite Hrec. cbn [db user_profile_changes]. by rewrite audit_records_project.
Qed.

Lemma complete_profile_audit P data w resp w' :
  no_faults P →
  complete_profile P data w = (Ok resp, w') → status resp = 200%nat →
  ∃ current old_row new_row,
    session w = Some current
    ∧ stored_user (db w) (su_user_id current) = Some old_row
    ∧ stored_user (db w') (su_user_id current) = Some new_row
    ∧ user_profile_changes (db w')
      = user_profile_changes (db w)
        ++ audit_records P (su_user_id current) current old_row new_row.
Proof.
  intros Hnf H Hst. unfold no_faults in Hnf.
  destruct w as [d s n b]. unfold complete_profile in H. mred_in H.
  destruct s as [current|]; mred_in H; [| mwrong H Hst].
  minvert 13 H Hst.
  rewrite Hnf in H. mred_in H. rewrite Hnf in H. mred_in H.
  destruct (select_where (users d) _) as [old|] eqn:Hold.
  - match type of H with context [set_cols ?a] => set (asg := a) in * end.
    assert (Hkept : "user_id" ∉ asg.*1).
    { subst asg. cbn [fmap list_fmap fst]. apply (bool_decide_unpack _). by vm_compute. }
    rewrite head_fmap_list in H. unfold select_where in Hold. rewrite Hold in H.
    cbn [fmap option_fmap option_map] in H.
    match type of H with
    | context [_audit_profile_change P ?t ?c ?o (Some ?r) ?w0] =>
        destruct (audit_profile_change_ok P t c o r w0 (Hnf _))
          as (w2 & Haud & Hrec & Husers)
    end.
    rewrite Haud in H. mred_in H. apply returned_inv in H as [<- <-].
    exists current, old, (set_cols asg old). cbn [session db].
    split; [done |]. split; [exact Hold |].
    split.
    + unfold stored_user. rewrite Husers. cbn [db users].
      rewrite select_update_where by (by apply user_id_kept).
      fold (select_where (users d)
              (λ r, sql_eq (dict_get r "user_id") (su_user_id current))) in Hold.
      by rewrite Hold.
    + rewrite Hrec. cbn [db user_profile_changes].
      by rewrite audit_records_project_old.
  - rewrite head_fmap_list in H. unfold select_where in Hold. rewrite Hold in H.
    cbn [fmap option_fmap option_map] in H. mred_in H. mwrong H Hst.
Qed.

Ltac other Hother H := left; eapply Hother; [| | exact H]; done.

Lemma create_user_created P data w resp w' :
  create_user P data w = (Ok resp, w') →
  status resp ≠ 201%nat ∧ status resp ≠ 200%nat
  ∨ status resp = 201%nat
    ∧ ∃ r, users (db w') = users (db w) ++ [r]
        ∧ r !! "password_hash" = Some PNone
        ∧ r !! "username" = data !! "username"
        ∧ body resp = Some (project profile_columns r).
Proof.
  intros H. destruct w as [d s n b]. unfold create_user in H. mred_in H.
  assert (Hother : ∀ (c : nat) bd (w0 : world),
            c ≠ 201%nat → c ≠ 200%nat →
            (Ok (Response bd c), w0) = (Ok resp, w') →
            status resp ≠ 201%nat ∧ status resp ≠ 200%nat).
  { intros c bd w0 H1 H2 E. apply returned_inv in E as [<- _]. done. }
  destruct s as [current|]; mred_in H; [| other Hother H].
  do 14 (try (mcase H;
              try (lazymatch type of H with
                   | (Ok (Response _ 201), _) = _ => fail
                   | (Ok _, _) = _ => other Hother H
                   end))).
  apply returned_inv in H as [<- <-]. right. split; [reflexivity |].
  eexists. cbn [db users body]. split; [reflexivity |].
  match goal with
  | E : getitem data "username" = Ok _ |- _ =>
      unfold getitem in E; destruct (data !! "username") as [uname|];
      [injection E as <- | discriminate E]
  end.
  unfold set_cols. cbn [foldl fst snd].
  split; [| split; [lookup_inserts | reflexivity]].
  rewrite !lookup_insert_ne by (intro; discriminate). reflexivity.
Qed.

Lemma audit_records_spec P target by_ old new :
  match differing_fields P old new with
  | [] => audit_records P target by_ old new = []
  | _ :: _ =>
      ∃ record,
        audit_records P target by_ old new = [record]
        ∧ pc_user_id record = target
        ∧ pc_changed_by_user_id record = su_user_id by_
        ∧ pc_changed_by_role record = su_role by_
        ∧ (∀ k, pc_changed_fields record !! k
                = if bool_decide (k ∈ differing_fields P old new)
                  then Some (dict_get old k, dict_get new k)
                  else None)
        ∧ size (pc_changed_fields record) = length (differing_fields P old new)
  end.
Proof.
  unfold audit_records.
  destruct (dict_is_empty (changed_fields P old new)) eqn:E.
  - apply changed_fields_empty in E. by rewrite E.
  - destruct (differing_fields P old new) as [|k l] eqn:Hd.
    + apply changed_fields_empty in Hd. congruence.
    + eexists. split; [reflexivity |]. cbn [pc_user_id pc_changed_by_user_id
        pc_changed_by_role pc_changed_fields].
      repeat split; try reflexivity.
      * intros k'. rewrite changed_fields_lookup. by rewrite Hd.
      * rewrite changed_fields_size. by rewrite Hd.
Qed.

(** C7: a profile mutation (own-profile update, profile completion, admin
    user update) that succeeds while storage answers appends to the audit
    table nothing when no tracked field differs between the stored row before
    and after under string comparison, and otherwise exactly one record, for
    the target user, whose changed-field map holds exactly the differing
    fields with their from and to values. *)
Theorem profile_mutation_audit P w pw resp w' :
  no_faults P →
  perform P pw w = (Ok resp, w') →
  status resp = 200%nat →
  ∃ current target old_row new_row added,
    session w = Some current
    ∧ mutation_target w pw = Some target
    ∧ stored_user (db w) target = Some old_row
    ∧ stored_user (db w') target = Some new_row
    ∧ user_profile_changes (db w') = user_profile_changes (db w) ++ added
    ∧ match differing_fields P old_row new_row with
      | [] => added = []
      | _ :: _ =>
          ∃ record,
            added = [record]
            ∧ pc_user_id record = target
            ∧ pc_changed_by_user_id record = su_user_id current
            ∧ pc_changed_by_role record = su_role current
            ∧ (∀ k, pc_changed_fields record !! k
                    = if bool_decide (k ∈ differing_fields P old_row new_row)
                      then Some (dict_get old_row k, dict_get new_row k)
                      else None)
            ∧ size (pc_changed_fields record)
              = length (differing_fields P old_row new_row)
      end.
Proof.
  intros Hnf H Hst.
  destruct pw as [data|data|data|user_id data]; cbn [perform mutation_target] in *.
  - destruct (update_profile_audit P data w resp w' Hnf H Hst)
      as (current & old & new & Hs & Ho & Hn & Ha).
    exists current, (su_user_id current), old, new,
      (audit_records P (su_user_id current) current old new).
    rewrite Hs. repeat (split; [done |]).
    apply audit_records_spec.
  - destruct (complete_profile_audit P data w resp w' Hnf H Hst)
      as (current & old & new & Hs & Ho & Hn & Ha).
    exists current, (su_user_id current), old, new,
      (audit_records P (su_user_id current) current old new).
    rewrite Hs. repeat (split; [done |]).
    apply audit_records_spec.
  - destruct (create_user_created P data w resp w' H) as [[_ Hne]|[Heq _]]; congruence.
  - destruct (update_user_audit P user_id data w resp w' Hnf H Hst)
      as (current & old & new & Hs & Ho & Hn & Ha).
    exists current, (PInt user_id), old, new,
      (audit_records P (PInt user_id) current old new).
    repeat (split; [done |]).
    apply audit_records_spec.
Qed.

Lemma profile_mutation_audit_witness :
  ∃ current target old_row new_row added,
    session (demo_world (Some demo_alice)) = Some current
    ∧ mutation_target (demo_world (Some demo_alice))
        (OwnProfileUpdate
           (<["weight_value" := PFloat 72]> {[ "confirm_unrealistic" := PBool true ]}))
      = Some target
    ∧ stored_user (db (demo_world (Some demo_alice))) target = Some old_row
    ∧ stored_user
        (db (perform demo_platform
               (OwnProfileUpdate
                  (<["weight_value" := PFloat 72]>
                     {[ "confirm_unrealistic" := PBool true ]}))
               (demo_world (Some demo_alice))).2) target = Some new_row
    ∧ user_profile_changes
        (db (perform demo_platform
               (OwnProfileUpdate
                  (<["weight_value" := PFloat 72]>
                     {[ "confirm_unrealistic" := PBool true ]}))
               (demo_world (Some demo_alice))).2)
      = user_profile_changes (db (demo_world (Some demo_alice))) ++ added
    ∧ match differing_fields demo_platform old_row new_row with
      | [] => added = []
      | _ :: _ =>
          ∃ record,
            added = [record]
            ∧ pc_user_id record = target
            ∧ pc_changed_by_user_id record = su_user_id current
            ∧ pc_changed_by_role record = su_role current
            ∧ (∀ k, pc_changed_fields record !! k
                    = if bool_decide (k ∈ differing_fields demo_platform old_row new_row)
                      then Some (dict_get old_row k, dict_get new_row k)
                      else None)
            ∧ size (pc_changed_fields record)
              = length (differing_fields demo_platform old_row new_row)
      end.
Proof.
  refine (profile_mutation_audit demo_platform (demo_world (Some demo_alice))
            (OwnProfileUpdate
               (<["weight_value" := PFloat 72]> {[ "confirm_unrealistic" := PBool true ]}))
            (default (Response None 0)
               (answer (perform demo_platform
                          (OwnProfileUpdate
                             (<["weight_value" := PFloat 72]>
                                {[ "confirm_unrealistic" := PBool true ]}))
                          (demo_world (Some demo_alice)))))
            _ _ _ _).
  - intros n. reflexivity.
  - vm_refl.
  - vm_refl.
Defined.

(** The same mutation, evaluated: weight and target differ, one record. *)
Lemma profile_mutation_audit_example :
  (λ d, (length (user_profile_changes d),
         (λ r, (pc_user_id r, size (pc_changed_fields r),
                pc_changed_fields r !! "weight_value",
                pc_changed_fields r !! "target_calories"))
           <$> head (user_profile_changes d)))
    (db (perform demo_platform
           (OwnProfileUpdate
              (<["weight_value" := PFloat 72]> {[ "confirm_unrealistic" := PBool true ]}))
           (demo_world (Some demo_alice))).2)
  = (1%nat, Some (PInt 2, 2%nat, Some (PFloat 70, PFloat 72),
                  Some (PInt 2080, PInt 2120))).
Proof. vm_refl. Qed.

(** A profile completion whose audit connection is refused: it is answered
    200 and the row is written with a new height and target, two audited
    fields that differ, but no audit record is added. *)
Lemma profile_mutation_audit_counterexample :
  let w := demo_world (Some demo_alice) in
  let pw := ProfileCompletion
              {[ "height_value" := PFloat 170; "height_unit" := PStr "cm";
                 "weight_value" := PFloat 70; "weight_unit" := PStr "kg";
                 "dietary_goal" := PStr "maintain" ]} in
  let out := perform flaky_platform pw w in
  status <$> answer out = Some 200%nat
  ∧ match stored_user (db w) (PInt 2), stored_user (db out.2) (PInt 2) with
    | Some old_row, Some new_row =>
        differing_fields flaky_platform old_row new_row
        = ["height_value"; "target_calories"]
    | _, _ => False
    end
  ∧ user_profile_changes (db out.2) = user_profile_changes (db w).
Proof.
  intros w pw out.
  split; [vm_refl |]. split; [| vm_refl].
  assert (stored_user (db w) (PInt 2) = Some (default ∅ (stored_user (db w) (PInt 2))))
    as -> by vm_refl.
  assert (stored_user (db out.2) (PInt 2)
          = Some (default ∅ (stored_user (db out.2) (PInt 2)))) as -> by vm_refl.
  vm_refl.
Qed.

(** ** Login *)




(** ** Best-effort operations *)

(** C8 fails on the code for the own-profile update: when the connection for
    the audit INSERT fails, the update that has already been committed is
    answered with a 500; the completion endpoint swallows the same failure. *)
Theorem audit_failure_fails_update_profile :
  let w := demo_world (Some demo_alice) in
  let out := update_profile flaky_platform {[ "height_value" := PFloat 170 ]} w in
  let sibling :=
    complete_profile flaky_platform
      (<["height_value" := PFloat 170]>
       (<["height_unit" := PStr "cm"]>
       (<["weight_value" := PFloat 70]>
       (<["weight_unit" := PStr "kg"]>
          {[ "dietary_goal" := PStr "maintain" ]})))) w in
  answer out = Some (Response (Some (error_body "connection refused")) 500)
  ∧ (λ r, dict_get r "height_value") <$> stored_user (db w) (PInt 2)
    = Some (PFloat 90)
  ∧ (λ r, dict_get r "height_value") <$> stored_user (db out.2) (PInt 2)
    = Some (PFloat 170)
  ∧ user_profile_changes (db out.2) = []
  ∧ status <$> answer sibling = Some 200%nat
  ∧ (λ r, dict_get r "height_value") <$> stored_user (db sibling.2) (PInt 2)
    = Some (PFloat 170)
  ∧ user_profile_changes (db sibling.2) = [].
Proof. cbv zeta. repeat (refine (conj _ _)); vm_refl. Qed.

(** * Further properties of the backend *)

(** ** Guards *)

Ltac mred2 :=
  repeat progress (mred; unfold select_entry_with_food; mred).

(** Every protected endpoint answers 401 without a session, the two admin
    endpoints answer 403 to a caller who is not an admin, and in both cases
    nothing at all is changed or even read. *)
Theorem protected_endpoints_guarded P ep w :
  (session w = None →
     run P ep w = (Ok (Response (Some (error_body "Not authenticated")) 401), w))
  ∧ (∀ u, session w = Some u →
       admin_only ep = true →
       py_eq_str (su_role u) "admin" = false →
       run P ep w = (Ok (Response (Some (error_body "You don't have permission")) 403), w)).
Proof.
  split.
  - intros Hs. destruct w as [d s n b]; cbn [session] in Hs; subst s.
    destruct ep; reflexivity.
  - intros u Hs Hadm Hrole. destruct w as [d s n b]; cbn [session] in Hs; subst s.
    destruct ep; try discriminate Hadm; cbn [run];
      [unfold create_user | unfold update_user]; mred; by rewrite Hrole.
Qed.

Lemma protected_endpoints_guarded_witness :
  run demo_platform (UpdateUser 1 {[ "role" := PStr "user" ]})
      (demo_world (Some demo_alice))
  = (Ok (Response (Some (error_body "You don't have permission")) 403),
     demo_world (Some demo_alice)).
Proof.
  exact (proj2 (protected_endpoints_guarded demo_platform
                  (UpdateUser 1 {[ "role" := PStr "user" ]})
                  (demo_world (Some demo_alice)))
           demo_alice eq_refl eq_refl eq_refl).
Defined.

(** ** Admin bootstrap *)

Lemma ensure_admin_bootstrap_returns P w :
  ∃ w', ensure_admin_bootstrap P w = (Ok tt, w')
     ∧ session w' = session w
     ∧ bootstrap_done w' = bootstrap_done w
     ∧ (conn_fails P (conns w) ≠ None → db w' = db w).
Proof.
  destruct w as [d s n b]. unfold ensure_admin_bootstrap. mred.
  destruct (conn_fails P n) as [msg|] eqn:Hc; mred.
  { eexists. split; [reflexivity |]. done. }
  destruct (first_by_user_id _) as [admin|]; mred.
  - destruct (negb (py_truthy (dict_get admin "password_hash"))); mred.
    + destruct (getitem admin "user_id"); mred;
        (eexists; split; [reflexivity |]; done).
    + eexists. split; [reflexivity |]. done.
  - eexists. split; [reflexivity |]. done.
Qed.

(** The bootstrap hook is best effort: it never raises, so the view function
    always runs; it marks the process as bootstrapped whatever happened; when
    storage cannot be reached it leaves the tables alone; and once the mark
    is set it does nothing at all. *)
Theorem bootstrap_is_best_effort P w :
  ∃ w', _bootstrap_once P w = (Ok tt, w')
     ∧ bootstrap_done w' = true
     ∧ session w' = session w
     ∧ (bootstrap_done w = true → w' = w)
     ∧ (conn_fails P (conns w) ≠ None → db w' = db w)
     ∧ ∀ view, serve P view w = view w'.
Proof.
  unfold serve, bind, _bootstrap_once.
  destruct (bootstrap_done w) eqn:Hb.
  - exists w. repeat (refine (conj _ _)); try done.
  - destruct (ensure_admin_bootstrap_returns P w) as (w1 & -> & Hs & _ & Hdb).
    exists (set_bootstrap_done true w1). destruct w1. cbn in *.
    repeat (refine (conj _ _)); try done.
Qed.

(** ** A frame logic for handlers *)

Section Frames.
Context {Rdb : relation database} {Rs : relation (option session_user)}.
Context `{!PreOrder Rdb, !PreOrder Rs}.
Variable P : platform.

#[global] Instance frame_preorder : PreOrder (frame Rdb Rs).
Proof.
  split.
  - intros w. split; reflexivity.
  - intros w1 w2 w3 [? ?] [? ?]. split; etransitivity; eassumption.
Qed.

Lemma keeps_ret {A} (a : A) w : keeps (frame Rdb Rs) (ret a) w.
Proof. unfold keeps. cbn. reflexivity. Qed.

Lemma keeps_lift {A} (r : result A) w : keeps (frame Rdb Rs) (lift r) w.
Proof. unfold keeps. cbn. reflexivity. Qed.

Lemma keeps_jsonify d code w : keeps (frame Rdb Rs) (jsonify d code) w.
Proof. unfold keeps. cbn. reflexivity. Qed.

Lemma keeps_json_error code msg w : keeps (frame Rdb Rs) (json_error code msg) w.
Proof. unfold keeps. cbn. reflexivity. Qed.

Lemma keeps_bind {A B} (m : M A) (k : A → M B) w :
  keeps (frame Rdb Rs) m w →
  (∀ a w1, keeps (frame Rdb Rs) (k a) w1) →
  keeps (frame Rdb Rs) (bind m k) w.
Proof.
  unfold keeps, bind. intros Hm Hk.
  destruct (m w) as [[a|e] w1]; cbn [snd] in *; [| done].
  etransitivity; [exact Hm | apply Hk].
Qed.

(** The continuation sees the tables as they are. *)
Lemma keeps_get_db {A} (k : database → M A) w :
  keeps (frame Rdb Rs) (k (db w)) w →
  keeps (frame Rdb Rs) (bind get_db k) w.
Proof. unfold keeps, bind, get_db. done. Qed.

Lemma keeps_put_db d w :
  Rdb (db w) d → keeps (frame Rdb Rs) (put_db d) w.
Proof. unfold keeps, put_db. destruct w. cbn. split; [done | reflexivity]. Qed.

Lemma keeps_set_session s w :
  Rs (session w) s →
  keeps (frame Rdb Rs) (λ w, (Ok tt, set_session s w)) w.
Proof. unfold keeps. destruct w. cbn. split; [reflexivity | done]. Qed.

Lemma keeps_catch {A} (m : M A) (h : exn → M A) w :
  keeps (frame Rdb Rs) m w →
  (∀ e w1, keeps (frame Rdb Rs) (h e) w1) →
  keeps (frame Rdb Rs) (catch m h) w.
Proof.
  unfold keeps, catch. intros Hm Hh.
  destruct (m w) as [[a|e] w1]; cbn [snd] in *; [done |].
  etransitivity; [exact Hm | apply Hh].
Qed.

(** A block that raises is rolled back, which is no change at all. *)
Lemma keeps_with_conn {A} (m : M A) w :
  (∀ w1, db w1 = db w → keeps (frame Rdb Rs) m w1) →
  keeps (frame Rdb Rs) (with_conn P m) w.
Proof.
  unfold keeps, with_conn. intros Hm.
  destruct (conn_fails P (conns w)).
  { destruct w. cbn. split; reflexivity. }
  specialize (Hm (set_conns (S (conns w)) w)).
  assert (db (set_conns (S (conns w)) w) = db w) as Hdb by (by destruct w).
  specialize (Hm Hdb). clear Hdb.
  destruct (m (set_conns (S (conns w)) w)) as [[a|e] w2];
    destruct w, w2; cbn in *; destruct Hm as [? ?]; split; done.
Qed.

Lemma keeps_require_auth fn w :
  (∀ u, session w = Some u → keeps (frame Rdb Rs) (fn u) w) →
  keeps (frame Rdb Rs) (require_auth fn) w.
Proof.
  unfold keeps, require_auth, bind, _current_user. intros Hfn.
  destruct (session w) as [u|] eqn:Hs; [by apply Hfn |]. cbn. reflexivity.
Qed.

Lemma keeps_require_admin fn w :
  (∀ u, session w = Some u → keeps (frame Rdb Rs) (fn u) w) →
  keeps (frame Rdb Rs) (require_admin fn) w.
Proof.
  unfold keeps, require_admin, bind, _current_user. intros Hfn.
  destruct (session w) as [u|] eqn:Hs; [| cbn; reflexivity].
  destruct (negb _); [cbn; reflexivity | by apply Hfn].
Qed.
(** A pure step leaves the world to its continuation. *)
Lemma keeps_bind_lift {A B} (r : result A) (k : A → M B) w :
  (∀ a, r = Ok a → keeps (frame Rdb Rs) (k a) w) →
  keeps (frame Rdb Rs) (bind (lift r) k) w.
Proof.
  unfold keeps, bind, lift. intros Hk. destruct r as [a|e]; [by apply Hk |].
  cbn. reflexivity.
Qed.

Lemma keeps_bind_ret {A B} (a : A) (k : A → M B) w :
  keeps (frame Rdb Rs) (k a) w → keeps (frame Rdb Rs) (bind (ret a) k) w.
Proof. done. Qed.

Lemma keeps_bind_assoc {A B C} (m : M A) (f : A → M B) (g : B → M C) w :
  keeps (frame Rdb Rs) (bind m (λ x, bind (f x) g)) w →
  keeps (frame Rdb Rs) (bind (bind m f) g) w.
Proof. unfold keeps, bind. by destruct (m w) as [[a|e] w1]. Qed.

Lemma keeps_bind_if {A B} (b : bool) (m1 m2 : M A) (k : A → M B) w :
  keeps (frame Rdb Rs) (if b then bind m1 k else bind m2 k) w →
  keeps (frame Rdb Rs) (bind (if b then m1 else m2) k) w.
Proof. by destruct b. Qed.

Lemma keeps_current_user w : keeps (frame Rdb Rs) _current_user w.
Proof. unfold keeps. cbn. reflexivity. Qed.
End Frames.

#[global] Instance any_preorder {A} : PreOrder (λ _ _ : A, True).
Proof. by split. Qed.

(** One step of a walk through a handler: the leaves that write are left
    as goals about the tables. *)
Ltac keeps_step :=
  lazymatch goal with
  | |- keeps _ (λ w, (Ok tt, set_session _ w)) _ => apply keeps_set_session
  | |- keeps _ (require_auth _) _ => apply keeps_require_auth; intros ? ?
  | |- keeps _ (require_admin _) _ => apply keeps_require_admin; intros ? ?
  | |- keeps _ _current_user _ => apply keeps_current_user
  | |- keeps _ (bind get_db _) _ => apply keeps_get_db; cbn beta zeta
  | |- keeps _ (bind (ret _) _) _ => apply keeps_bind_ret; cbn beta
  | |- keeps _ (bind (bind _ _) _) _ => apply keeps_bind_assoc; cbn beta
  | |- keeps _ (bind (if _ then _ else _) _) _ => apply keeps_bind_if
  | |- keeps _ (bind (lift _) _) _ => apply keeps_bind_lift; intros ? ?
  | |- keeps _ (bind _ _) _ => apply keeps_bind; [| intros ? ?]
  | |- keeps _ (catch _ _) _ => apply keeps_catch; [| intros ? ?]
  | |- keeps _ (with_conn _ _) _ => apply keeps_with_conn; intros ? ?
  | |- keeps _ (ret _) _ => apply keeps_ret
  | |- keeps _ (lift _) _ => apply keeps_lift
  | |- keeps _ (jsonify _ _) _ => apply keeps_jsonify
  | |- keeps _ (json_error _ _) _ => apply keeps_json_error
  | |- keeps _ (on_exception _) _ => apply keeps_json_error
  | |- keeps _ (put_db _) _ => apply keeps_put_db
  | |- keeps _ (match ?x with _ => _ end) _ => destruct x eqn:?
  | |- keeps _ (let _ := _ in _) _ => cbn zeta
  | |- keeps _ (select_profile _) _ => unfold select_profile
  | |- keeps _ (select_food _ _) _ => unfold select_food
  | |- keeps _ (select_food _) _ => unfold select_food
  | |- keeps _ (select_entry _) _ => unfold select_entry
  | |- keeps _ (select_entry_with_food _) _ => unfold select_entry_with_food
  | |- keeps _ (confirmation_required _ _ _ _ _ _ _) _ => unfold confirmation_required
  | |- keeps _ (update_users _ _) _ => unfold update_users
  | |- keeps _ (insert_user _) _ => unfold insert_user
  | |- keeps _ (insert_consumption _) _ => unfold insert_consumption
  | |- keeps _ (_audit_profile_change _ _ _ _ _) _ => unfold _audit_profile_change
  end.

Ltac keeps_walk := repeat keeps_step.


(** ** What the bootstrap leaves behind *)

Lemma first_by_user_id_elem rows r :
  first_by_user_id rows = Some r → r ∈ rows.
Proof.
  unfold first_by_user_id.
  assert (∀ best, foldl (λ best r,
           match best with
           | None => Some r
           | Some b =>
               if num_lt (dict_get r "user_id") (dict_get b "user_id")
               then Some r else Some b
           end) best rows = Some r →
          best = Some r ∨ r ∈ rows) as Hgen.
  { induction rows as [|x rows IH]; intros best; cbn [foldl]; [by left |].
    intros H. apply IH in H as [H|H]; [| right; by apply elem_of_cons; right].
    destruct best as [b|].
    - destruct (num_lt _ _); apply (inj Some) in H; subst;
        [right; apply elem_of_cons; by left | by left].
    - apply (inj Some) in H. subst. right. apply elem_of_cons; by left. }
  intros H. by destruct (Hgen None H).
Qed.

Lemma elem_of_update_where (tbl : list pydict) p a r' :
  r' ∈ update_where tbl p a →
  ∃ r, r ∈ tbl ∧ r' = (if p r then set_cols a r else r).
Proof.
  unfold update_where. intros H. apply list_elem_of_fmap in H as (r & -> & Hr). eauto.
Qed.

Lemma update_where_elem (tbl : list pydict) (p : pydict → bool) a r :
  r ∈ tbl → (if p r then set_cols a r else r) ∈ update_where tbl p a.
Proof.
  intros H. unfold update_where. apply list_elem_of_fmap. eauto.
Qed.

Lemma update_where_Forall2 (Q : relation pydict) (tbl : list pydict) (p : pydict → bool) a :
  (∀ i r, tbl !! i = Some r → Q r (if p r then set_cols a r else r)) →
  Forall2 Q tbl (update_where tbl p a).
Proof.
  intros H. unfold update_where. apply Forall2_fmap_r, Forall2_same_length_lookup_2; [done |].
  intros i x y Hx Hy. rewrite Hx in Hy. apply (inj Some) in Hy. subst y. by eapply H.
Qed.

Lemma update_where_app tbl1 tbl2 p a :
  update_where (tbl1 ++ tbl2) p a = update_where tbl1 p a ++ update_where tbl2 p a.
Proof. unfold update_where. apply fmap_app. Qed.

Lemma update_where_length tbl p a : length (update_where tbl p a) = length tbl.
Proof. unfold update_where. apply length_fmap. Qed.

Lemma set_password_lookup h r k :
  k ≠ "password_hash" → set_cols [("password_hash", h)] r !! k = r !! k.
Proof. intros Hk. cbn. by apply lookup_insert_ne. Qed.

Lemma set_password_hash h r :
  dict_get (set_cols [("password_hash", h)] r) "password_hash" = h.
Proof. unfold dict_get. cbn. by rewrite lookup_insert_eq. Qed.

#[global] Instance password_kept_preorder : PreOrder password_kept.
Proof.
  split.
  - intros r. by split.
  - intros r1 r2 r3 [H12 K12] [H23 K23]. split.
    + intros k Hk. by rewrite H23, H12.
    + intros Ht. rewrite K23; rewrite K12; done.
Qed.

Lemma role_after_password_kept r r' :
  password_kept r r' → dict_get r' "role" = dict_get r "role".
Proof. intros [H _]. unfold dict_get. by rewrite H. Qed.

(** The demo-password update. *)
Lemma demo_update_kept h tbl :
  Forall2 password_kept tbl (update_where tbl lacks_password [("password_hash", h)]).
Proof.
  apply update_where_Forall2. intros i r _.
  destruct (lacks_password r) eqn:Hl; [| reflexivity].
  split; [intros k Hk; by apply set_password_lookup |].
  intros Ht. unfold lacks_password in Hl.
  destruct (dict_get r "password_hash"); done.
Qed.

Lemma demo_update_complete h tbl r' :
  r' ∈ update_where tbl lacks_password [("password_hash", PStr h)] →
  lacks_password r' = false.
Proof.
  intros H. apply elem_of_update_where in H as (r & _ & ->).
  destruct (lacks_password r) eqn:Hl; [| done].
  unfold lacks_password. by rewrite set_password_hash.
Qed.

Lemma Forall2_elem_of_l {A B} (Q : A → B → Prop) l k x :
  Forall2 Q l k → x ∈ l → ∃ y, y ∈ k ∧ Q x y.
Proof.
  intros HF Hx. apply list_elem_of_lookup in Hx as [i Hi].
  destruct (Forall2_lookup_l _ _ _ _ _ HF Hi) as (y & Hy & HQ).
  exists y. split; [by eapply list_elem_of_lookup_2 | done].
Qed.

(** A request that finds storage reachable and the mark unset leaves an
    admin account behind and no account without a password; every account
    that was there keeps all its columns but the password hash, and an
    account that had a password keeps that too. *)
Theorem bootstrap_sets_passwords P w :
  bootstrap_done w = false →
  conn_fails P (conns w) = None →
  Forall (λ r, is_Some (r !! "user_id")) (users (db w)) →
  unique_user_ids (users (db w)) →
  let w' := (_bootstrap_once P w).2 in
  (∃ r, r ∈ users (db w') ∧ py_eq_str (dict_get r "role") "admin" = true)
  ∧ (∀ r, r ∈ users (db w') → lacks_password r = false)
  ∧ Forall2 password_kept (users (db w))
      (take (length (users (db w))) (users (db w'))).
Proof.
  intros Hb Hc Hids Huniq.
  destruct w as [d s n b]. cbn [bootstrap_done conns db] in *. subst b.
  unfold _bootstrap_once, ensure_admin_bootstrap. mred. rewrite Hc. mred.
  set (demo := generate_password_hash P (default "password" (getenv P "DEMO_USER_PASSWORD"))).
  set (adm := generate_password_hash P (default "admin123" (getenv P "ADMIN_BOOTSTRAP_PASSWORD"))).
  destruct (first_by_user_id _) as [admin|] eqn:Hadmin; mred.
  - apply first_by_user_id_elem in Hadmin.
    apply list_elem_of_In, filter_In in Hadmin as [Hin Hrole].
    apply list_elem_of_In in Hin.
    assert (is_Some (admin !! "user_id")) as [uid Huid].
    { rewrite Forall_forall in Hids. by apply Hids. }
    destruct (negb (py_truthy (dict_get admin "password_hash"))) eqn:Hfalsy; mred.
    + unfold getitem. rewrite Huid. mred. cbn [snd users db set_users].
      assert (Forall2 password_kept (users d)
                (update_where (users d) (λ r, sql_eq (dict_get r "user_id") uid)
                   [("password_hash", PStr adm)])) as H1.
      { apply update_where_Forall2. intros i r Hi.
        destruct (sql_eq (dict_get r "user_id") uid) eqn:Hid; [| reflexivity].
        split; [intros k Hk; by apply set_password_lookup |].
        intros Ht. exfalso.
        apply list_elem_of_lookup in Hin as [j Hj].
        assert (i = j) as ->.
        { apply (Huniq i j r admin Hi Hj). unfold dict_get at 2. by rewrite Huid. }
        rewrite Hi in Hj. apply (inj Some) in Hj. subst r.
        by rewrite Ht in Hfalsy. }
      split; [| split].
      * destruct (Forall2_elem_of_l _ _ _ _ H1 Hin) as (a1 & Ha1 & Hk1).
        destruct (Forall2_elem_of_l _ _ _ _ (demo_update_kept (PStr demo) _) Ha1)
          as (a2 & Ha2 & Hk2).
        exists a2. split; [exact Ha2 |].
        by rewrite (role_after_password_kept _ _ Hk2), (role_after_password_kept _ _ Hk1).
      * intros r. apply demo_update_complete.
      * rewrite firstn_all2 by (by rewrite !update_where_length).
        etransitivity; [exact H1 | apply demo_update_kept].
    + cbn [snd users db set_users].
      split; [| split].
      * pose proof (demo_update_kept (PStr demo) (users d)) as H2.
        destruct (Forall2_elem_of_l _ _ _ _ H2 Hin) as (a2 & Ha2 & Hk2).
        exists a2. split; [exact Ha2 |].
        by rewrite (role_after_password_kept _ _ Hk2).
      * intros r. apply demo_update_complete.
      * rewrite firstn_all2 by (by rewrite !update_where_length).
        apply demo_update_kept.
  - cbn [snd users db set_users].
    match goal with |- context [users d ++ [?r]] => set (new := r) end.
    split; [| split].
    + pose proof (demo_update_kept (PStr demo) (users d ++ [new])) as H2.
      assert (new ∈ users d ++ [new]) as Hin by (apply elem_of_app; right; by apply list_elem_of_singleton).
      destruct (Forall2_elem_of_l _ _ _ _ H2 Hin) as (a2 & Ha2 & Hk2).
      exists a2. split; [exact Ha2 |].
      rewrite (role_after_password_kept _ _ Hk2). subst new. by vm_compute.
    + intros r. apply demo_update_complete.
    + rewrite update_where_app, take_app_length' by (by rewrite update_where_length).
      apply demo_update_kept.
Qed.

Lemma bootstrap_sets_passwords_witness :
  let w := World demo_db None 0 false in
  let w' := (_bootstrap_once demo_platform w).2 in
  (∃ r, r ∈ users (db w') ∧ py_eq_str (dict_get r "role") "admin" = true)
  ∧ (∀ r, r ∈ users (db w') → lacks_password r = false)
  ∧ Forall2 password_kept (users (db w))
      (take (length (users (db w))) (users (db w'))).
Proof.
  apply (bootstrap_sets_passwords demo_platform (World demo_db None 0 false)).
  - reflexivity.
  - reflexivity.
  - repeat constructor; by eexists.
  - intros i j r r' Hi Hj.
    destruct i as [|[|i]], j as [|[|j]]; try done;
      cbn in Hi, Hj; apply (inj Some) in Hi; apply (inj Some) in Hj; subst r r';
      by vm_compute.
Defined.

(** ** What each endpoint may write *)

Lemma row_changed_only_trans key id cols r1 r2 r3 :
  row_changed_only key id cols r1 r2 → row_changed_only key id cols r2 r3 →
  row_changed_only key id cols r1 r3.
Proof.
  intros [->|[Hid H12]] H; [exact H |].
  destruct H as [->|[_ H23]]; [by right |].
  right. split; [done |]. intros k Hk. by rewrite H23, H12.
Qed.

#[global] Instance row_changed_only_preorder key id cols :
  PreOrder (row_changed_only key id cols).
Proof.
  split; [intros r; by left | intros r1 r2 r3; apply row_changed_only_trans].
Qed.

Lemma update_where_changed_only key id cols asg (tbl : list pydict) :
  asg.*1 ⊆ cols →
  Forall2 (row_changed_only key id cols) tbl
    (update_where tbl (λ r, sql_eq (dict_get r key) id) asg).
Proof.
  intros Hsub. apply update_where_Forall2. intros i r _.
  destruct (sql_eq (dict_get r key) id) eqn:Hid; [| by left].
  right. split; [done |]. intros k Hk. apply set_cols_lookup_notin.
  intros Hin. by apply Hk, Hsub.
Qed.

Lemma update_assignments_written (data data' : pydict) :
  data' = data
  ∨ dict_has data "portion_size" = true
    ∧ (∀ k, k ∉ snapshot_fields → data' !! k = data !! k) →
  (update_assignments data').*1 ⊆ written_fields data.
Proof.
  intros Hd k Hk. apply list_elem_of_fmap in Hk as ([k' v] & -> & Hin).
  apply (elem_of_keyed_omap data') in Hin as [Hin Hv]. cbn [fst].
  unfold written_fields. apply list_elem_of_In, filter_In.
  split; [by apply list_elem_of_In |].
  destruct Hd as [->|[Hp Hd]].
  - unfold dict_has at 1. by rewrite Hv.
  - rewrite Hp. cbn [andb]. destruct (decide (k' ∈ snapshot_fields)) as [Hs|Hs].
    + rewrite (bool_decide_eq_true_2 _ Hs). apply orb_true_r.
    + unfold dict_has at 1. by rewrite <- Hd, Hv.
Qed.

Lemma written_fields_updatable data : written_fields data ⊆ entry_fields.
Proof.
  intros k Hk. unfold written_fields in Hk.
  apply list_elem_of_In, filter_In in Hk as [Hk _]. by apply list_elem_of_In.
Qed.

#[global] Instance users_writes_preorder cols uid : PreOrder (users_writes cols uid).
Proof.
  split.
  - intros d. repeat split. reflexivity.
  - intros d1 d2 d3 (Hf1 & Hc1 & Hu1) (Hf2 & Hc2 & Hu2).
    split; [congruence |]. split; [congruence |].
    etransitivity; eassumption.
Qed.

#[global] Instance users_grow_preorder : PreOrder users_grow.
Proof.
  split.
  - intros d. by repeat split.
  - intros d1 d2 d3 (? & ? & ? & ?) (? & ? & ? & ?).
    repeat split; try congruence. etransitivity; eassumption.
Qed.

#[global] Instance audit_grows_preorder : PreOrder audit_grows.
Proof.
  split.
  - intros d. unfold audit_grows. reflexivity.
  - intros d1 d2 d3. unfold audit_grows. intros. etransitivity; eassumption.
Qed.

#[global] Instance consumption_writes_preorder Rc `{!PreOrder Rc} :
  PreOrder (consumption_writes Rc).
Proof.
  split.
  - intros d. by repeat split.
  - intros d1 d2 d3 (? & ? & ? & ? & ?) (? & ? & ? & ? & ?).
    repeat split; try congruence. etransitivity; eassumption.
Qed.

Lemma filter_idem {A} (p : A → bool) (l : list A) :
  List.filter p (List.filter p l) = List.filter p l.
Proof.
  induction l as [|x l IH]; [done |]. cbn [List.filter].
  destruct (p x) eqn:Hp; [| done]. cbn [List.filter]. by rewrite Hp, IH.
Qed.

#[global] Instance entry_removed_preorder entry_id : PreOrder (entry_removed entry_id).
Proof.
  split.
  - intros l. by left.
  - intros l1 l2 l3 H12 H23. unfold entry_removed in *.
    destruct H12 as [H12|H12], H23 as [H23|H23]; subst; [by left | by right | by right |].
    right. apply filter_idem.
Qed.

Ltac finish_db :=
  first [ reflexivity
        | match goal with |- context [db ?w] => destruct (db w) end; reflexivity ].

(** No protected endpoint changes the session, and none removes or rewrites
    a record of the audit log. *)
Theorem endpoints_keep_session_and_audit_log P ep w :
  session (run P ep w).2 = session w
  ∧ user_profile_changes (db w) `prefix_of` user_profile_changes (db (run P ep w).2).
Proof.
  cut (keeps (frame audit_grows eq) (run P ep) w).
  { intros [H1 H2]. split; [by symmetry | exact H1]. }
  destruct ep; cbn [run];
    [ unfold get_profile | unfold preview_profile_target | unfold update_profile
    | unfold complete_profile | unfold create_user | unfold update_user
    | unfold create_consumption | unfold update_consumption | unfold get_consumption ].
  all: keeps_walk.
  all: unfold audit_grows; cbn [user_profile_changes set_users set_consumption];
    first [ reflexivity | by apply prefix_app_r | finish_db ].
Qed.

(** The endpoints that only read leave the tables and the session as they
    are, whatever they answer. *)
Theorem read_only_endpoints_write_nothing P ep w :
  read_only ep = true →
  db (run P ep w).2 = db w ∧ session (run P ep w).2 = session w.
Proof.
  intros Hro.
  cut (keeps (frame eq eq) (run P ep) w).
  { intros [H1 H2]. by split. }
  destruct ep; try discriminate Hro; cbn [run];
    [ unfold get_profile | unfold preview_profile_target | unfold get_consumption ].
  all: keeps_walk.
Qed.

Lemma read_only_endpoints_write_nothing_witness :
  db (run demo_platform (GetConsumption 1) (demo_world (Some demo_alice))).2
  = db (demo_world (Some demo_alice))
  ∧ session (run demo_platform (GetConsumption 1) (demo_world (Some demo_alice))).2
    = session (demo_world (Some demo_alice)).
Proof.
  exact (read_only_endpoints_write_nothing demo_platform (GetConsumption 1)
           (demo_world (Some demo_alice)) eq_refl).
Defined.

Lemma account_of_changed_only uid cols (l l' : list pydict) :
  (∀ k, k ∈ ["user_id"; "username"; "role"; "password_hash"] → k ∉ cols) →
  Forall2 (row_changed_only "user_id" uid cols) l l' →
  account_of <$> l' = account_of <$> l.
Proof.
  intros Hcols HF. induction HF as [|r r' l l' Hr _ IH]; [done |].
  rewrite !fmap_cons, IH. f_equal.
  destruct Hr as [->|[_ Hr]]; [done |].
  unfold account_of. rewrite !Hr; [done | | | |]; apply Hcols; set_solver.
Qed.

(** Through the two endpoints for the own profile a user changes nothing
    but the six profile columns of rows with the session's user id: the
    food and consumption tables stay, no row appears or disappears, and
    user id, username, role and password hash of every account stay. *)
Theorem own_profile_endpoints_write_own_profile P data w u ep :
  session w = Some u →
  ep = UpdateProfile data ∨ ep = CompleteProfile data →
  users_writes profile_fields (su_user_id u) (db w) (db (run P ep w).2)
  ∧ account_of <$> users (db (run P ep w).2) = account_of <$> users (db w).
Proof.
  intros Hs Hep.
  assert (keeps (frame (users_writes profile_fields (su_user_id u)) eq) (run P ep) w)
    as [Hk _].
  { destruct Hep as [-> | ->]; cbn [run];
      [unfold update_profile | unfold complete_profile];
      apply keeps_require_auth; intros u' Hu'; rewrite Hs in Hu'; injection Hu' as <-.
    all: keeps_walk.
    all: try reflexivity.
    all: split; [by cbn |]; split; [by cbn |]; cbn [users set_users];
      first [ apply update_where_changed_only;
              apply (bool_decide_unpack _); by vm_compute
            | finish_db ]. }
  split; [exact Hk |].
  destruct Hk as (_ & _ & Hk). eapply account_of_changed_only; [| exact Hk].
  intros k Hk'. apply (bool_decide_unpack _).
  repeat (apply elem_of_cons in Hk' as [->|Hk']; [by vm_compute |]).
  by apply elem_of_nil in Hk'.
Qed.

Lemma own_profile_endpoints_write_own_profile_witness :
  users_writes profile_fields (su_user_id demo_alice) (db (demo_world (Some demo_alice)))
    (db (run demo_platform
           (UpdateProfile {[ "role" := PStr "admin"; "height_value" := PInt 180 ]})
           (demo_world (Some demo_alice))).2)
  ∧ account_of <$> users (db (run demo_platform
           (UpdateProfile {[ "role" := PStr "admin"; "height_value" := PInt 180 ]})
           (demo_world (Some demo_alice))).2)
    = account_of <$> users (db (demo_world (Some demo_alice))).
Proof.
  apply (own_profile_endpoints_write_own_profile demo_platform
           {[ "role" := PStr "admin"; "height_value" := PInt 180 ]}
           (demo_world (Some demo_alice)) demo_alice).
  - reflexivity.
  - by left.
Defined.

(** The two admin endpoints on accounts: a create only appends to the users
    table and leaves the audit log alone; an update changes at most the role
    and the six profile columns of the rows with the addressed id, so it can
    never rename an account or touch a password. *)
Theorem admin_user_endpoints_writes P w :
  (∀ data, users_grow (db w) (db (create_user P data w).2))
  ∧ (∀ user_id data,
       users_writes ("role" :: profile_fields) (PInt user_id)
         (db w) (db (update_user P user_id data w).2)).
Proof.
  split.
  - intros data.
    assert (keeps (frame users_grow eq) (create_user P data) w) as [Hk _]; [| exact Hk].
    unfold create_user. keeps_walk.
    repeat (split; [by cbn |]). cbn [users]. by apply prefix_app_r.
  - intros user_id data.
    assert (keeps (frame (users_writes ("role" :: profile_fields) (PInt user_id)) eq)
              (update_user P user_id data) w) as [Hk _]; [| exact Hk].
    unfold update_user. keeps_walk.
    all: try reflexivity.
    all: split; [by cbn |]; split; [by cbn |]; cbn [users set_users];
      first [ apply update_where_changed_only;
              apply (bool_decide_unpack _); by vm_compute
            | finish_db ].
Qed.

(** The three writing endpoints on entries leave the users, the food items
    and the audit log alone. A create only appends to the entries; an update
    changes, in the rows with the addressed id, at most the updatable
    columns its payload names, together with the snapshot columns when the
    payload names a portion size, so never an owner, a food reference or an
    id, and a PUT of a date alone leaves the snapshot as it is; a delete
    removes the rows with the addressed id or nothing. *)
Theorem consumption_endpoints_writes P w :
  (∀ data, consumption_writes prefix (db w) (db (create_consumption P data w).2))
  ∧ (∀ entry_id data,
       consumption_writes
         (Forall2 (row_changed_only "entry_id" (PInt entry_id) (written_fields data)))
         (db w) (db (update_consumption P entry_id data w).2)
       ∧ written_fields data ⊆ entry_fields)
  ∧ (∀ entry_id,
       consumption_writes (entry_removed entry_id)
         (db w) (db (delete_consumption P entry_id w).2)).
Proof.
  split; [| split].
  - intros data.
    assert (keeps (frame (consumption_writes prefix) eq) (create_consumption P data) w)
      as [Hk _]; [| exact Hk].
    unfold create_consumption. keeps_walk.
    all: repeat (split; [by cbn |]); cbn [consumption]; by apply prefix_app_r.
  - intros entry_id data. split; [| apply written_fields_updatable].
    assert (keeps (frame (consumption_writes
                            (Forall2 (row_changed_only "entry_id" (PInt entry_id)
                                        (written_fields data)))) eq)
              (update_consumption P entry_id data) w) as [Hk _]; [| exact Hk].
    unfold update_consumption. keeps_walk.
    all: repeat (split; [by cbn |]); cbn [consumption set_consumption].
    all: apply update_where_changed_only.
    all: match goal with H : update_assignments _ = _ |- _ => rewrite <- H end.
    all: apply update_assignments_written.
    all: first [ by left | right; split; [done |] ].
    all: intros k Hk;
      repeat (rewrite lookup_insert_ne;
              [| intros Heq; subst k; apply Hk; apply (bool_decide_unpack _); by vm_compute]);
      reflexivity.
  - intros entry_id.
    assert (keeps (frame (consumption_writes (entry_removed entry_id)) eq)
              (delete_consumption P entry_id) w) as [Hk _]; [| exact Hk].
    unfold delete_consumption. keeps_walk.
    all: repeat (split; [by cbn |]); cbn [consumption set_consumption]; by (unfold entry_removed; right).
Qed.

(** ** Login *)

Lemma getitem_project cols r k :
  k ∈ cols → getitem (project cols r) k = Ok (dict_get r k).
Proof.
  intros Hk. pose proof (dict_get_project cols r k Hk) as H.
  unfold getitem. unfold dict_get at 1 in H.
  destruct (project cols r !! k) as [v|] eqn:Hv; cbn in H; [by subst |].
  exfalso. unfold project in Hv. apply not_elem_of_list_to_map_2 in Hv. apply Hv.
  rewrite <- list_fmap_compose.
  replace (fst ∘ (λ k0, (k0, dict_get r k0))) with (@id string) by done.
  by rewrite list_fmap_id.
Qed.

(** A 200 from the login endpoint means that the row found for the stripped
    username carries a hash that the submitted password verifies against;
    the session opened and the body returned are that row's identity, and
    the tables are as before. *)
Theorem login_grants_verified_only P data w resp w' :
  login P data w = (Ok resp, w') →
  status resp = 200%nat →
  ∃ name p h row,
    get_or_empty data "username" = PStr name
    ∧ get_or_empty data "password" = PStr p
    ∧ select_where (users (db w))
        (λ r, sql_eq (dict_get r "username") (PStr (strip name))) = Some row
    ∧ dict_get row "password_hash" = PStr h
    ∧ check_password_hash P h p = true
    ∧ session w' = Some (identity_of row)
    ∧ body resp = Some (session_body (identity_of row))
    ∧ db w' = db w.
Proof.
  intros H Hst. destruct w as [d s n b]. unfold login in H.
  destruct (get_or_empty data "username") as [| | | |name] eqn:Hname; mred_in H;
    try (exact (False_ind _ (raised_inv _ _ _ _ H))).
  destruct (String.eqb (strip name) "" || negb (py_truthy (get_or_empty data "password")));
    mred_in H; [mwrong H Hst |].
  destruct (conn_fails P n); mred_in H; [mwrong H Hst |].
  destruct (select_where (users d) _) as [row|] eqn:Hrow;
    cbn [fmap option_fmap option_map] in H; mred_in H; [| mwrong H Hst].
  rewrite !getitem_project in H by set_solver.
  rewrite dict_get_project in H by set_solver. mred_in H.
  destruct (negb (py_truthy (dict_get row "password_hash"))); mred_in H; [mwrong H Hst |].
  destruct (dict_get row "password_hash") as [| | | |h] eqn:Hh; mred_in H;
    try (mwrong H Hst).
  destruct (get_or_empty data "password") as [| | | |p] eqn:Hp; mred_in H;
    try (mwrong H Hst).
  destruct (check_password_hash P h p) eqn:Hok; mred_in H; [| mwrong H Hst].
  apply returned_inv in H as [<- <-].
  exists name, p, h, row. cbn [session db body]. by repeat (refine (conj _ _)).
Qed.

Lemma login_grants_verified_only_witness :
  ∃ name p h row,
    get_or_empty {[ "username" := PStr " alice "; "password" := PStr "wonderland" ]}
      "username" = PStr name
    ∧ get_or_empty {[ "username" := PStr " alice "; "password" := PStr "wonderland" ]}
        "password" = PStr p
    ∧ select_where (users (db (demo_world None)))
        (λ r, sql_eq (dict_get r "username") (PStr (strip name))) = Some row
    ∧ dict_get row "password_hash" = PStr h
    ∧ check_password_hash demo_platform h p = true
    ∧ session (World demo_db (Some demo_alice) 1 true) = Some (identity_of row)
    ∧ body (Response (Some (session_body demo_alice)) 200)
      = Some (session_body (identity_of row))
    ∧ db (World demo_db (Some demo_alice) 1 true) = db (demo_world None).
Proof.
  apply (login_grants_verified_only demo_platform
           {[ "username" := PStr " alice "; "password" := PStr "wonderland" ]}
           (demo_world None)
           (Response (Some (session_body demo_alice)) 200)
           (World demo_db (Some demo_alice) 1 true)).
  - vm_refl.
  - reflexivity.
Defined.



(** Whatever a login attempt ends in, it has not written to any table; and
    unless it is answered 200, the session is the one from before. *)
Theorem login_writes_nothing P data w :
  db (login P data w).2 = db w
  ∧ ((∀ r, (login P data w).1 = Ok r → status r ≠ 200%nat) →
     session (login P data w).2 = session w).
Proof.
  destruct w as [d s n b]. unfold login.
  destruct (get_or_empty data "username") as [| | | |name]; mred; try done.
  destruct (String.eqb (strip name) "" || negb (py_truthy (get_or_empty data "password")));
    mred; [done |].
  destruct (conn_fails P n); mred; [done |].
  destruct (select_where (users d) _) as [row|];
    cbn [fmap option_fmap option_map]; mred; [| done].
  rewrite !getitem_project by set_solver.
  rewrite dict_get_project by set_solver. mred.
  destruct (negb (py_truthy (dict_get row "password_hash"))); mred; [done |].
  destruct (dict_get row "password_hash") as [| | | |h]; mred; try done.
  destruct (get_or_empty data "password") as [| | | |p]; mred; try done.
  destruct (check_password_hash P h p); mred; [| done].
  cbn. split; [done |]. intros H. by specialize (H _ eq_refl).
Qed.

(** ** The stored target *)

#[global] Instance new_rows_preorder Q : PreOrder (new_rows Q).
Proof.
  split.
  - intros d r Hr. by left.
  - intros d1 d2 d3 H12 H23 r Hr.
    destruct (H23 r Hr) as [Hr2|HQ]; [by apply H12 | by right].
Qed.

(** The defaults of [.get(k, default)] are the units and the goal that a
    missing or NULL value stands for. *)
Lemma calculate_target_calories_defaults P (r : pydict) hv wv :
  calculate_target_calories P hv (dict_get_default r "height_unit" (PStr "cm"))
    wv (dict_get_default r "weight_unit" (PStr "kg"))
    (dict_get_default r "dietary_goal" (PStr "maintain"))
  = calculate_target_calories P hv (dict_get r "height_unit")
      wv (dict_get r "weight_unit") (dict_get r "dietary_goal").
Proof.
  unfold dict_get_default, dict_get.
  destruct (r !! "height_unit"), (r !! "weight_unit"), (r !! "dietary_goal"); reflexivity.
Qed.

Lemma getitem_dict_get (d : pydict) k v : getitem d k = Ok v → dict_get d k = v.
Proof.
  unfold getitem, dict_get. destruct (d !! k); [| discriminate].
  intros H. by injection H.
Qed.

Lemma new_rows_update_where P (tbl : list pydict) p asg d :
  users d = tbl →
  (∀ r, target_consistent P (set_cols asg r)) →
  new_rows (target_consistent P) d (set_users (update_where tbl p asg) d).
Proof.
  intros <- Hasg r Hr. destruct d. unfold set_users in Hr. cbn in Hr |- *.
  apply elem_of_update_where in Hr as (r0 & Hr0 & ->).
  destruct (p r0); [right; apply Hasg | by left].
Qed.

Lemma dict_get_insert_eq (d : pydict) k v : dict_get (<[k := v]> d) k = v.
Proof. unfold dict_get. by rewrite lookup_insert_eq. Qed.

Lemma dict_get_insert_ne (d : pydict) k k' v :
  k' ≠ k → dict_get (<[k' := v]> d) k = dict_get d k.
Proof. intros H. unfold dict_get. by rewrite lookup_insert_ne. Qed.

Ltac dict_get_inserts :=
  cbn [set_cols foldl fst snd];
  repeat first [ rewrite dict_get_insert_eq
               | rewrite dict_get_insert_ne by (intro; discriminate) ].

(** Whenever an own-profile update, a profile completion or an admin create
    writes a users row, the target it stores is the one the calculator gives
    for the height, weight, units and goal stored in that same row: every
    row afterwards was there before or carries its own computed target. *)
Theorem profile_writes_store_computed_target P ep w :
  stores_target ep = true →
  ∀ r, r ∈ users (db (run P ep w).2) →
    r ∈ users (db w) ∨ target_consistent P r.
Proof.
  intros Hep.
  assert (keeps (frame (new_rows (target_consistent P)) eq) (run P ep) w) as [Hk _];
    [| exact Hk].
  destruct ep; try discriminate Hep; cbn [run];
    [unfold update_profile | unfold complete_profile | unfold create_user].
  all: keeps_walk.
  all: try (intros r Hr; left; exact Hr).
  - (* update_profile *)
    apply new_rows_update_where; [done |]. intros r.
    match goal with
    | Ht : calculate_target_calories _ _ _ _ _ _ = Ok ?t |- _ =>
        exists t; rewrite calculate_target_calories_defaults in Ht
    end.
    repeat match goal with
           | Hg : getitem _ _ = Ok _ |- _ => apply getitem_dict_get in Hg; subst
           end.
    dict_get_inserts. by split.
  - (* complete_profile *)
    apply new_rows_update_where; [done |]. intros r.
    match goal with
    | Ht : calculate_target_calories _ _ _ _ _ _ = Ok ?t |- _ => exists t
    end.
    dict_get_inserts. by split.
  - (* create_user *)
    intros r Hr. cbn in Hr. apply elem_of_app in Hr as [Hr|Hr]; [by left |].
    apply list_elem_of_singleton in Hr as ->. right.
    match goal with
    | Ht : calculate_target_calories _ _ _ _ _ _ = Ok ?t |- _ => exists t
    end.
    repeat match goal with
           | Hg : getitem _ _ = Ok _ |- _ => apply getitem_dict_get in Hg; subst
           end.
    dict_get_inserts. by split.
Qed.

Lemma profile_writes_store_computed_target_witness :
  Forall (λ r, r ∈ users (db (demo_world (Some demo_alice)))
               ∨ target_consistent demo_platform r)
    (users (db (run demo_platform
                  (CompleteProfile
                     {[ "height_value" := PInt 170; "height_unit" := PStr "cm";
                        "weight_value" := PInt 70; "weight_unit" := PStr "kg";
                        "dietary_goal" := PStr "maintain" ]})
                  (demo_world (Some demo_alice))).2)).
Proof.
  apply Forall_forall.
  exact (profile_writes_store_computed_target demo_platform
           (CompleteProfile
              {[ "height_value" := PInt 170; "height_unit" := PStr "cm";
                 "weight_value" := PInt 70; "weight_unit" := PStr "kg";
                 "dietary_goal" := PStr "maintain" ]})
           (demo_world (Some demo_alice)) eq_refl).
Defined.

(** ** Entries of other users *)

Ltac refused :=
  cbn [fst snd db];
  split; [reflexivity |];
  let r := fresh "r" in let Hr := fresh "Hr" in
  intros r Hr; apply (inj Ok) in Hr; subst r; cbn [status]; discriminate.

#[global] Instance Ok_inj {A} : Inj (=) (=) (@Ok A).
Proof. by intros a b [= ->]. Qed.

Lemma delete_reply_plain_ne (r : response) (row : option pydict) :
  Plain r ≠ Deleted row.
Proof. discriminate. Qed.

(** The decision on the owner, for a caller who may not access the entry. *)
Lemma not_permitted_foreign P u entry :
  ¬ may_access P u entry →
  py_eq_str (su_role u) "admin" = false
  ∧ (not_permitted P u entry = Ok true ∨ ∃ e, not_permitted P u entry = Raise e).
Proof.
  intros Hno. unfold may_access in Hno.
  destruct (py_eq_str (su_role u) "admin") eqn:Hrole; [exfalso; apply Hno; by left |].
  split; [done |]. unfold not_permitted. rewrite Hrole. cbn [negb].
  destruct (getitem entry "user_id") as [ov|e] eqn:Hov; cbn [rbind]; [| right; by eexists].
  destruct (py_int P ov) as [owner|e] eqn:Howner; cbn [rbind]; [| right; by eexists].
  destruct (py_int P (su_user_id u)) as [me|e] eqn:Hme; cbn [rbind]; [| right; by eexists].
  left. destruct (Z.eqb_spec owner me) as [->|_]; [| done].
  exfalso. apply Hno. right. exists me. by split.
Qed.

Lemma not_permitted_project P u entry :
  not_permitted P u (project ["user_id"] entry) = not_permitted P u entry
  ∨ (entry !! "user_id" = None).
Proof.
  destruct (entry !! "user_id") as [v|] eqn:Hv; [left | by right].
  unfold not_permitted. rewrite getitem_project by set_solver.
  by rewrite (lookup_getitem _ _ _ Hv), (lookup_dict_get _ _ _ Hv).
Qed.

(** A caller who is neither an admin nor the owner of a stored entry can
    neither read nor change it: the GET, the PUT and the DELETE on it leave
    every table as it is, whatever else happens, and none of them answers
    with success. *)
Theorem foreign_entry_protected P entry_id w u entry :
  session w = Some u →
  stored_entry (db w) entry_id = Some entry →
  ¬ may_access P u entry →
  (∀ data,
     db (update_consumption P entry_id data w).2 = db w
     ∧ ∀ r, (update_consumption P entry_id data w).1 = Ok r → status r ≠ 200%nat)
  ∧ (db (get_consumption P entry_id w).2 = db w
     ∧ ∀ r, (get_consumption P entry_id w).1 = Ok r → status r ≠ 200%nat)
  ∧ (db (delete_consumption P entry_id w).2 = db w
     ∧ ∀ row, (delete_consumption P entry_id w).1 ≠ Ok (Deleted row)).
Proof.
  intros Hs Hentry Hno. destruct w as [d s n b]. cbn [session db] in *. subst s.
  unfold stored_entry in Hentry.
  destruct (not_permitted_foreign P u entry Hno) as [Hrole Hden].
  split; [| split].
  - intros data. unfold update_consumption. mred.
    destruct (dict_is_empty data); mred; [refused |].
    destruct (conn_fails P n); mred; [refused |].
    rewrite Hentry. mred. rewrite Hrole. mred.
    unfold not_permitted in Hden. rewrite Hrole in Hden. cbn [negb] in Hden.
    destruct (getitem entry "user_id") as [ov|e]; mred; [| refused].
    cbn [rbind] in Hden.
    destruct (py_int P ov) as [owner|e]; mred; [| refused].
    cbn [rbind] in Hden.
    destruct (py_int P (su_user_id u)) as [me|e]; mred; [| refused].
    cbn [rbind] in Hden. destruct Hden as [Hden|[e Hden]]; [| discriminate Hden].
    apply (inj Ok) in Hden. rewrite Hden. mred. refused.
  - unfold get_consumption. mred2.
    destruct (conn_fails P n); mred; [refused |].
    rewrite Hentry.
    destruct (select_where (food_items d) _) as [food|]; mred; [| refused].
    match goal with
    | |- context [not_permitted P u ?row] =>
        assert (not_permitted P u row = not_permitted P u entry) as ->
    end.
    { unfold not_permitted, getitem. by rewrite !lookup_insert_ne by done. }
    destruct Hden as [->|[e ->]]; mred; refused.
  - unfold delete_consumption. mred.
    destruct (conn_fails P n); mred.
    { split; [reflexivity | intros row; discriminate]. }
    rewrite Hentry. cbn [fmap option_fmap option_map]. mred.
    destruct (not_permitted_project P u entry) as [->|Hnone].
    + destruct Hden as [->|[e ->]]; mred;
        (split; [reflexivity | intros row; discriminate]).
    + assert (not_permitted P u (project ["user_id"] entry) = Ok true
              ∨ ∃ e, not_permitted P u (project ["user_id"] entry) = Raise e) as Hden'.
      { unfold not_permitted. rewrite Hrole. cbn [negb].
        rewrite getitem_project by set_solver.
        unfold dict_get. rewrite Hnone. cbn [default from_option rbind].
        right. by eexists. }
      destruct Hden' as [->|[e ->]]; mred;
        (split; [reflexivity | intros row; discriminate]).
Qed.

Lemma foreign_entry_protected_witness :
  let bob := SessionUser (PInt 3) (PStr "bob") (PStr "user") in
  let w := demo_world (Some bob) in
  (∀ data,
     db (update_consumption demo_platform 1 data w).2 = db w
     ∧ ∀ r, (update_consumption demo_platform 1 data w).1 = Ok r → status r ≠ 200%nat)
  ∧ (db (get_consumption demo_platform 1 w).2 = db w
     ∧ ∀ r, (get_consumption demo_platform 1 w).1 = Ok r → status r ≠ 200%nat)
  ∧ (db (delete_consumption demo_platform 1 w).2 = db w
     ∧ ∀ row, (delete_consumption demo_platform 1 w).1 ≠ Ok (Deleted row)).
Proof.
  intros bob w.
  apply (foreign_entry_protected demo_platform 1 w bob (default ∅ (head demo_entries))).
  - reflexivity.
  - vm_refl.
  - intros [H|(owner & H1 & H2)].
    + vm_compute in H. discriminate H.
    + vm_compute in H1, H2. congruence.
Defined.

(** ** Deleting an entry *)

Lemma filter_neg_filter {A} (p : A → bool) (l : list A) :
  List.filter p (List.filter (λ x, negb (p x)) l) = [].
Proof.
  induction l as [|x l IH]; [done |]. cbn [List.filter].
  destruct (p x) eqn:Hp; cbn [negb List.filter]; [done |]. by rewrite Hp.
Qed.

#[global] Instance Deleted_inj : Inj (=) (=) Deleted.
Proof. by intros a b [= ->]. Qed.

Ltac not_deleted H :=
  apply returned_inv in H as [H _]; discriminate H.

(** A DELETE that answers with the deleted row has found that row under the
    id, and no row with the id is left: with storage reachable, a GET or a
    PUT on the id is answered 404 from then on. *)
Theorem delete_consumption_removes P entry_id w row w' :
  delete_consumption P entry_id w = (Ok (Deleted row), w') →
  (∃ entry, row = Some entry ∧ stored_entry (db w) entry_id = Some entry)
  ∧ stored_entry (db w') entry_id = None
  ∧ (conn_fails P (conns w') = None →
     (get_consumption P entry_id w').1
       = Ok (Response (Some (error_body "Not found")) 404)
     ∧ ∀ data, dict_is_empty data = false →
         (update_consumption P entry_id data w').1
           = Ok (Response (Some (error_body "Not found")) 404)).
Proof.
  intros H. destruct w as [d s n b]. unfold delete_consumption in H. mred_in H.
  destruct s as [u|]; mred_in H; [| not_deleted H].
  destruct (conn_fails P n); mred_in H; [not_deleted H |].
  destruct (select_where (consumption d) _) as [entry|] eqn:Hentry;
    cbn [fmap option_fmap option_map] in H; mred_in H; [| not_deleted H].
  destruct (not_permitted P u _) as [[|]|e]; mred_in H; try (not_deleted H).
  apply returned_inv in H as [Hrow <-]. apply (inj Deleted) in Hrow. subst row.
  cbn [db conns consumption].
  assert (select_where
            (List.filter (λ r, negb (sql_eq (dict_get r "entry_id") (PInt entry_id)))
               (consumption d))
            (λ r, sql_eq (dict_get r "entry_id") (PInt entry_id)) = None) as Hgone.
  { unfold select_where. by rewrite filter_neg_filter. }
  split; [| split].
  - exists entry. by split.
  - unfold stored_entry. cbn [consumption]. exact Hgone.
  - intros Hc. mred_in Hc. split.
    + unfold get_consumption. mred2. rewrite Hc. mred. by rewrite Hgone.
    + intros data Hdata. unfold update_consumption. mred. rewrite Hdata. mred. rewrite Hc. mred.
      by rewrite Hgone.
Qed.


Lemma delete_consumption_removes_witness :
  let w' := World (Database demo_users demo_foods [] [] 3 2) (Some demo_alice) 1 true in
  (∃ entry, head demo_entries = Some entry
            ∧ stored_entry (db (demo_world (Some demo_alice))) 1 = Some entry)
  ∧ stored_entry (db w') 1 = None
  ∧ (conn_fails demo_platform (conns w') = None →
     (get_consumption demo_platform 1 w').1
       = Ok (Response (Some (error_body "Not found")) 404)
     ∧ ∀ data, dict_is_empty data = false →
         (update_consumption demo_platform 1 data w').1
           = Ok (Response (Some (error_body "Not found")) 404)).
Proof.
  apply (delete_consumption_removes demo_platform 1 (demo_world (Some demo_alice))).
  vm_refl.
Defined.

(** ** Signing up *)

Lemma login_ok P data name pw w row h :
  get_or_empty data "username" = PStr name →
  strip name ≠ "" →
  get_or_empty data "password" = PStr pw →
  pw ≠ "" →
  conn_fails P (conns w) = None →
  select_where (users (db w))
    (λ r, sql_eq (dict_get r "username") (PStr (strip name))) = Some row →
  dict_get row "password_hash" = PStr h →
  h ≠ "" →
  check_password_hash P h pw = true →
  login P data w
  = (Ok (Response (Some (session_body (identity_of row))) 200),
     set_session (Some (identity_of row)) (set_conns (S (conns w)) w)).
Proof.
  intros Hname Hne Hp Hpne Hc Hrow Hh Hhne Hok. destruct w as [d s n b].
  cbn [conns db] in *.
  unfold login. rewrite Hname. mred.
  destruct (String.eqb_spec (strip name) "") as [|_]; [done |].
  rewrite Hp. cbn [py_truthy].
  destruct (String.eqb_spec pw "") as [|_]; [done |]. mred.
  rewrite Hc. mred. rewrite Hrow. cbn [fmap option_fmap option_map]. mred.
  rewrite !getitem_project by set_solver.
  rewrite dict_get_project by set_solver. mred.
  rewrite Hh. cbn [py_truthy].
  destruct (String.eqb_spec h "") as [|_]; [done |]. mred.
  rewrite Hok. mred. reflexivity.
Qed.

Lemma select_where_app_new (l : list pydict) (p : pydict → bool) r :
  select_where l p = None → p r = true → select_where (l ++ [r]) p = Some r.
Proof.
  unfold select_where. intros Hnone Hr. rewrite List.filter_app. cbn [List.filter].
  rewrite Hr. destruct (List.filter p l); [done | discriminate].
Qed.

(** A signup with a free username and a password of six characters or more
    appends one account: role [user], the stripped username, the hash of the
    password, the default target and no height or weight; it answers 201 and
    opens the session of that account. When the hash function produces
    non-empty hashes that verify against their password, a later login with
    the same payload finds this account and is answered 200. *)
Theorem signup_then_login P data name pw w :
  get_or_empty data "username" = PStr name →
  strip name ≠ "" →
  get_or_empty data "password" = PStr pw →
  (6 ≤ String.length pw)%nat →
  conn_fails P (conns w) = None →
  select_where (users (db w))
    (λ r, sql_eq (dict_get r "username") (PStr (strip name))) = None →
  ∃ row w',
    signup P data w = (Ok (Response (Some (session_body (identity_of row))) 201), w')
    ∧ users (db w') = users (db w) ++ [row]
    ∧ session w' = Some (identity_of row)
    ∧ dict_get row "user_id" = PInt (users_seq (db w))
    ∧ dict_get row "username" = PStr (strip name)
    ∧ dict_get row "role" = PStr "user"
    ∧ dict_get row "password_hash" = PStr (generate_password_hash P pw)
    ∧ dict_get row "target_calories" = PInt 2000
    ∧ dict_get row "height_value" = PNone
    ∧ dict_get row "weight_value" = PNone
    ∧ (generate_password_hash P pw ≠ "" →
       check_password_hash P (generate_password_hash P pw) pw = true →
       ∀ w2, db w2 = db w' → conn_fails P (conns w2) = None →
         login P data w2
         = (Ok (Response (Some (session_body (identity_of row))) 200),
            set_session (Some (identity_of row)) (set_conns (S (conns w2)) w2))).
Proof.
  intros Hname Hne Hp Hlen Hc Hfree. destruct w as [d s n b]. cbn [conns db] in *.
  assert (pw ≠ "") as Hpne by (intros ->; cbn in Hlen; lia).
  unfold signup. rewrite Hname. mred.
  destruct (String.eqb_spec (strip name) "") as [|_]; [done |].
  rewrite Hp. cbn [py_truthy].
  destruct (String.eqb_spec pw "") as [|_]; [done |]. mred. cbn [py_len].
  destruct (Nat.ltb_spec (String.length pw) 6) as [|_]; [lia |]. mred.
  rewrite Hc. mred. rewrite Hfree. mred.
  rewrite !getitem_project by (apply (bool_decide_unpack _); by vm_compute). mred.
  match goal with
  | |- context [users d ++ [?r]] => set (row := r)
  end.
  exists row. eexists. split; [reflexivity |].
  cbn [db users session].
  assert (dict_get row "username" = PStr (strip name)) as Huname.
  { subst row. by dict_get_inserts. }
  assert (dict_get row "password_hash" = PStr (generate_password_hash P pw)) as Hhash.
  { subst row. by dict_get_inserts. }
  repeat (refine (conj _ _)); try done; try (subst row; by dict_get_inserts).
  intros Hhne Hver w2 Hdb Hc2.
  apply (login_ok P data name pw w2 row (generate_password_hash P pw)); try done.
  rewrite Hdb. cbn [db users]. apply select_where_app_new; [done |].
  rewrite Huname. cbn [sql_eq]. apply String.eqb_refl.
Qed.

Lemma signup_then_login_witness :
  ∃ row w',
    signup demo_platform {[ "username" := PStr " carol "; "password" := PStr "teaparty" ]}
      (demo_world None)
    = (Ok (Response (Some (session_body (identity_of row))) 201), w')
    ∧ users (db w') = users (db (demo_world None)) ++ [row]
    ∧ session w' = Some (identity_of row)
    ∧ dict_get row "user_id" = PInt (users_seq (db (demo_world None)))
    ∧ dict_get row "username" = PStr (strip " carol ")
    ∧ dict_get row "role" = PStr "user"
    ∧ dict_get row "password_hash" = PStr (generate_password_hash demo_platform "teaparty")
    ∧ dict_get row "target_calories" = PInt 2000
    ∧ dict_get row "height_value" = PNone
    ∧ dict_get row "weight_value" = PNone
    ∧ (generate_password_hash demo_platform "teaparty" ≠ "" →
       check_password_hash demo_platform
         (generate_password_hash demo_platform "teaparty") "teaparty" = true →
       ∀ w2, db w2 = db w' → conn_fails demo_platform (conns w2) = None →
         login demo_platform
           {[ "username" := PStr " carol "; "password" := PStr "teaparty" ]} w2
         = (Ok (Response (Some (session_body (identity_of row))) 200),
            set_session (Some (identity_of row)) (set_conns (S (conns w2)) w2))).
Proof.
  apply (signup_then_login demo_platform
           {[ "username" := PStr " carol "; "password" := PStr "teaparty" ]}
           " carol " "teaparty" (demo_world None)).
  - reflexivity.
  - by vm_compute.
  - reflexivity.
  - vm_compute. lia.
  - reflexivity.
  - by vm_compute.
Defined.

(** Whatever the payload, a signup at most appends accounts to the users
    table and touches nothing else; an account it adds has the role [user]
    and a username that no account had before. So nobody signs up as an
    admin, and nobody signs up under a name that is taken. *)
Theorem signup_adds_plain_users_only P data w :
  users_grow (db w) (db (signup P data w).2)
  ∧ ∀ r, r ∈ users (db (signup P data w).2) →
      r ∈ users (db w)
      ∨ dict_get r "role" = PStr "user"
        ∧ ∃ name, dict_get r "username" = PStr name
                  ∧ select_where (users (db w))
                      (λ r, sql_eq (dict_get r "username") (PStr name)) = None.
Proof.
  split.
  - assert (keeps (frame users_grow (λ _ _, True)) (signup P data) w) as [Hk _];
      [| exact Hk].
    unfold signup. keeps_walk.
    all: try done.
    repeat (split; [by cbn |]). cbn [users]. by apply prefix_app_r.
  - set (Q := λ r : pydict,
           dict_get r "role" = PStr "user"
           ∧ ∃ name, dict_get r "username" = PStr name
                     ∧ select_where (users (db w))
                         (λ r, sql_eq (dict_get r "username") (PStr name)) = None).
    assert (keeps (frame (new_rows Q) (λ _ _, True)) (signup P data) w) as [Hk _];
      [| exact Hk].
    unfold signup. keeps_walk.
    all: try done.
    intros r Hr. cbn in Hr. apply elem_of_app in Hr as [Hr|Hr]; [by left |].
    apply list_elem_of_singleton in Hr as ->. right. unfold Q.
    dict_get_inserts. split; [done |]. eexists. split; [reflexivity |].
    match goal with Hdb : db _ = db w |- _ => rewrite <- Hdb end.
    assumption.
Qed.

(** ** Preview and completion *)

(** For a payload that names height, weight, units and goal: the preview
    endpoint answers with the calculator's target and the unrealistic flag,
    and changes nothing; and when the flag is off or confirmed, completing
    the profile with the same payload stores and returns that same target
    for every account with the session's user id. *)
Theorem preview_then_complete P data w u hv hu wv wu goal h wt t row :
  no_faults P →
  session w = Some u →
  data !! "height_value" = Some hv → data !! "height_unit" = Some hu →
  data !! "weight_value" = Some wv → data !! "weight_unit" = Some wu →
  data !! "dietary_goal" = Some goal →
  is_none hv = false → is_none wv = false →
  py_float P hv = Ok h → py_float P wv = Ok wt →
  py_in_strs hu ["cm"; "in"] = true →
  py_in_strs wu ["kg"; "lb"] = true →
  py_in_strs goal ["weight_gain"; "weight_loss"; "maintain"; "eat_healthy"] = true →
  calculate_target_calories P hv hu wv wu goal = Ok t →
  stored_user (db w) (su_user_id u) = Some row →
  preview_profile_target P data w
  = (Ok (Response
           (Some (<["preview_target_calories" := PInt t]>
                    {[ "requires_confirmation" :=
                         PBool (_unrealistic (_to_cm h hu) (_to_kg wt wu)) ]}))
           200), w)
  ∧ (_unrealistic (_to_cm h hu) (_to_kg wt wu)
     && negb (py_truthy (dict_get data "confirm_unrealistic")) = false →
     ∃ new_row w',
       complete_profile P data w
       = (Ok (Response (Some (<["profile_complete" := PBool true]> new_row)) 200), w')
       ∧ dict_get new_row "target_calories" = PInt t
       ∧ ∀ r, r ∈ users (db w') →
           sql_eq (dict_get r "user_id") (su_user_id u) = true →
           dict_get r "target_calories" = PInt t).
Proof.
  intros Hnf Hs Hhv Hhu Hwv Hwu Hgoal Hhn Hwn Hh Hwt Hhu_ok Hwu_ok Hgoal_ok Ht Hrow.
  unfold no_faults in Hnf. destruct w as [d s n b]. cbn [session db] in *. subst s.
  split.
  - unfold preview_profile_target. mred.
    rewrite (lookup_dict_get _ _ _ Hhv), (lookup_dict_get _ _ _ Hwv), Hhn, Hwn. mred.
    rewrite (lookup_dict_get_default _ _ _ _ Hhu), (lookup_dict_get_default _ _ _ _ Hwu),
      (lookup_dict_get_default _ _ _ _ Hgoal).
    rewrite Hh, Hwt. mred. rewrite Ht. mred. reflexivity.
  - intros Hgate. unfold complete_profile. mred.
    assert (missing_keys ["height_value"; "height_unit"; "weight_value"; "weight_unit";
                          "dietary_goal"] data = []) as ->.
    { unfold missing_keys, dict_has. cbn [List.filter].
      by rewrite Hhv, Hhu, Hwv, Hwu, Hgoal. }
    rewrite (lookup_getitem _ _ _ Hhv), (lookup_getitem _ _ _ Hwv),
      (lookup_getitem _ _ _ Hhu), (lookup_getitem _ _ _ Hwu),
      (lookup_getitem _ _ _ Hgoal). mred.
    rewrite Hh. mred. rewrite Hwt. mred.
    rewrite Hhu_ok, Hwu_ok, Hgoal_ok. mred. rewrite Hgate.
    rewrite (calculate_target_calories_floated P hv hu wv wu goal h wt Hh Hwt), Ht. mred.
    rewrite !Hnf. mred.
    unfold stored_user in Hrow. rewrite Hrow.
    unfold select_where in Hrow. rewrite head_fmap_list, Hrow.
    cbn [fmap option_fmap option_map]. mred.
    match goal with
    | |- context [_audit_profile_change P ?tg ?c ?o (Some ?r) ?w0] =>
        destruct (audit_profile_change_ok P tg c o r w0 (Hnf _))
          as (w2 & Haud & _ & Husers)
    end.
    rewrite Haud. mred.
    eexists. eexists. split; [reflexivity |].
    split.
    + rewrite dict_get_project by (apply (bool_decide_unpack _); by vm_compute).
      by dict_get_inserts.
    + intros r Hr Hid. rewrite Husers in Hr. cbn [db users] in Hr.
      apply elem_of_update_where in Hr as (r0 & Hr0 & ->).
      destruct (sql_eq (dict_get r0 "user_id") (su_user_id u)) eqn:Hid0.
      * by dict_get_inserts.
      * by rewrite Hid0 in Hid.
Qed.

Lemma preview_then_complete_witness :
  let data : pydict :=
    {[ "height_value" := PInt 170; "height_unit" := PStr "cm";
       "weight_value" := PInt 70; "weight_unit" := PStr "kg";
       "dietary_goal" := PStr "maintain" ]} in
  let w := demo_world (Some demo_alice) in
  preview_profile_target demo_platform data w
  = (Ok (Response
           (Some (<["preview_target_calories" := PInt 2560]>
                    {[ "requires_confirmation" :=
                         PBool (_unrealistic (_to_cm (Z2float 170) (PStr "cm"))
                                  (_to_kg (Z2float 70) (PStr "kg"))) ]}))
           200), w)
  ∧ (_unrealistic (_to_cm (Z2float 170) (PStr "cm")) (_to_kg (Z2float 70) (PStr "kg"))
     && negb (py_truthy (dict_get data "confirm_unrealistic")) = false →
     ∃ new_row w',
       complete_profile demo_platform data w
       = (Ok (Response (Some (<["profile_complete" := PBool true]> new_row)) 200), w')
       ∧ dict_get new_row "target_calories" = PInt 2560
       ∧ ∀ r, r ∈ users (db w') →
           sql_eq (dict_get r "user_id") (su_user_id demo_alice) = true →
           dict_get r "target_calories" = PInt 2560).
Proof.
  intros data w.
  apply (preview_then_complete demo_platform data w demo_alice
           (PInt 170) (PStr "cm") (PInt 70) (PStr "kg") (PStr "maintain")
           (Z2float 170) (Z2float 70) 2560 (default ∅ (demo_users !! 1%nat))).
  - intros n. reflexivity.
  - reflexivity.
  - vm_refl.
  - vm_refl.
  - vm_refl.
  - vm_refl.
  - vm_refl.
  - reflexivity.
  - reflexivity.
  - vm_refl.
  - vm_refl.
  - vm_refl.
  - vm_refl.
  - vm_refl.
  - vm_refl.
  - vm_refl.
Defined.

(** ** Answers *)

Section Yields.
Context {A : Type} (Q : A → Prop).
Variable P : platform.

Lemma yields_ret (a : A) w : Q a → yields Q (ret a) w.
Proof. intros H a' Ha. cbn in Ha. by injection Ha as <-. Qed.

Lemma yields_lift (r : result A) w : (∀ a, r = Ok a → Q a) → yields Q (lift r) w.
Proof. intros H a Ha. by apply H. Qed.

Lemma yields_bind_any {B} (m : M B) (k : B → M A) w :
  (∀ b w1, yields Q (k b) w1) → yields Q (bind m k) w.
Proof.
  unfold yields, bind. intros Hk a. destruct (m w) as [[b|e] w1]; [apply Hk | done].
Qed.

Lemma yields_bind_with {B} (Qb : B → Prop) (m : M B) (k : B → M A) w :
  yields Qb m w → (∀ b w1, Qb b → yields Q (k b) w1) → yields Q (bind m k) w.
Proof.
  unfold yields, bind. intros Hm Hk a. destruct (m w) as [[b|e] w1]; [| done].
  apply Hk, Hm. done.
Qed.

Lemma yields_bind_lift {B} (r : result B) (k : B → M A) w :
  (∀ b, r = Ok b → yields Q (k b) w) → yields Q (bind (lift r) k) w.
Proof.
  unfold yields, bind, lift. intros Hk a. destruct r as [b|e]; [by apply Hk | done].
Qed.

Lemma yields_get_db (k : database → M A) w :
  yields Q (k (db w)) w → yields Q (bind get_db k) w.
Proof. done. Qed.

Lemma yields_catch (m : M A) (h : exn → M A) w :
  yields Q m w → (∀ e w1, yields Q (h e) w1) → yields Q (catch m h) w.
Proof.
  unfold yields, catch. intros Hm Hh a. destruct (m w) as [[b|e] w1]; [apply Hm | apply Hh].
Qed.

Lemma yields_with_conn (m : M A) w :
  (∀ w1, yields Q m w1) → yields Q (with_conn P m) w.
Proof.
  unfold yields, with_conn. intros Hm a. destruct (conn_fails P (conns w)); [done |].
  specialize (Hm (set_conns (S (conns w)) w) a).
  destruct (m (set_conns (S (conns w)) w)) as [[b|e] w2]; [exact Hm | done].
Qed.
End Yields.

Section YieldsResponse.
Context (Q : response → Prop).

Lemma yields_jsonify d code w : Q (Response (Some d) code) → yields Q (jsonify d code) w.
Proof. intros H a Ha. cbn in Ha. by injection Ha as <-. Qed.

Lemma yields_json_error code msg w :
  Q (Response (Some (error_body msg)) code) → yields Q (json_error code msg) w.
Proof. intros H a Ha. cbn in Ha. by injection Ha as <-. Qed.

Lemma yields_require_auth fn w :
  Q (Response (Some (error_body "Not authenticated")) 401) →
  (∀ u, yields Q (fn u) w) → yields Q (require_auth fn) w.
Proof.
  unfold yields, require_auth, bind, _current_user. intros H0 Hfn a.
  destruct (session w) as [u|]; [apply Hfn |].
  cbn. intros Ha. by injection Ha as <-.
Qed.

Lemma yields_require_admin fn w :
  Q (Response (Some (error_body "Not authenticated")) 401) →
  Q (Response (Some (error_body "You don't have permission")) 403) →
  (∀ u, yields Q (fn u) w) → yields Q (require_admin fn) w.
Proof.
  unfold yields, require_admin, bind, _current_user. intros H0 H1 Hfn a.
  destruct (session w) as [u|]; [| cbn; intros Ha; by injection Ha as <-].
  destruct (negb _); [cbn; intros Ha; by injection Ha as <- | apply Hfn].
Qed.
End YieldsResponse.

Lemma project_lookup_notin cols (r : pydict) k :
  k ∉ cols → project cols r !! k = None.
Proof.
  intros Hk. unfold project. apply not_elem_of_list_to_map_1.
  rewrite <- list_fmap_compose.
  replace (fst ∘ (λ k0, (k0, dict_get r k0))) with (@id string) by done.
  by rewrite list_fmap_id.
Qed.

Lemma profile_columns_hide (r : pydict) :
  project profile_columns r !! "password_hash" = None.
Proof. apply project_lookup_notin. apply (bool_decide_unpack _). by vm_compute. Qed.

Lemma error_body_hides msg code : hides_hash (Response (Some (error_body msg)) code).
Proof. intros d Hd. cbn in Hd. apply (inj Some) in Hd. by subst d. Qed.

Lemma confirmation_body_hides msg preview code :
  hides_hash (Response (Some (requires_confirmation_body msg preview)) code).
Proof. intros d Hd. cbn in Hd. apply (inj Some) in Hd. by subst d. Qed.

Lemma session_body_hides u code : hides_hash (Response (Some (session_body u)) code).
Proof. intros d Hd. cbn in Hd. apply (inj Some) in Hd. by subst d. Qed.

Ltac hides_leaf :=
  let d := fresh "d" in
  let Hd := fresh "Hd" in
  intros d Hd;
  first
    [ match goal with H : profile_row _ |- _ => exact (H d Hd) end
    | apply (inj Some) in Hd; subst d;
      repeat (rewrite lookup_insert_ne by done);
      first [ done
            | apply lookup_singleton_ne; done
            | match goal with
              | H : profile_row ?b, E : ?b = Some ?g |- ?g !! _ = None => exact (H g E)
              | H : profile_row (Some ?g) |- ?g !! _ = None => exact (H g eq_refl)
              | H : ?g !! "password_hash" = None |- _ => exact H
              end ] ].

Ltac yields_step :=
  lazymatch goal with
  | |- yields _ (require_auth _) _ =>
      apply yields_require_auth; [apply error_body_hides | intros ?]
  | |- yields _ (require_admin _) _ =>
      apply yields_require_admin;
      [apply error_body_hides | apply error_body_hides | intros ?]
  | |- yields _ (bind get_db _) _ => apply yields_get_db; cbn beta zeta
  | |- yields _ (bind (lift _) _) _ => apply yields_bind_lift; intros ? ?
  | |- yields _ (bind _ _) _ =>
      first [ apply (yields_bind_with _ profile_row);
              [solve [repeat yields_step] | intros ? ? ?]
            | apply (yields_bind_with _ (λ d : pydict, d !! "password_hash" = None));
              [solve [repeat yields_step] | intros ? ? ?]
            | apply yields_bind_any; intros ? ? ]
  | |- yields _ (catch _ _) _ => apply yields_catch; [| intros ? ?]
  | |- yields _ (with_conn _ _) _ => apply yields_with_conn; intros ?
  | |- yields hides_hash (json_error _ _) _ =>
      apply yields_json_error, error_body_hides
  | |- yields hides_hash (on_exception _) _ =>
      apply yields_json_error, error_body_hides
  | |- yields hides_hash (jsonify (requires_confirmation_body _ _) _) _ =>
      apply yields_jsonify, confirmation_body_hides
  | |- yields hides_hash (jsonify (session_body _) _) _ =>
      apply yields_jsonify, session_body_hides
  | |- yields hides_hash (jsonify _ _) _ => apply yields_jsonify; hides_leaf
  | |- yields hides_hash (ret _) _ => apply yields_ret; hides_leaf
  | |- yields _ (lift (Raise _)) _ => apply yields_lift; intros ? ?; discriminate
  | |- yields _ (match ?x with _ => _ end) _ => destruct x eqn:?
  | |- yields _ (let _ := _ in _) _ => cbn zeta
  | |- yields _ (select_profile _) _ => unfold select_profile
  | |- yields _ (confirmation_required _ _ _ _ _ _ _) _ => unfold confirmation_required
  | |- yields _ (update_users _ _) _ => unfold update_users
  | |- yields profile_row (ret (project profile_columns <$> _)) _ =>
      apply yields_ret; intros ? ?;
      match goal with
      | H : project profile_columns <$> ?r = Some _ |- _ =>
          destruct r; [apply (inj Some) in H; subst; apply profile_columns_hide
                      | discriminate H]
      end
  | |- yields _ (ret (project profile_columns _)) _ =>
      apply yields_ret; apply profile_columns_hide
  end.

(** No answer of an endpoint on accounts carries a password hash: neither a
    profile row, nor a created or updated account, nor an error. The same
    holds for the answers of login and signup. *)
Theorem account_answers_hide_password_hash P w :
  (∀ ep, account_endpoint ep = true → yields hides_hash (run P ep) w)
  ∧ (∀ data, yields hides_hash (login P data) w)
  ∧ (∀ data, yields hides_hash (signup P data) w).
Proof.
  split; [| split].
  - intros ep Hep. destruct ep; try discriminate Hep; cbn [run];
      [ unfold get_profile | unfold preview_profile_target | unfold update_profile
      | unfold complete_profile | unfold create_user | unfold update_user ].
    all: repeat yields_step.
  - intros data. unfold login. repeat yields_step.
  - intros data. unfold signup. repeat yields_step.
Qed.

(** ** Stored health scores *)

#[global] Instance new_entries_preorder Q : PreOrder (new_entries Q).
Proof.
  split.
  - intros d r Hr. by left.
  - intros d1 d2 d3 H12 H23 r Hr.
    destruct (H23 r Hr) as [Hr2|HQ]; [by apply H12 | by right].
Qed.

Lemma calculate_health_score_within calories protein fiber sugars v :
  calculate_health_score calories protein fiber sugars = Ok v → within_0_100 v.
Proof.
  intros H. destruct (calculate_health_score_total calories protein fiber sugars)
    as (v' & Hv' & Hin).
  rewrite H in Hv'. by injection Hv' as ->.
Qed.

(** Every entry that a create writes, and every entry that an update with a
    portion size in its payload writes, carries a health score that is 0,
    100 or a float strictly between them, whatever score the payload
    names. *)
Theorem written_scores_within_range P w :
  (∀ data r,
     r ∈ consumption (db (create_consumption P data w).2) →
     r ∈ consumption (db w) ∨ within_0_100 (dict_get r "health_score"))
  ∧ (∀ entry_id data r,
       dict_has data "portion_size" = true →
       r ∈ consumption (db (update_consumption P entry_id data w).2) →
       r ∈ consumption (db w) ∨ within_0_100 (dict_get r "health_score")).
Proof.
  set (Q := λ r : pydict, within_0_100 (dict_get r "health_score")).
  split.
  - intros data.
    assert (keeps (frame (new_entries Q) eq) (create_consumption P data) w) as [Hk _];
      [| exact Hk].
    unfold create_consumption. keeps_walk.
    all: intros r Hr; cbn in Hr; apply elem_of_app in Hr as [Hr|Hr]; [by left |].
    all: apply list_elem_of_singleton in Hr as ->; right; unfold Q.
    all: dict_get_inserts.
    all: eapply calculate_health_score_within; eassumption.
  - intros entry_id data r Hp.
    assert (keeps (frame (new_entries Q) eq) (update_consumption P entry_id data) w)
      as [Hk _]; [| exact (Hk r)].
    unfold update_consumption. keeps_walk.
    all: try (rewrite Hp in *; discriminate).
    all: intros r' Hr'; cbn in Hr'.
    all: apply elem_of_update_where in Hr' as (r0 & Hr0 & ->).
    all: destruct (sql_eq _ _); [right | by left].
    all: match goal with H : update_assignments _ = _ |- _ => rewrite <- H end.
    all: unfold Q, dict_get.
    all: erewrite update_assignments_lookup;
      [ | apply (bool_decide_unpack _); by vm_compute | apply lookup_insert_eq ].
    all: eapply calculate_health_score_within; eassumption.
Qed.
